(** * Source discovery and stub/source merging of the mypy fork

    A shallow embedding of [mypy/find_sources.py] (the source finder and the
    module identity resolver) and of [mypy/stub_src_merge.py] (the merge
    engine), with the properties of their specification stated over it.

    Conventions
    - Python [str] is [string], which holds the text in UTF-8; the path and
      name functions look for ASCII characters, which UTF-8 keeps apart from
      all others, and byte order is code point order. Paths are POSIX.
    - Python exceptions are an explicit outcome; a run that is still going
      when the step budget is used up is [OutOfFuel].
    - Python [dict]s that are only looked up are [gmap]s, [set]s are [gset]s;
      [dict]s whose iteration order is observed are association lists. *)

From Stdlib Require Import ZArith Ascii.
From stdpp Require Import base tactics option list gmap strings sorting.

Local Open Scope Z_scope.

(** ** Outcomes of a Python call *)

Inductive pyexn : Type :=
  | InvalidSourceList_not_a_package_name (base : string)
  | InvalidSourceList_no_py_files (dir : string)
  | KeyError (key : string)
  | RuntimeError_cannot_merge
  | RuntimeError_dict_changed_size
  | AttributeError.

Inductive outcome (A : Type) : Type :=
  | Ok (a : A)
  | Raise (e : pyexn)
  | OutOfFuel.
Arguments Ok {A} a.
Arguments Raise {A} e.
Arguments OutOfFuel {A}.

Definition obind {A B} (m : outcome A) (k : A -> outcome B) : outcome B :=
  match m with
  | Ok a => k a
  | Raise e => Raise e
  | OutOfFuel => OutOfFuel
  end.

(** ** The parts of Python's [str] and [os.path] (POSIX) the code uses *)

Module Py.

Definition sep : ascii := "/"%char.
Definition dot : ascii := "."%char.

(** [c in s] *)
Fixpoint contains (c : ascii) (s : string) : bool :=
  match s with
  | EmptyString => false
  | String a s' => Ascii.eqb a c || contains c s'
  end.

(** [s.startswith(p)] *)
Fixpoint startswith (s p : string) : bool :=
  match p with
  | EmptyString => true
  | String b p' =>
      match s with
      | EmptyString => false
      | String a s' => Ascii.eqb a b && startswith s' p'
      end
  end.

(** [s.endswith(p)] *)
Fixpoint endswith (s p : string) : bool :=
  String.eqb s p ||
  match s with
  | EmptyString => false
  | String _ s' => endswith s' p
  end.

(** [s[:-n]] for [0 < n <= len(s)] *)
Definition drop_last (n : nat) (s : string) : string :=
  String.substring 0 (String.length s - n) s.

(** [s.rstrip(c)] *)
Fixpoint rstrip (c : ascii) (s : string) : string :=
  match s with
  | EmptyString => EmptyString
  | String a s' =>
      match rstrip c s' with
      | EmptyString => if Ascii.eqb a c then EmptyString else String a EmptyString
      | r => String a r
      end
  end.

(** The split of [s] at the last occurrence of [c]: [s[:i]] and [s[i+1:]]
    for [i = s.rfind(c)], when there is one. *)
Fixpoint rsplit (c : ascii) (s : string) : option (string * string) :=
  match s with
  | EmptyString => None
  | String a s' =>
      match rsplit c s' with
      | Some (h, t) => Some (String a h, t)
      | None => if Ascii.eqb a c then Some (EmptyString, s') else None
      end
  end.

(** [s == c * len(s)] *)
Fixpoint all_char (c : ascii) (s : string) : bool :=
  match s with
  | EmptyString => true
  | String a s' => Ascii.eqb a c && all_char c s'
  end.

(** [os.path.split] *)
Definition split (p : string) : string * string :=
  match rsplit sep p with
  | None => (EmptyString, p)
  | Some (h, tail) =>
      let head := h +:+ "/" in
      (if all_char sep head then head else rstrip sep head, tail)
  end.

(** [os.path.basename] *)
Definition basename (p : string) : string := snd (split p).

(** The leading run of [c] in [s], and the rest. *)
Fixpoint span_char (c : ascii) (s : string) : string * string :=
  match s with
  | EmptyString => (EmptyString, EmptyString)
  | String a s' =>
      if Ascii.eqb a c
      then let '(d, r) := span_char c s' in (String a d, r)
      else (EmptyString, s)
  end.

(** [os.path.splitext]: the extension starts at the last dot of the last
    path component, leading dots of that component not counted. *)
Definition splitext (p : string) : string * string :=
  let '(dirpart, fname) :=
    match rsplit sep p with
    | None => (EmptyString, p)
    | Some (h, t) => (h +:+ "/", t)
    end in
  let '(dots, rest) := span_char dot fname in
  match rsplit dot rest with
  | Some (r1, r2) => (dirpart +:+ dots +:+ r1, String dot r2)
  | None => (p, EmptyString)
  end.

(** [os.path.join(a, b)] *)
Definition join (a b : string) : string :=
  if startswith b "/" then b
  else if String.eqb a "" || endswith a "/" then a +:+ b
  else a +:+ "/" +:+ b.

(** [s.split('/')] *)
Fixpoint split_on_sep (s : string) : list string :=
  match s with
  | EmptyString => [EmptyString]
  | String a s' =>
      if Ascii.eqb a sep then EmptyString :: split_on_sep s'
      else match split_on_sep s' with
           | [] => [String a EmptyString]
           | w :: ws => String a w :: ws
           end
  end.

(** ['/'.join(comps)] *)
Fixpoint join_sep (comps : list string) : string :=
  match comps with
  | [] => EmptyString
  | [c] => c
  | c :: cs => c +:+ "/" +:+ join_sep cs
  end.

(** The loop of [os.path.normpath] over the components; [new_comps] is kept
    in reverse. *)
Fixpoint normpath_comps (initial_slashes : nat) (comps new_comps : list string)
    : list string :=
  match comps with
  | [] => rev new_comps
  | comp :: comps' =>
      if String.eqb comp "" || String.eqb comp "." then
        normpath_comps initial_slashes comps' new_comps
      else if negb (String.eqb comp "..")
              || (Nat.eqb initial_slashes 0 && bool_decide (new_comps = []))
              || match new_comps with
                 | last :: _ => String.eqb last ".."
                 | [] => false
                 end then
        normpath_comps initial_slashes comps' (comp :: new_comps)
      else
        normpath_comps initial_slashes comps' (tail new_comps)
  end.

(** [os.path.normpath] *)
Definition normpath (path : string) : string :=
  if String.eqb path "" then "."
  else
    let initial_slashes : nat :=
      if startswith path "/" then
        if startswith path "//" && negb (startswith path "///") then 2%nat
        else 1%nat
      else 0%nat in
    let comps := normpath_comps initial_slashes (split_on_sep path) [] in
    let path' :=
      match initial_slashes with
      | 0%nat => join_sep comps
      | 1%nat => "/" +:+ join_sep comps
      | _ => "//" +:+ join_sep comps
      end in
    if String.eqb path' "" then "." else path'.

(** *** [str.isidentifier]

    CPython asks for a first character that is [XID_Start] or the underscore
    and for [XID_Continue] characters after it ([PyUnicode_IsIdentifier]).
    The characters are code points: a [string] holds them in UTF-8. *)

(** The code points with the Unicode property [XID_Start], as ranges in
    ascending order (Unicode 14.0.0, the tables of CPython 3.11) *)
Definition XID_Start : list (N * N) :=
  [(65, 90); (97, 122); (170, 170); (181, 181); (186, 186); (192, 214); (216, 246); (248, 705);
   (710, 721); (736, 740); (748, 748); (750, 750); (880, 884); (886, 887); (891, 893);
   (895, 895); (902, 902); (904, 906); (908, 908); (910, 929); (931, 1013); (1015, 1153);
   (1162, 1327); (1329, 1366); (1369, 1369); (1376, 1416); (1488, 1514); (1519, 1522);
   (1568, 1610); (1646, 1647); (1649, 1747); (1749, 1749); (1765, 1766); (1774, 1775);
   (1786, 1788); (1791, 1791); (1808, 1808); (1810, 1839); (1869, 1957); (1969, 1969);
   (1994, 2026); (2036, 2037); (2042, 2042); (2048, 2069); (2074, 2074); (2084, 2084);
   (2088, 2088); (2112, 2136); (2144, 2154); (2160, 2183); (2185, 2190); (2208, 2249);
   (2308, 2361); (2365, 2365); (2384, 2384); (2392, 2401); (2417, 2432); (2437, 2444);
   (2447, 2448); (2451, 2472); (2474, 2480); (2482, 2482); (2486, 2489); (2493, 2493);
   (2510, 2510); (2524, 2525); (2527, 2529); (2544, 2545); (2556, 2556); (2565, 2570);
   (2575, 2576); (2579, 2600); (2602, 2608); (2610, 2611); (2613, 2614); (2616, 2617);
   (2649, 2652); (2654, 2654); (2674, 2676); (2693, 2701); (2703, 2705); (2707, 2728);
   (2730, 2736); (2738, 2739); (2741, 2745); (2749, 2749); (2768, 2768); (2784, 2785);
   (2809, 2809); (2821, 2828); (2831, 2832); (2835, 2856); (2858, 2864); (2866, 2867);
   (2869, 2873); (2877, 2877); (2908, 2909); (2911, 2913); (2929, 2929); (2947, 2947);
   (2949, 2954); (2958, 2960); (2962, 2965); (2969, 2970); (2972, 2972); (2974, 2975);
   (2979, 2980); (2984, 2986); (2990, 3001); (3024, 3024); (3077, 3084); (3086, 3088);
   (3090, 3112); (3114, 3129); (3133, 3133); (3160, 3162); (3165, 3165); (3168, 3169);
   (3200, 3200); (3205, 3212); (3214, 3216); (3218, 3240); (3242, 3251); (3253, 3257);
   (3261, 3261); (3293, 3294); (3296, 3297); (3313, 3314); (3332, 3340); (3342, 3344);
   (3346, 3386); (3389, 3389); (3406, 3406); (3412, 3414); (3423, 3425); (3450, 3455);
   (3461, 3478); (3482, 3505); (3507, 3515); (3517, 3517); (3520, 3526); (3585, 3632);
   (3634, 3634); (3648, 3654); (3713, 3714); (3716, 3716); (3718, 3722); (3724, 3747);
   (3749, 3749); (3751, 3760); (3762, 3762); (3773, 3773); (3776, 3780); (3782, 3782);
   (3804, 3807); (3840, 3840); (3904, 3911); (3913, 3948); (3976, 3980); (4096, 4138);
   (4159, 4159); (4176, 4181); (4186, 4189); (4193, 4193); (4197, 4198); (4206, 4208);
   (4213, 4225); (4238, 4238); (4256, 4293); (4295, 4295); (4301, 4301); (4304, 4346);
   (4348, 4680); (4682, 4685); (4688, 4694); (4696, 4696); (4698, 4701); (4704, 4744);
   (4746, 4749); (4752, 4784); (4786, 4789); (4792, 4798); (4800, 4800); (4802, 4805);
   (4808, 4822); (4824, 4880); (4882, 4885); (4888, 4954); (4992, 5007); (5024, 5109);
   (5112, 5117); (5121, 5740); (5743, 5759); (5761, 5786); (5792, 5866); (5870, 5880);
   (5888, 5905); (5919, 5937); (5952, 5969); (5984, 5996); (5998, 6000); (6016, 6067);
   (6103, 6103); (6108, 6108); (6176, 6264); (6272, 6312); (6314, 6314); (6320, 6389);
   (6400, 6430); (6480, 6509); (6512, 6516); (6528, 6571); (6576, 6601); (6656, 6678);
   (6688, 6740); (6823, 6823); (6917, 6963); (6981, 6988); (7043, 7072); (7086, 7087);
   (7098, 7141); (7168, 7203); (7245, 7247); (7258, 7293); (7296, 7304); (7312, 7354);
   (7357, 7359); (7401, 7404); (7406, 7411); (7413, 7414); (7418, 7418); (7424, 7615);
   (7680, 7957); (7960, 7965); (7968, 8005); (8008, 8013); (8016, 8023); (8025, 8025);
   (8027, 8027); (8029, 8029); (8031, 8061); (8064, 8116); (8118, 8124); (8126, 8126);
   (8130, 8132); (8134, 8140); (8144, 8147); (8150, 8155); (8160, 8172); (8178, 8180);
   (8182, 8188); (8305, 8305); (8319, 8319); (8336, 8348); (8450, 8450); (8455, 8455);
   (8458, 8467); (8469, 8469); (8472, 8477); (8484, 8484); (8486, 8486); (8488, 8488);
   (8490, 8505); (8508, 8511); (8517, 8521); (8526, 8526); (8544, 8584); (11264, 11492);
   (11499, 11502); (11506, 11507); (11520, 11557); (11559, 11559); (11565, 11565);
   (11568, 11623); (11631, 11631); (11648, 11670); (11680, 11686); (11688, 11694);
   (11696, 11702); (11704, 11710); (11712, 11718); (11720, 11726); (11728, 11734);
   (11736, 11742); (12293, 12295); (12321, 12329); (12337, 12341); (12344, 12348);
   (12353, 12438); (12445, 12447); (12449, 12538); (12540, 12543); (12549, 12591);
   (12593, 12686); (12704, 12735); (12784, 12799); (13312, 19903); (19968, 42124);
   (42192, 42237); (42240, 42508); (42512, 42527); (42538, 42539); (42560, 42606);
   (42623, 42653); (42656, 42735); (42775, 42783); (42786, 42888); (42891, 42954);
   (42960, 42961); (42963, 42963); (42965, 42969); (42994, 43009); (43011, 43013);
   (43015, 43018); (43020, 43042); (43072, 43123); (43138, 43187); (43250, 43255);
   (43259, 43259); (43261, 43262); (43274, 43301); (43312, 43334); (43360, 43388);
   (43396, 43442); (43471, 43471); (43488, 43492); (43494, 43503); (43514, 43518);
   (43520, 43560); (43584, 43586); (43588, 43595); (43616, 43638); (43642, 43642);
   (43646, 43695); (43697, 43697); (43701, 43702); (43705, 43709); (43712, 43712);
   (43714, 43714); (43739, 43741); (43744, 43754); (43762, 43764); (43777, 43782);
   (43785, 43790); (43793, 43798); (43808, 43814); (43816, 43822); (43824, 43866);
   (43868, 43881); (43888, 44002); (44032, 55203); (55216, 55238); (55243, 55291);
   (63744, 64109); (64112, 64217); (64256, 64262); (64275, 64279); (64285, 64285);
   (64287, 64296); (64298, 64310); (64312, 64316); (64318, 64318); (64320, 64321);
   (64323, 64324); (64326, 64433); (64467, 64605); (64612, 64829); (64848, 64911);
   (64914, 64967); (65008, 65017); (65137, 65137); (65139, 65139); (65143, 65143);
   (65145, 65145); (65147, 65147); (65149, 65149); (65151, 65276); (65313, 65338);
   (65345, 65370); (65382, 65437); (65440, 65470); (65474, 65479); (65482, 65487);
   (65490, 65495); (65498, 65500); (65536, 65547); (65549, 65574); (65576, 65594);
   (65596, 65597); (65599, 65613); (65616, 65629); (65664, 65786); (65856, 65908);
   (66176, 66204); (66208, 66256); (66304, 66335); (66349, 66378); (66384, 66421);
   (66432, 66461); (66464, 66499); (66504, 66511); (66513, 66517); (66560, 66717);
   (66736, 66771); (66776, 66811); (66816, 66855); (66864, 66915); (66928, 66938);
   (66940, 66954); (66956, 66962); (66964, 66965); (66967, 66977); (66979, 66993);
   (66995, 67001); (67003, 67004); (67072, 67382); (67392, 67413); (67424, 67431);
   (67456, 67461); (67463, 67504); (67506, 67514); (67584, 67589); (67592, 67592);
   (67594, 67637); (67639, 67640); (67644, 67644); (67647, 67669); (67680, 67702);
   (67712, 67742); (67808, 67826); (67828, 67829); (67840, 67861); (67872, 67897);
   (67968, 68023); (68030, 68031); (68096, 68096); (68112, 68115); (68117, 68119);
   (68121, 68149); (68192, 68220); (68224, 68252); (68288, 68295); (68297, 68324);
   (68352, 68405); (68416, 68437); (68448, 68466); (68480, 68497); (68608, 68680);
   (68736, 68786); (68800, 68850); (68864, 68899); (69248, 69289); (69296, 69297);
   (69376, 69404); (69415, 69415); (69424, 69445); (69488, 69505); (69552, 69572);
   (69600, 69622); (69635, 69687); (69745, 69746); (69749, 69749); (69763, 69807);
   (69840, 69864); (69891, 69926); (69956, 69956); (69959, 69959); (69968, 70002);
   (70006, 70006); (70019, 70066); (70081, 70084); (70106, 70106); (70108, 70108);
   (70144, 70161); (70163, 70187); (70272, 70278); (70280, 70280); (70282, 70285);
   (70287, 70301); (70303, 70312); (70320, 70366); (70405, 70412); (70415, 70416);
   (70419, 70440); (70442, 70448); (70450, 70451); (70453, 70457); (70461, 70461);
   (70480, 70480); (70493, 70497); (70656, 70708); (70727, 70730); (70751, 70753);
   (70784, 70831); (70852, 70853); (70855, 70855); (71040, 71086); (71128, 71131);
   (71168, 71215); (71236, 71236); (71296, 71338); (71352, 71352); (71424, 71450);
   (71488, 71494); (71680, 71723); (71840, 71903); (71935, 71942); (71945, 71945);
   (71948, 71955); (71957, 71958); (71960, 71983); (71999, 71999); (72001, 72001);
   (72096, 72103); (72106, 72144); (72161, 72161); (72163, 72163); (72192, 72192);
   (72203, 72242); (72250, 72250); (72272, 72272); (72284, 72329); (72349, 72349);
   (72368, 72440); (72704, 72712); (72714, 72750); (72768, 72768); (72818, 72847);
   (72960, 72966); (72968, 72969); (72971, 73008); (73030, 73030); (73056, 73061);
   (73063, 73064); (73066, 73097); (73112, 73112); (73440, 73458); (73648, 73648);
   (73728, 74649); (74752, 74862); (74880, 75075); (77712, 77808); (77824, 78894);
   (82944, 83526); (92160, 92728); (92736, 92766); (92784, 92862); (92880, 92909);
   (92928, 92975); (92992, 92995); (93027, 93047); (93053, 93071); (93760, 93823);
   (93952, 94026); (94032, 94032); (94099, 94111); (94176, 94177); (94179, 94179);
   (94208, 100343); (100352, 101589); (101632, 101640); (110576, 110579); (110581, 110587);
   (110589, 110590); (110592, 110882); (110928, 110930); (110948, 110951); (110960, 111355);
   (113664, 113770); (113776, 113788); (113792, 113800); (113808, 113817); (119808, 119892);
   (119894, 119964); (119966, 119967); (119970, 119970); (119973, 119974); (119977, 119980);
   (119982, 119993); (119995, 119995); (119997, 120003); (120005, 120069); (120071, 120074);
   (120077, 120084); (120086, 120092); (120094, 120121); (120123, 120126); (120128, 120132);
   (120134, 120134); (120138, 120144); (120146, 120485); (120488, 120512); (120514, 120538);
   (120540, 120570); (120572, 120596); (120598, 120628); (120630, 120654); (120656, 120686);
   (120688, 120712); (120714, 120744); (120746, 120770); (120772, 120779); (122624, 122654);
   (123136, 123180); (123191, 123197); (123214, 123214); (123536, 123565); (123584, 123627);
   (124896, 124902); (124904, 124907); (124909, 124910); (124912, 124926); (124928, 125124);
   (125184, 125251); (125259, 125259); (126464, 126467); (126469, 126495); (126497, 126498);
   (126500, 126500); (126503, 126503); (126505, 126514); (126516, 126519); (126521, 126521);
   (126523, 126523); (126530, 126530); (126535, 126535); (126537, 126537); (126539, 126539);
   (126541, 126543); (126545, 126546); (126548, 126548); (126551, 126551); (126553, 126553);
   (126555, 126555); (126557, 126557); (126559, 126559); (126561, 126562); (126564, 126564);
   (126567, 126570); (126572, 126578); (126580, 126583); (126585, 126588); (126590, 126590);
   (126592, 126601); (126603, 126619); (126625, 126627); (126629, 126633); (126635, 126651);
   (131072, 173791); (173824, 177976); (177984, 178205); (178208, 183969); (183984, 191456);
   (194560, 195101); (196608, 201546)]%N.

(** The code points with the property [XID_Continue] and without
    [XID_Start] *)
Definition XID_Continue_only : list (N * N) :=
  [(48, 57); (95, 95); (183, 183); (768, 879); (903, 903); (1155, 1159); (1425, 1469);
   (1471, 1471); (1473, 1474); (1476, 1477); (1479, 1479); (1552, 1562); (1611, 1641);
   (1648, 1648); (1750, 1756); (1759, 1764); (1767, 1768); (1770, 1773); (1776, 1785);
   (1809, 1809); (1840, 1866); (1958, 1968); (1984, 1993); (2027, 2035); (2045, 2045);
   (2070, 2073); (2075, 2083); (2085, 2087); (2089, 2093); (2137, 2139); (2200, 2207);
   (2250, 2273); (2275, 2307); (2362, 2364); (2366, 2383); (2385, 2391); (2402, 2403);
   (2406, 2415); (2433, 2435); (2492, 2492); (2494, 2500); (2503, 2504); (2507, 2509);
   (2519, 2519); (2530, 2531); (2534, 2543); (2558, 2558); (2561, 2563); (2620, 2620);
   (2622, 2626); (2631, 2632); (2635, 2637); (2641, 2641); (2662, 2673); (2677, 2677);
   (2689, 2691); (2748, 2748); (2750, 2757); (2759, 2761); (2763, 2765); (2786, 2787);
   (2790, 2799); (2810, 2815); (2817, 2819); (2876, 2876); (2878, 2884); (2887, 2888);
   (2891, 2893); (2901, 2903); (2914, 2915); (2918, 2927); (2946, 2946); (3006, 3010);
   (3014, 3016); (3018, 3021); (3031, 3031); (3046, 3055); (3072, 3076); (3132, 3132);
   (3134, 3140); (3142, 3144); (3146, 3149); (3157, 3158); (3170, 3171); (3174, 3183);
   (3201, 3203); (3260, 3260); (3262, 3268); (3270, 3272); (3274, 3277); (3285, 3286);
   (3298, 3299); (3302, 3311); (3328, 3331); (3387, 3388); (3390, 3396); (3398, 3400);
   (3402, 3405); (3415, 3415); (3426, 3427); (3430, 3439); (3457, 3459); (3530, 3530);
   (3535, 3540); (3542, 3542); (3544, 3551); (3558, 3567); (3570, 3571); (3633, 3633);
   (3635, 3642); (3655, 3662); (3664, 3673); (3761, 3761); (3763, 3772); (3784, 3789);
   (3792, 3801); (3864, 3865); (3872, 3881); (3893, 3893); (3895, 3895); (3897, 3897);
   (3902, 3903); (3953, 3972); (3974, 3975); (3981, 3991); (3993, 4028); (4038, 4038);
   (4139, 4158); (4160, 4169); (4182, 4185); (4190, 4192); (4194, 4196); (4199, 4205);
   (4209, 4212); (4226, 4237); (4239, 4253); (4957, 4959); (4969, 4977); (5906, 5909);
   (5938, 5940); (5970, 5971); (6002, 6003); (6068, 6099); (6109, 6109); (6112, 6121);
   (6155, 6157); (6159, 6169); (6313, 6313); (6432, 6443); (6448, 6459); (6470, 6479);
   (6608, 6618); (6679, 6683); (6741, 6750); (6752, 6780); (6783, 6793); (6800, 6809);
   (6832, 6845); (6847, 6862); (6912, 6916); (6964, 6980); (6992, 7001); (7019, 7027);
   (7040, 7042); (7073, 7085); (7088, 7097); (7142, 7155); (7204, 7223); (7232, 7241);
   (7248, 7257); (7376, 7378); (7380, 7400); (7405, 7405); (7412, 7412); (7415, 7417);
   (7616, 7679); (8255, 8256); (8276, 8276); (8400, 8412); (8417, 8417); (8421, 8432);
   (11503, 11505); (11647, 11647); (11744, 11775); (12330, 12335); (12441, 12442);
   (42528, 42537); (42607, 42607); (42612, 42621); (42654, 42655); (42736, 42737);
   (43010, 43010); (43014, 43014); (43019, 43019); (43043, 43047); (43052, 43052);
   (43136, 43137); (43188, 43205); (43216, 43225); (43232, 43249); (43263, 43273);
   (43302, 43309); (43335, 43347); (43392, 43395); (43443, 43456); (43472, 43481);
   (43493, 43493); (43504, 43513); (43561, 43574); (43587, 43587); (43596, 43597);
   (43600, 43609); (43643, 43645); (43696, 43696); (43698, 43700); (43703, 43704);
   (43710, 43711); (43713, 43713); (43755, 43759); (43765, 43766); (44003, 44010);
   (44012, 44013); (44016, 44025); (64286, 64286); (65024, 65039); (65056, 65071);
   (65075, 65076); (65101, 65103); (65296, 65305); (65343, 65343); (65438, 65439);
   (66045, 66045); (66272, 66272); (66422, 66426); (66720, 66729); (68097, 68099);
   (68101, 68102); (68108, 68111); (68152, 68154); (68159, 68159); (68325, 68326);
   (68900, 68903); (68912, 68921); (69291, 69292); (69446, 69456); (69506, 69509);
   (69632, 69634); (69688, 69702); (69734, 69744); (69747, 69748); (69759, 69762);
   (69808, 69818); (69826, 69826); (69872, 69881); (69888, 69890); (69927, 69940);
   (69942, 69951); (69957, 69958); (70003, 70003); (70016, 70018); (70067, 70080);
   (70089, 70092); (70094, 70105); (70188, 70199); (70206, 70206); (70367, 70378);
   (70384, 70393); (70400, 70403); (70459, 70460); (70462, 70468); (70471, 70472);
   (70475, 70477); (70487, 70487); (70498, 70499); (70502, 70508); (70512, 70516);
   (70709, 70726); (70736, 70745); (70750, 70750); (70832, 70851); (70864, 70873);
   (71087, 71093); (71096, 71104); (71132, 71133); (71216, 71232); (71248, 71257);
   (71339, 71351); (71360, 71369); (71453, 71467); (71472, 71481); (71724, 71738);
   (71904, 71913); (71984, 71989); (71991, 71992); (71995, 71998); (72000, 72000);
   (72002, 72003); (72016, 72025); (72145, 72151); (72154, 72160); (72164, 72164);
   (72193, 72202); (72243, 72249); (72251, 72254); (72263, 72263); (72273, 72283);
   (72330, 72345); (72751, 72758); (72760, 72767); (72784, 72793); (72850, 72871);
   (72873, 72886); (73009, 73014); (73018, 73018); (73020, 73021); (73023, 73029);
   (73031, 73031); (73040, 73049); (73098, 73102); (73104, 73105); (73107, 73111);
   (73120, 73129); (73459, 73462); (92768, 92777); (92864, 92873); (92912, 92916);
   (92976, 92982); (93008, 93017); (94031, 94031); (94033, 94087); (94095, 94098);
   (94180, 94180); (94192, 94193); (113821, 113822); (118528, 118573); (118576, 118598);
   (119141, 119145); (119149, 119154); (119163, 119170); (119173, 119179); (119210, 119213);
   (119362, 119364); (120782, 120831); (121344, 121398); (121403, 121452); (121461, 121461);
   (121476, 121476); (121499, 121503); (121505, 121519); (122880, 122886); (122888, 122904);
   (122907, 122913); (122915, 122916); (122918, 122922); (123184, 123190); (123200, 123209);
   (123566, 123566); (123628, 123641); (125136, 125142); (125252, 125258); (125264, 125273);
   (130032, 130041); (917760, 917999)]%N.

(** The tables are in ascending order: the search ends at the first range
    that starts after [c] *)
Fixpoint in_ranges (c : N) (rs : list (N * N)) : bool :=
  match rs with
  | [] => false
  | (lo, hi) :: rs' =>
      if (c <? lo)%N then false
      else if (c <=? hi)%N then true
      else in_ranges c rs'
  end.

Definition is_xid_start (c : N) : bool := in_ranges c XID_Start.

Definition is_xid_continue (c : N) : bool :=
  in_ranges c XID_Start || in_ranges c XID_Continue_only.

(** A code point that UTF-8 encodes: not above U+10FFFF and no surrogate *)
Definition is_scalar_value (c : N) : bool :=
  ((c <=? 1114111) && negb ((55296 <=? c) && (c <=? 57343)))%N.

(** The code points of a UTF-8 text, [None] if the bytes are not UTF-8
    (a byte that a file name cannot decode becomes a lone surrogate in the
    [str], which is no identifier character).  [pending] is the sequence
    being read: the continuation bytes it still needs, the bits read so far
    and the least code point that takes a sequence of this length. *)
Fixpoint code_points_from (pending : option (nat * N * N)) (s : string) : option (list N) :=
  match s with
  | EmptyString =>
      match pending with
      | None => Some []
      | Some _ => None
      end
  | String a s' =>
      let b := N_of_ascii a in
      match pending with
      | None =>
          if (b <? 128)%N then cons b <$> code_points_from None s'
          else if ((192 <=? b) && (b <? 224))%N then
            code_points_from (Some (1%nat, b - 192, 128)%N) s'
          else if ((224 <=? b) && (b <? 240))%N then
            code_points_from (Some (2%nat, b - 224, 2048)%N) s'
          else if ((240 <=? b) && (b <? 248))%N then
            code_points_from (Some (3%nat, b - 240, 65536)%N) s'
          else None
      | Some (n, acc, least) =>
          if ((128 <=? b) && (b <? 192))%N then
            let acc' := (acc * 64 + (b - 128))%N in
            match n with
            | 0%nat => None
            | 1%nat =>
                if (least <=? acc')%N && is_scalar_value acc' then
                  cons acc' <$> code_points_from None s'
                else None
            | S n' => code_points_from (Some (n', acc', least)) s'
            end
          else None
      end
  end.

Definition code_points (s : string) : option (list N) := code_points_from None s.

(** [s.isidentifier()] *)
Definition isidentifier (s : string) : bool :=
  match code_points s with
  | Some (c :: cs) => (is_xid_start c || (c =? 95)%N) && forallb is_xid_continue cs
  | _ => false
  end.

End Py.

(** ** [mypy/find_sources.py] *)

Module FindSources.

(** Modelled from the spec: [PYTHON_EXTENSIONS] of [mypy.modulefinder],
    which is not part of the sources at hand; the recognized extensions in
    priority order, the overlay extension first ("this prefers .pyi over
    .py (because of the ordering of PY_EXTENSIONS)"). *)
Definition PY_EXTENSIONS : list string := [".pyi"; ".py"].

(** Modelled from the spec: [BuildSource] of [mypy.modulefinder], as its
    callers in [find_sources.py] and the tests construct it:
    [BuildSource(path, module, text, base_dir=None, merge_with=None)]. *)
#[warnings="-register-all"]
Inductive BuildSource : Type :=
  mkBuildSource {
    path : option string;
    module : option string;
    text : option string;
    base_dir : option string;
    merge_with : option BuildSource }.

(** The queries on the file system ([FileSystemCache] and [os.path.exists]). *)
Record FileSystem : Type :=
  mkFileSystem {
    isdir : string -> bool;
    isfile : string -> bool;
    listdir : string -> list string;
    init_under_package_root : string -> bool;
    exists_ : string -> bool }.

Record Options : Type :=
  mkOptions {
    merge_stub_into_src : bool;
    scripts_are_modules : bool }.

(** [PY_MAP = {k: i for i, k in enumerate(PY_EXTENSIONS)}], read with
    [PY_MAP.get(suffix, -1)] *)
Fixpoint PY_MAP_get_from (i : Z) (exts : list string) (suffix : string) : Z :=
  match exts with
  | [] => -1
  | k :: exts' =>
      (* a later equal key would overwrite an earlier one *)
      let later := PY_MAP_get_from (i + 1) exts' suffix in
      if String.eqb k suffix then (if later =? -1 then i else later) else later
  end.
Definition PY_MAP_get (suffix : string) : Z := PY_MAP_get_from 0 PY_EXTENSIONS suffix.

Definition keyfunc (name : string) : string * Z :=
  let '(base, suffix) := Py.splitext name in
  (base, PY_MAP_get suffix).

(** Order of the keys: Python's order on [(str, int)] tuples. *)
Definition key_le (k1 k2 : string * Z) : Prop :=
  String.ltb (fst k1) (fst k2) = true \/ (fst k1 = fst k2 /\ snd k1 <= snd k2).

Definition key_leb (k1 k2 : string * Z) : bool :=
  String.ltb (fst k1) (fst k2) || (String.eqb (fst k1) (fst k2) && (snd k1 <=? snd k2)).

(** [names.sort(key=keyfunc)]: a stable sort. *)
Fixpoint sort_insert (x : string) (l : list string) : list string :=
  match l with
  | [] => [x]
  | y :: l' =>
      if key_leb (keyfunc x) (keyfunc y) then x :: l
      else y :: sort_insert x l'
  end.

Fixpoint sort_by_keyfunc (l : list string) : list string :=
  match l with
  | [] => []
  | x :: l' => sort_insert x (sort_by_keyfunc l')
  end.

Definition module_join (parent child : string) : string :=
  if String.eqb parent "" then child else parent +:+ "." +:+ child.

Fixpoint strip_py_from (exts : list string) (arg : string) : option string :=
  match exts with
  | [] => None
  | ext :: exts' =>
      if Py.endswith arg ext then Some (Py.drop_last (String.length ext) arg)
      else strip_py_from exts' arg
  end.
Definition strip_py (arg : string) : option string := strip_py_from PY_EXTENSIONS arg.

Section Finder.

(** One [SourceFinder]: its file system and its [merge_stub_into_src];
    its [package_cache] is threaded through the calls. *)
Variable fs : FileSystem.
Variable merge : bool.

Abbreviation cache_t := (gmap string (string * string)).

Fixpoint get_init_file_from (exts : list string) (dir : string) : option string :=
  match exts with
  | [] => None
  | ext :: exts' =>
      let f := Py.join dir ("__init__" +:+ ext) in
      if isfile fs f then Some f
      else if String.eqb ext ".py" && init_under_package_root fs f then Some f
      else get_init_file_from exts' dir
  end.
Definition get_init_file (dir : string) : option string :=
  get_init_file_from PY_EXTENSIONS dir.

Fixpoint crawl_up_dir_rec (fuel : nat) (cache : cache_t) (dir : string)
    : outcome ((string * string) * cache_t) :=
  match fuel with
  | O => OutOfFuel
  | S fuel' =>
      match cache !! dir with
      | Some r => Ok (r, cache)
      | None =>
          let '(parent_dir, base) := Py.split dir in
          if String.eqb dir "" || negb (bool_decide (is_Some (get_init_file dir)))
             || String.eqb base "" then
            let res := "" in
            let base_dir := if String.eqb dir "" then "." else dir in
            Ok ((res, base_dir), <[dir := (res, base_dir)]> cache)
          else if negb (Py.isidentifier base) then
            Raise (InvalidSourceList_not_a_package_name base)
          else
            obind (crawl_up_dir_rec fuel' cache parent_dir)
              (fun '((parent, base_dir), cache') =>
                 let res := module_join parent base in
                 Ok ((res, base_dir), <[dir := (res, base_dir)]> cache'))
      end
  end.

(** Every recursive call of [crawl_up_dir] is on a strictly shorter
    path, so the length of the path bounds the depth. *)
Definition crawl_up_dir (cache : cache_t) (dir : string)
    : outcome ((string * string) * cache_t) :=
  crawl_up_dir_rec (S (String.length dir)) cache dir.

Definition crawl_up (cache : cache_t) (arg : string)
    : outcome ((string * string) * cache_t) :=
  let '(dir, mod0) := Py.split arg in
  let mod1 := match strip_py mod0 with
              | Some s => if String.eqb s "" then mod0 else s
              | None => mod0
              end in
  obind (crawl_up_dir cache dir)
    (fun '((base, base_dir), cache') =>
       let mod2 := if String.eqb mod1 "__init__" || String.eqb mod1 ""
                   then base else module_join base mod1 in
       Ok ((mod2, base_dir), cache')).

(** The names [expand_dir] means to skip altogether. *)
Definition skipped_name (name : string) : bool :=
  String.eqb name "__pycache__" || String.eqb name "py.typed"
  || Py.startswith name "."
  || Py.endswith name "~" || Py.endswith name ".pyc" || Py.endswith name ".pyo".

Definition in_PY_EXTENSIONS (suffix : string) : bool :=
  bool_decide (suffix ∈ PY_EXTENSIONS).

(** [expand_dir], and [expand_dir_loop] for its [while name is not None]
    loop: [name] is the loop variable, [name_iter] what the iterator has
    left, [seen] and [sources] the two accumulators.  Every call and
    every iteration takes one unit of fuel. *)
Fixpoint expand_dir (fuel : nat) (cache : cache_t) (arg mod_prefix : string)
    {struct fuel} : outcome (list BuildSource * cache_t) :=
  match fuel with
  | O => OutOfFuel
  | S fuel' =>
      let f := get_init_file arg in
      if negb (String.eqb mod_prefix "") && negb (bool_decide (is_Some f)) then
        Ok ([], cache)
      else
        obind (crawl_up_dir cache arg)
          (fun '((top_mod, base_dir), cache1) =>
             let mod_prefix1 :=
               if bool_decide (is_Some f) && String.eqb mod_prefix ""
               then top_mod +:+ "." else mod_prefix in
             let sources :=
               if negb (String.eqb mod_prefix1 "")
               then [mkBuildSource f (Some (Py.rstrip Py.dot mod_prefix1)) None
                       (Some base_dir) None]
               else [] in
             let names := sort_by_keyfunc (listdir fs arg) in
             expand_dir_loop fuel' cache1 arg mod_prefix1 base_dir
               (head names) (tail names) ∅ sources)
  end
with expand_dir_loop (fuel : nat) (cache : cache_t)
    (arg mod_prefix base_dir : string)
    (name : option string) (name_iter : list string)
    (seen : gset string) (sources : list BuildSource)
    {struct fuel} : outcome (list BuildSource * cache_t) :=
  match fuel with
  | O => OutOfFuel
  | S fuel' =>
      match name with
      | None => Ok (sources, cache)
      | Some name =>
          if skipped_name name then
            (* [continue], with [name] as it was *)
            expand_dir_loop fuel' cache arg mod_prefix base_dir
              (Some name) name_iter seen sources
          else
            let path := Py.join arg name in
            if isdir fs path then
              obind (expand_dir fuel' cache path (mod_prefix +:+ name +:+ "."))
                (fun '(sub_sources, cache') =>
                   let seen' := if bool_decide (sub_sources = []) then seen
                                else {[name]} ∪ seen in
                   let sources' := sources ++ sub_sources in
                   match name_iter with
                   | [] =>
                       (* [next(name_iter)] raises StopIteration, which
                          the [except] clause turns into [return sources] *)
                       Ok (sources', cache')
                   | name' :: name_iter' =>
                       expand_dir_loop fuel' cache' arg mod_prefix base_dir
                         (Some name') name_iter' seen' sources'
                   end)
            else
              let '(base, suffix) := Py.splitext name in
              let name' := head name_iter in
              let name_iter' := tail name_iter in
              if String.eqb base "__init__" then
                expand_dir_loop fuel' cache arg mod_prefix base_dir
                  name' name_iter' seen sources
              else if negb (bool_decide (base ∈ seen)) && negb (Py.contains Py.dot base)
                      && in_PY_EXTENSIONS suffix then
                let seen' := {[base]} ∪ seen in
                let next_base := (fun n => fst (Py.splitext n)) <$> name' in
                let src := mkBuildSource (Some path) (Some (mod_prefix +:+ base))
                             None (Some base_dir) None in
                let src' :=
                  match name', next_base with
                  | Some n, Some nb =>
                      if merge && String.eqb nb base then
                        mkBuildSource (Some (Py.join arg n)) (Some (mod_prefix +:+ nb))
                          None (Some base_dir) (Some src)
                      else src
                  | _, _ => src
                  end in
                expand_dir_loop fuel' cache arg mod_prefix base_dir
                  name' name_iter' seen' (sources ++ [src'])
              else
                expand_dir_loop fuel' cache arg mod_prefix base_dir
                  name' name_iter' seen sources
      end
  end.

Variable options : Options.

(** [partition(lambda v: v.endswith(".pyi"), files)] *)
Definition partition (pred : string -> bool) (iterable : list string)
    : list string * list string :=
  (List.filter (fun v => negb (pred v)) iterable, List.filter pred iterable).

(** The body of the [for f in source_then_stubs] loop of
    [create_source_list], on the loop's state. *)
Definition loop_state : Type := (list BuildSource * gset string * cache_t)%type.

Definition create_source_list_step (fuel : nat) (allow_empty_dir : bool)
    (st : loop_state) (f : string) : outcome loop_state :=
  let '(targets, found_targets, cache) := st in
  if bool_decide (f ∈ found_targets) then Ok st
  else
    let '(base, ext) := Py.splitext f in
    let found_targets := {[f]} ∪ found_targets in
    if in_PY_EXTENSIONS ext then
      obind (crawl_up cache (Py.normpath f))
        (fun '((name, base_dir), cache') =>
           let stub_file := base +:+ ".pyi" in
           let paired := merge_stub_into_src options && String.eqb ext ".py"
                         && exists_ fs stub_file in
           let merge_stub :=
             if paired
             then Some (mkBuildSource (Some stub_file) (Some name) None (Some base_dir) None)
             else None in
           let found_targets' :=
             if paired then {[stub_file]} ∪ found_targets else found_targets in
           Ok (targets ++ [mkBuildSource (Some f) (Some name) None (Some base_dir) merge_stub],
               found_targets', cache'))
    else if isdir fs f then
      obind (expand_dir fuel cache (Py.normpath f) "")
        (fun '(sub_targets, cache') =>
           if bool_decide (sub_targets = []) && negb allow_empty_dir then
             Raise (InvalidSourceList_no_py_files f)
           else Ok (targets ++ sub_targets, found_targets, cache'))
    else
      let mod_ := if scripts_are_modules options then Some (Py.basename f) else None in
      Ok (targets ++ [mkBuildSource (Some f) mod_ None None None], found_targets, cache).

Fixpoint create_source_list_loop (fuel : nat) (allow_empty_dir : bool)
    (st : loop_state) (fl : list string) : outcome loop_state :=
  match fl with
  | [] => Ok st
  | f :: fl' =>
      obind (create_source_list_step fuel allow_empty_dir st f)
        (fun st' => create_source_list_loop fuel allow_empty_dir st' fl')
  end.

End Finder.

(** [create_source_list(files, options, fscache, allow_empty_dir)]; [fuel]
    bounds the steps of each directory expansion. *)
Definition create_source_list (fuel : nat) (fs : FileSystem) (files : list string)
    (options : Options) (allow_empty_dir : bool) : outcome (list BuildSource) :=
  let '(other, stubs) := partition (fun v => Py.endswith v ".pyi") files in
  let source_then_stubs := other ++ stubs in
  obind (create_source_list_loop fs (merge_stub_into_src options) options
           fuel allow_empty_dir ([], ∅, ∅) source_then_stubs)
    (fun '(targets, _, _) => Ok targets).

(** *** File systems to run the finder on *)

(** The file system with the regular files [files], the directories [dirs]
    and the listings [listings]. *)
Definition file_system_of (files dirs : list string)
    (listings : list (string * list string)) : FileSystem :=
  mkFileSystem
    (fun p => bool_decide (p ∈ dirs))
    (fun p => bool_decide (p ∈ files))
    (fun p => default [] (snd <$> List.find (fun e => String.eqb (fst e) p) listings))
    (fun _ => false)
    (fun p => bool_decide (p ∈ files) || bool_decide (p ∈ dirs)).

(** [t/] holds a cache directory and a module. *)
Definition fs_with_pycache : FileSystem :=
  file_system_of ["t/a.py"] ["t"; "t/__pycache__"] [("t", ["__pycache__"; "a.py"])].


(** [t/] holds a module, its stub, and a package of the same name. *)
Definition fs_package_beside_module : FileSystem :=
  file_system_of ["t/a.py"; "t/a.pyi"; "t/a/__init__.py"] ["t"; "t/a"]
    [("t", ["a.py"; "a.pyi"; "a"]); ("t/a", ["__init__.py"])].

(** The working directory holds a module and its stub. *)
Definition fs_cwd_module_and_stub : FileSystem :=
  file_system_of ["a.py"; "a.pyi"] [] [].



(** A package [pkg] under [src/], with a sub-package [sub] that holds a
    module and its stub. *)
Definition fs_nested_packages : FileSystem :=
  file_system_of
    ["src/pkg/__init__.py"; "src/pkg/sub/__init__.pyi"; "src/pkg/sub/m.py";
     "src/pkg/sub/m.pyi"]
    ["src"; "src/pkg"; "src/pkg/sub"]
    [("src", ["pkg"]); ("src/pkg", ["sub"; "__init__.py"]);
     ("src/pkg/sub", ["m.py"; "__init__.pyi"; "m.pyi"])].



(** [t/] holds a module, its stub, and a package of another name. *)
Definition fs_module_stub_and_package : FileSystem :=
  file_system_of ["t/a.py"; "t/a.pyi"; "t/pkg/__init__.py"; "t/pkg/m.py"] ["t"; "t/pkg"]
    [("t", ["pkg"; "a.py"; "a.pyi"]); ("t/pkg", ["m.py"; "__init__.py"])].


End FindSources.

(** ** [mypy/stub_src_merge.py] *)

Module StubSrcMerge.

(** *** The trees of [mypy.nodes], as far as the merge reads and writes them *)

(** Objects that the merge mutates or compares by identity live in a heap
    and are referred to by their address. *)
Definition loc : Type := nat.

(** A [mypy.types.Type] object; the merge only copies them. *)
Definition mypy_type : Type := string.

(** Expressions are only read. [OtherExpr] stands for every expression
    class that the merge does not single out, named by its class. *)
#[warnings="-register-all"]
Inductive Expression : Type :=
  | NameExpr (name : string)
  | MemberExpr (expr : Expression) (name : string)
  | CallExpr (callee : Expression) (args : list Expression)
      (arg_names : list (option string)) (line : Z)
  | EllipsisExpr
  | TempNode
  | OtherExpr (class_name : string).

Record Var : Type := mkVar {
  Var_type : option mypy_type;
  Var_line : Z;
  Var_column : Z }.

Record AssignmentStmt : Type := mkAssignmentStmt {
  lvalues : list Expression;
  rvalue : Expression;
  AssignmentStmt_type : option mypy_type;
  AssignmentStmt_unanalyzed_type : option mypy_type;
  AssignmentStmt_line : Z;
  AssignmentStmt_column : Z }.

Record FuncDef : Type := mkFuncDef {
  FuncDef_name : string;
  arg_names : list (option string);
  arg_kinds : list Z;
  FuncDef_type : option mypy_type;
  FuncDef_unanalyzed_type : option mypy_type;
  FuncDef_body : list loc;
  FuncDef_line : Z;
  FuncDef_column : Z }.

Record TypeInfo : Type := mkTypeInfo {
  TypeInfo_type_vars : list string;
  metaclass_type : option mypy_type;
  runtime_protocol : bool;
  TypeInfo_names : loc;
  defn : loc;
  TypeInfo_line : Z;
  TypeInfo_column : Z }.

Record ClassDef : Type := mkClassDef {
  ClassDef_name : string;
  ClassDef_type_vars : list mypy_type;
  ClassDef_defs_body : list loc;
  ClassDef_line : Z;
  ClassDef_column : Z }.

Record Decorator : Type := mkDecorator {
  func : loc;
  decorators : list Expression;
  Decorator_line : Z;
  Decorator_column : Z }.

Record IfStmt : Type := mkIfStmt {
  IfStmt_body : list (list loc);
  IfStmt_line : Z;
  IfStmt_column : Z }.

(** What a heap address can hold: the nodes above, any other node (named by
    its class), [None], a [SymbolTableNode] (with its [node]) and a
    [SymbolTable] (a [dict], in insertion order). *)
Inductive object : Type :=
  | OVar (v : Var)
  | OAssignmentStmt (a : AssignmentStmt)
  | OFuncDef (f : FuncDef)
  | OTypeInfo (t : TypeInfo)
  | OClassDef (c : ClassDef)
  | ODecorator (d : Decorator)
  | OIfStmt (i : IfStmt)
  | OOtherNode (class_name : string) (line column : Z)
  | ONone
  | OSymbolTableNode (node : loc)
  | OSymbolTable (items : list (string * loc)).

(** The classes of the objects, for [type(x)] and [isinstance]. *)
Inductive pyclass : Type :=
  | cls_NoneType
  | cls_NameExpr | cls_MemberExpr | cls_CallExpr | cls_EllipsisExpr | cls_TempNode
  | cls_Var | cls_AssignmentStmt | cls_FuncDef | cls_TypeInfo | cls_ClassDef
  | cls_Decorator | cls_IfStmt | cls_SymbolTableNode | cls_SymbolTable
  | cls_other (qualname : string).

#[global] Instance pyclass_eq_dec : EqDecision pyclass.
Proof. solve_decision. Defined.

(** [type(e)] *)
Definition class_of_expr (e : Expression) : pyclass :=
  match e with
  | NameExpr _ => cls_NameExpr
  | MemberExpr _ _ => cls_MemberExpr
  | CallExpr _ _ _ _ => cls_CallExpr
  | EllipsisExpr => cls_EllipsisExpr
  | TempNode => cls_TempNode
  | OtherExpr c => cls_other c
  end.

(** [type(e)] for an [e] that [zip_longest] may have filled in as [None] *)
Definition class_of_opt_expr (e : option Expression) : pyclass :=
  match e with
  | Some e => class_of_expr e
  | None => cls_NoneType
  end.

(** [type(o)] *)
Definition class_of (o : object) : pyclass :=
  match o with
  | OVar _ => cls_Var
  | OAssignmentStmt _ => cls_AssignmentStmt
  | OFuncDef _ => cls_FuncDef
  | OTypeInfo _ => cls_TypeInfo
  | OClassDef _ => cls_ClassDef
  | ODecorator _ => cls_Decorator
  | OIfStmt _ => cls_IfStmt
  | OOtherNode c _ _ => cls_other c
  | ONone => cls_NoneType
  | OSymbolTableNode _ => cls_SymbolTableNode
  | OSymbolTable _ => cls_SymbolTable
  end.

(** The [line] attribute, where the object has one. *)
Definition line_of (o : object) : option Z :=
  match o with
  | OVar v => Some (Var_line v)
  | OAssignmentStmt a => Some (AssignmentStmt_line a)
  | OFuncDef f => Some (FuncDef_line f)
  | OTypeInfo t => Some (TypeInfo_line t)
  | OClassDef c => Some (ClassDef_line c)
  | ODecorator d => Some (Decorator_line d)
  | OIfStmt i => Some (IfStmt_line i)
  | OOtherNode _ l _ => Some l
  | ONone | OSymbolTableNode _ | OSymbolTable _ => None
  end.

Definition column_of (o : object) : option Z :=
  match o with
  | OVar v => Some (Var_column v)
  | OAssignmentStmt a => Some (AssignmentStmt_column a)
  | OFuncDef f => Some (FuncDef_column f)
  | OTypeInfo t => Some (TypeInfo_column t)
  | OClassDef c => Some (ClassDef_column c)
  | ODecorator d => Some (Decorator_column d)
  | OIfStmt i => Some (IfStmt_column i)
  | OOtherNode _ _ c => Some c
  | ONone | OSymbolTableNode _ | OSymbolTable _ => None
  end.

(** *** Diagnostics *)

(** The messages of the merge, with the values their format strings take. *)
Inductive message : Type :=
  | conflict_of_definition (src_class : pyclass) (stub_line : Z) (stub_class : pyclass)
  | arg_conflict (src_arg_names : list (option string)) (stub_line : Z)
      (stub_arg_names : list (option string))
  | no_source_for_assign (k : string) (stub_line : Z)
  | no_source_for_func (k : string) (stub_line : Z)
  | lvalues_must_be_simple (lvalue_class : pyclass)
  | more_than_one_lvalue
  | conflict_of_decorator (src_class stub_class : pyclass)
  | conflict_of_decorator_argument_name (l_arg r_arg : option string)
  | stub_should_not_contain_default (name : option string) (default_class : pyclass)
  | conflict_of_decorator_name (src_name stub_name : string)
  | no_stub_definition_for_member (name : string).

(** One call of [Errors.report(line, message, column)]. *)
Record Diagnostic : Type := mkDiagnostic {
  line : Z;
  column : Z;
  msg : message }.

(** *** The state of a [MergeFiles] and the monad of its methods *)

Record MergeFiles : Type := mkMergeFiles {
  heap : gmap loc object;
  errors : list Diagnostic;
  _line : Z;
  _column : Z }.

Inductive result (A : Type) : Type :=
  | Returns (a : A) (self : MergeFiles)
  | Raises (e : pyexn) (self : MergeFiles)
  | Diverges.
Arguments Returns {A} a self.
Arguments Raises {A} e self.
Arguments Diverges {A}.

Definition M (A : Type) : Type := MergeFiles -> result A.

#[global] Instance M_ret : MRet M := fun A a self => Returns a self.
#[global] Instance M_bind : MBind M := fun A B k m self =>
  match m self with
  | Returns a self' => k a self'
  | Raises e self' => Raises e self'
  | Diverges => Diverges
  end.

Definition raise {A} (e : pyexn) : M A := fun self => Raises e self.
Definition diverge {A} : M A := fun _ => Diverges.
Definition get_self : M MergeFiles := fun self => Returns self self.
Definition put_self (self : MergeFiles) : M unit := fun _ => Returns tt self.

(** [for x in l: body(x)] *)
Fixpoint for_each {X} (l : list X) (body : X -> M unit) : M unit :=
  match l with
  | [] => mret tt
  | x :: l' => body x ;; for_each l' body
  end.

(** [for x in l: acc = body(x, acc)] *)
Fixpoint for_each_acc {X S} (l : list X) (body : X -> S -> M S) (acc : S) : M S :=
  match l with
  | [] => mret acc
  | x :: l' => acc' ← body x acc; for_each_acc l' body acc'
  end.

(** Reading and writing the heap. An address that holds nothing, or not
    what the attribute access needs, is an [AttributeError]. *)
Definition read (l : loc) : M object := fun self =>
  match heap self !! l with
  | Some o => Returns o self
  | None => Raises AttributeError self
  end.

Definition write (l : loc) (o : object) : M unit := fun self =>
  Returns tt (mkMergeFiles (<[l := o]> (heap self)) (errors self) (_line self) (_column self)).

Definition read_Var (l : loc) : M Var :=
  o ← read l; match o with OVar v => mret v | _ => raise AttributeError end.
Definition read_AssignmentStmt (l : loc) : M AssignmentStmt :=
  o ← read l; match o with OAssignmentStmt a => mret a | _ => raise AttributeError end.
Definition read_FuncDef (l : loc) : M FuncDef :=
  o ← read l; match o with OFuncDef f => mret f | _ => raise AttributeError end.
Definition read_TypeInfo (l : loc) : M TypeInfo :=
  o ← read l; match o with OTypeInfo t => mret t | _ => raise AttributeError end.
Definition read_ClassDef (l : loc) : M ClassDef :=
  o ← read l; match o with OClassDef c => mret c | _ => raise AttributeError end.
Definition read_Decorator (l : loc) : M Decorator :=
  o ← read l; match o with ODecorator d => mret d | _ => raise AttributeError end.
Definition read_SymbolTableNode (l : loc) : M loc :=
  o ← read l; match o with OSymbolTableNode n => mret n | _ => raise AttributeError end.
Definition read_SymbolTable (l : loc) : M (list (string * loc)) :=
  o ← read l; match o with OSymbolTable items => mret items | _ => raise AttributeError end.

(** *** Python [dict]s in insertion order *)

Fixpoint dict_get {V} (k : string) (d : list (string * V)) : option V :=
  match d with
  | [] => None
  | (k', v) :: d' => if String.eqb k' k then Some v else dict_get k d'
  end.

(** [d[k] = v] *)
Fixpoint dict_set {V} (k : string) (v : V) (d : list (string * V)) : list (string * V) :=
  match d with
  | [] => [(k, v)]
  | (k', v') :: d' => if String.eqb k' k then (k, v) :: d' else (k', v') :: dict_set k v d'
  end.

Fixpoint dict_remove {V} (k : string) (d : list (string * V)) : list (string * V) :=
  match d with
  | [] => []
  | (k', v') :: d' => if String.eqb k' k then d' else (k', v') :: dict_remove k d'
  end.

(** [del d[k]] *)
Definition dict_del {V} (k : string) (d : list (string * V)) : M (list (string * V)) :=
  match dict_get k d with
  | Some _ => mret (dict_remove k d)
  | None => raise (KeyError k)
  end.

(** [itertools.zip_longest(l, r)] *)
Fixpoint zip_longest {A B} (l : list A) (r : list B) : list (option A * option B) :=
  match l with
  | [] => (fun b => (None, Some b)) <$> r
  | a :: l' =>
      match r with
      | [] => (Some a, None) :: zip_longest l' []
      | b :: r' => (Some a, Some b) :: zip_longest l' r'
      end
  end.

(** *** The methods of [MergeFiles] *)

Definition report (m : message) (line column : option Z) : M unit := fun self =>
  let line := default (_line self) line in
  let column := default (_column self) column in
  Returns tt (mkMergeFiles (heap self) (errors self ++ [mkDiagnostic line column m])
                (_line self) (_column self)).

(** [with self.report_from_element(src): body] *)
Definition report_from_element {A} (src : loc) (body : M A) : M A := fun self =>
  let old_line := _line self in
  let old_column := _column self in
  let line := default old_line (heap self !! src ≫= line_of) in
  let column := default old_column (heap self !! src ≫= line_of) in
  let restore self' :=
    mkMergeFiles (heap self') (errors self') old_line old_column in
  match body (mkMergeFiles (heap self) (errors self) line column) with
  | Returns a self' => Returns a (restore self')
  | Raises e self' => Raises e (restore self')
  | Diverges => Diverges
  end.

Definition merge_variables (src stub : loc) : M unit :=
  v ← read_Var src;
  w ← read_Var stub;
  write src (OVar (mkVar (Var_type w) (Var_line v) (Var_column v))).

(** The two classes that [simple_assignment_name] is called with. *)
Inductive l_value_class : Type := is_NameExpr | is_MemberExpr.

Definition isinstance_l_value (e : Expression) (c : l_value_class) : bool :=
  match c, e with
  | is_NameExpr, NameExpr _ => true
  | is_MemberExpr, MemberExpr _ _ => true
  | _, _ => false
  end.

(** [e.name] *)
Definition expr_name (e : Expression) : M string :=
  match e with
  | NameExpr n => mret n
  | MemberExpr _ n => mret n
  | _ => raise AttributeError
  end.

Definition simple_assignment_name (node : loc) (l_value_type : l_value_class)
    (report_ : bool) : M (option string) :=
  a ← read_AssignmentStmt node;
  match lvalues a with
  | [l_value] =>
      if isinstance_l_value l_value l_value_type then
        n ← expr_name l_value; mret (Some n)
      else if report_ then
        report (lvalues_must_be_simple (class_of_expr l_value)) None None ;; mret None
      else mret None
  | _ =>
      if report_ then report more_than_one_lvalue None None ;; mret None
      else mret None
  end.

(** What [check_no_explicit_default] takes as its [node]: a statement in the
    heap or an expression. *)
Inductive node_ref : Type :=
  | heap_node (l : loc)
  | expr_node (e : Expression).

Definition isinstance_TempNode (n : node_ref) : bool :=
  match n with
  | expr_node TempNode => true
  | _ => false
  end.

Definition isinstance_EllipsisExpr (e : Expression) : bool :=
  match e with
  | EllipsisExpr => true
  | _ => false
  end.

Definition check_no_explicit_default (default_node : Expression) (node : node_ref)
    (name : option string) : M unit :=
  if negb (isinstance_TempNode node) && negb (isinstance_EllipsisExpr default_node) then
    report (stub_should_not_contain_default name (class_of_expr default_node)) None None
  else mret tt.

Definition merge_assignment (src stub : loc) : M unit :=
  a ← read_AssignmentStmt src;
  b ← read_AssignmentStmt stub;
  write src (OAssignmentStmt
    (mkAssignmentStmt (lvalues a) (rvalue a)
       (AssignmentStmt_type b) (AssignmentStmt_unanalyzed_type b)
       (AssignmentStmt_line a) (AssignmentStmt_column a))) ;;
  stub_name ← simple_assignment_name stub is_NameExpr true;
  b' ← read_AssignmentStmt stub;
  check_no_explicit_default (rvalue b') (heap_node stub) stub_name.

Definition merge_func_definition (src stub : loc) : M unit :=
  f ← read_FuncDef src;
  g ← read_FuncDef stub;
  if bool_decide (arg_names f = arg_names g) then
    write src (OFuncDef
      (mkFuncDef (FuncDef_name f) (arg_names f) (arg_kinds g)
         (FuncDef_type g) (FuncDef_unanalyzed_type g)
         (FuncDef_body f) (FuncDef_line f) (FuncDef_column f)))
  else
    report (arg_conflict (arg_names f) (FuncDef_line g) (arg_names g)) None None.

Definition decorator_name_check (src stub : Expression) : M bool :=
  src_name ← expr_name src;
  stub_name ← expr_name stub;
  if negb (String.eqb src_name stub_name) then
    report (conflict_of_decorator_name src_name stub_name) None None ;; mret false
  else mret true.

(** The first loop of [decorator_argument_checks]; [zip_longest] fills the
    shorter list with [None], which is also the name of a positional
    argument. *)
Fixpoint decorator_argument_names_loop
    (pairs : list (option (option string) * option (option string)))
    (src_line : Z) : M unit :=
  match pairs with
  | [] => mret tt
  | (l_arg, r_arg) :: pairs' =>
      if negb (bool_decide (mjoin l_arg = mjoin r_arg)) then
        report (conflict_of_decorator_argument_name (mjoin l_arg) (mjoin r_arg))
          (Some src_line) None
      else decorator_argument_names_loop pairs' src_line
  end.

Definition decorator_argument_checks (src stub : Expression) : M unit :=
  match src, stub with
  | CallExpr _ _ src_arg_names src_line, CallExpr _ stub_args stub_arg_names _ =>
      decorator_argument_names_loop (zip_longest src_arg_names stub_arg_names) src_line ;;
      for_each (zip stub_arg_names stub_args)
        (fun '(name, default_node) =>
           check_no_explicit_default default_node (expr_node src) name)
  | _, _ => raise AttributeError
  end.

(** The loop of [merge_decorators]; the result tells whether it ran to its
    end, so that the [else] clause of the [for] applies. *)
Fixpoint merge_decorators_loop (pairs : list (option Expression * option Expression))
    : M bool :=
  match pairs with
  | [] => mret true
  | (l, r) :: pairs' =>
      if negb (bool_decide (class_of_opt_expr l = class_of_opt_expr r)) then
        report (conflict_of_decorator (class_of_opt_expr l) (class_of_opt_expr r))
          None None ;;
        mret false
      else
        match l, r with
        | Some (NameExpr ln), Some r' =>
            ok ← decorator_name_check (NameExpr ln) r';
            if ok : bool then merge_decorators_loop pairs' else mret false
        | Some (CallExpr lc la ln ll), Some (CallExpr rc ra rn rl) =>
            match lc, rc with
            | NameExpr _, NameExpr _ =>
                ok ← decorator_name_check lc rc;
                if ok : bool then
                  decorator_argument_checks (CallExpr lc la ln ll) (CallExpr rc ra rn rl) ;;
                  merge_decorators_loop pairs'
                else mret false
            | _, _ => merge_decorators_loop pairs'
            end
        | _, _ => merge_decorators_loop pairs'
        end
  end.

Definition enrich_src_assign_from_stub (src_assign : loc)
    (stub_assign : list (string * loc)) : M (list (string * loc) * bool) :=
  name ← simple_assignment_name src_assign is_MemberExpr false;
  match name with
  | Some name =>
      match dict_get name stub_assign with
      | Some stub =>
          a ← read_AssignmentStmt src_assign;
          b ← read_AssignmentStmt stub;
          write src_assign (OAssignmentStmt
            (mkAssignmentStmt (lvalues a) (rvalue a)
               (AssignmentStmt_type b) (AssignmentStmt_unanalyzed_type b)
               (AssignmentStmt_line a) (AssignmentStmt_column a))) ;;
          stub_assign' ← dict_del name stub_assign;
          mret (stub_assign', true)
      | None =>
          report (no_stub_definition_for_member name) None None ;;
          mret (stub_assign, false)
      end
  | None => mret (stub_assign, false)
  end.

Definition collect_assign_and_funcs (body : list loc)
    : M (list (string * loc) * list (string * loc)) :=
  for_each_acc body
    (fun entry '(assigns, funcs) =>
       o ← read entry;
       match o with
       | OAssignmentStmt _ =>
           name ← simple_assignment_name entry is_NameExpr true;
           match name with
           | Some name => mret (dict_set name entry assigns, funcs)
           | None => mret (assigns, funcs)
           end
       | ODecorator d =>
           f ← read_FuncDef (func d);
           mret (assigns, dict_set (FuncDef_name f) entry funcs)
       | OFuncDef f => mret (assigns, dict_set (FuncDef_name f) entry funcs)
       | _ => mret (assigns, funcs)
       end)
    ([], []).

Definition read_line (l : loc) : M Z :=
  o ← read l;
  match line_of o with
  | Some n => mret n
  | None => raise AttributeError
  end.

Section Recursion.

(** The methods that call [merge_nodes], which is what they take as
    [merge_nodes]; the knot is tied below. *)
Variable merge_nodes : loc -> loc -> M unit.

(** The body of the loop of [merge_symbol_tables]: the iterator first checks
    that the [dict] it runs over has kept its size. *)
Definition merge_symbol_tables_body (src stub : loc) (size : nat)
    (item : string * loc) : M unit :=
  let '(stub_symbol_name, stub_symbol) := item in
  now ← read_SymbolTable stub;
  if negb (length now =? size)%nat then raise RuntimeError_dict_changed_size
  else
    src_items ← read_SymbolTable src;
    match dict_get stub_symbol_name src_items with
    | None => write src (OSymbolTable (dict_set stub_symbol_name stub_symbol src_items))
    | Some src_symbol =>
        if negb (src_symbol =? stub_symbol)%nat then
          src_node ← read_SymbolTableNode src_symbol;
          stub_node ← read_SymbolTableNode stub_symbol;
          merge_nodes src_node stub_node
        else mret tt
    end.

Definition merge_symbol_tables (src stub : loc) : M unit :=
  items ← read_SymbolTable stub;
  for_each items (merge_symbol_tables_body src stub (length items)) ;;
  now ← read_SymbolTable stub;
  if negb (length now =? length items)%nat then raise RuntimeError_dict_changed_size
  else mret tt.

Definition merge_decorators (src stub : loc) : M unit :=
  d ← read_Decorator src;
  e ← read_Decorator stub;
  completed ← merge_decorators_loop (zip_longest (decorators d) (decorators e));
  if completed : bool then merge_nodes (func d) (func e) else mret tt.

Definition merge_class_decorator (src : loc) (stub_funcs : list (string * loc))
    : M (list (string * loc)) :=
  d ← read_Decorator src;
  f ← read_FuncDef (func d);
  let name := FuncDef_name f in
  match dict_get name stub_funcs with
  | Some stub => merge_nodes src stub ;; dict_del name stub_funcs
  | None => mret stub_funcs
  end.

Definition merge_class_assignment (src : loc) (stubs : list (string * loc))
    : M (list (string * loc)) :=
  src_name ← simple_assignment_name src is_NameExpr true;
  match src_name with
  | Some src_name =>
      match dict_get src_name stubs with
      | Some stub => merge_nodes src stub
      | None => mret tt
      end ;;
      dict_del src_name stubs
  | None => mret stubs
  end.

Definition enrich_if_assignment (part : loc) (stub_assigns : list (string * loc))
    : M (list (string * loc)) :=
  o ← read part;
  match o with
  | OAssignmentStmt _ =>
      '(stub_assigns', _) ← enrich_src_assign_from_stub part stub_assigns;
      mret stub_assigns'
  | _ => mret stub_assigns
  end.

Definition merge_class_func_def (src : loc)
    (stub_assigns stub_funcs : list (string * loc))
    : M (list (string * loc) * list (string * loc)) :=
  f ← read_FuncDef src;
  let name := FuncDef_name f in
  stub_funcs' ← match dict_get name stub_funcs with
                | Some stub => merge_nodes src stub ;; dict_del name stub_funcs
                | None => mret stub_funcs
                end;
  if String.eqb name "__init__" then
    stub_assigns' ←
      for_each_acc (FuncDef_body f)
        (fun init_part stub_assigns =>
           o ← read init_part;
           match o with
           | OAssignmentStmt _ => enrich_if_assignment init_part stub_assigns
           | OIfStmt i =>
               for_each_acc (IfStmt_body i)
                 (fun b stub_assigns => for_each_acc b enrich_if_assignment stub_assigns)
                 stub_assigns
           | _ => mret stub_assigns
           end)
        stub_assigns;
    mret (stub_assigns', stub_funcs')
  else mret (stub_assigns, stub_funcs').

Definition merge_type_info (src stub : loc) : M unit :=
  s ← read_TypeInfo src;
  t ← read_TypeInfo stub;
  write src (OTypeInfo
    (mkTypeInfo (TypeInfo_type_vars t) (metaclass_type t) (runtime_protocol t)
       (TypeInfo_names s) (defn s) (TypeInfo_line s) (TypeInfo_column s))) ;;
  merge_symbol_tables (TypeInfo_names s) (TypeInfo_names t) ;;
  sd ← read_ClassDef (defn s);
  td ← read_ClassDef (defn t);
  write (defn s) (OClassDef
    (mkClassDef (ClassDef_name sd) (ClassDef_type_vars td) (ClassDef_defs_body sd)
       (ClassDef_line sd) (ClassDef_column sd))) ;;
  '(stub_assigns, stub_funcs) ← collect_assign_and_funcs (ClassDef_defs_body td);
  '(stub_assigns, stub_funcs) ←
    for_each_acc (ClassDef_defs_body sd)
      (fun entry '(stub_assigns, stub_funcs) =>
         o ← read entry;
         match o with
         | OFuncDef _ => merge_class_func_def entry stub_assigns stub_funcs
         | OAssignmentStmt _ =>
             stub_assigns' ← merge_class_assignment entry stub_assigns;
             mret (stub_assigns', stub_funcs)
         | ODecorator _ =>
             stub_funcs' ← merge_class_decorator entry stub_funcs;
             mret (stub_assigns, stub_funcs')
         | _ => mret (stub_assigns, stub_funcs)
         end)
      (stub_assigns, stub_funcs);
  for_each stub_assigns
    (fun '(k, v) => v_line ← read_line v; report (no_source_for_assign k v_line) None None) ;;
  for_each stub_funcs
    (fun '(f_k, f_v) => v_line ← read_line f_v; report (no_source_for_func f_k v_line) None None).

(** [merge_nodes], one level deep. *)
Definition merge_nodes_body (src stub : loc) : M unit :=
  report_from_element src (
    s ← read src;
    t ← read stub;
    if negb (bool_decide (class_of s = class_of t)) then
      stub_line ← read_line stub;
      report (conflict_of_definition (class_of s) stub_line (class_of t)) None None
    else
      match s with
      | OVar _ => merge_variables src stub
      | OAssignmentStmt _ => merge_assignment src stub
      | OFuncDef _ => merge_func_definition src stub
      | OTypeInfo _ => merge_type_info src stub
      | ODecorator _ => merge_decorators src stub
      | _ => raise RuntimeError_cannot_merge
      end).

End Recursion.

(** [merge_nodes]; [fuel] bounds the depth of the calls of [merge_nodes]
    within one another. *)
Fixpoint merge_nodes (fuel : nat) (src stub : loc) : M unit :=
  match fuel with
  | O => diverge
  | S fuel' => merge_nodes_body (merge_nodes fuel') src stub
  end.

(** *** States to run the merge on *)

(** The state that [MergeFiles.__init__] leaves, over the heap [h]. *)
Definition MergeFiles_init (h : gmap loc object) : MergeFiles :=
  mkMergeFiles h [] (-1) 0.

(** [x = 1] with type [int] at 1, and a stub [x: str = 1] at 2. *)
Definition heap_assignments : gmap loc object :=
  list_to_map [
    (1%nat, OAssignmentStmt (mkAssignmentStmt [NameExpr "x"] (OtherExpr "IntExpr")
                               (Some "int") (Some "int") 3 4));
    (2%nat, OAssignmentStmt (mkAssignmentStmt [NameExpr "x"] (OtherExpr "IntExpr")
                               (Some "str") (Some "str") 7 0))].

(** [def f(x, z)] at line 3, column 7, and a stub [def f(x, y)]. *)
Definition heap_functions : gmap loc object :=
  list_to_map [
    (1%nat, OFuncDef (mkFuncDef "f" [Some "x"; Some "z"] [0; 0] (Some "t1") None [] 3 7));
    (2%nat, OFuncDef (mkFuncDef "f" [Some "x"; Some "y"] [0; 1] (Some "t2") (Some "u2")
                        [] 5 9))].

(** A class [C] with the one statement [x = 1], at 1, and a stub of [C] with
    an empty body, at 2. *)
Definition heap_class_with_assignment : gmap loc object :=
  list_to_map [
    (1%nat, OTypeInfo (mkTypeInfo [] None false 3%nat 5%nat 1 0));
    (2%nat, OTypeInfo (mkTypeInfo [] None false 4%nat 6%nat 1 0));
    (3%nat, OSymbolTable []);
    (4%nat, OSymbolTable []);
    (5%nat, OClassDef (mkClassDef "C" [] [7%nat] 1 0));
    (6%nat, OClassDef (mkClassDef "C" [] [] 1 0));
    (7%nat, OAssignmentStmt (mkAssignmentStmt [NameExpr "x"] (OtherExpr "IntExpr")
                               None None 2 4))].

(** [@dec(a=...) def f(x)] at 1 and a stub [@dec(b=...) def f(x)] at 2. *)
Definition heap_decorated : gmap loc object :=
  list_to_map [
    (1%nat, ODecorator (mkDecorator 3%nat
                          [CallExpr (NameExpr "dec") [EllipsisExpr] [Some "a"] 10] 10 0));
    (2%nat, ODecorator (mkDecorator 4%nat
                          [CallExpr (NameExpr "dec") [EllipsisExpr] [Some "b"] 20] 20 0));
    (3%nat, OFuncDef (mkFuncDef "f" [Some "x"] [0] (Some "t1") None [] 11 0));
    (4%nat, OFuncDef (mkFuncDef "f" [Some "x"] [0] (Some "t2") (Some "u2") [] 21 0))].

(** [@dec(...) def f(x)], the argument positional, at 1 and a stub
    [@dec() def f(x)] at 2. *)
Definition heap_decorated_positional : gmap loc object :=
  list_to_map [
    (1%nat, ODecorator (mkDecorator 3%nat
                          [CallExpr (NameExpr "dec") [EllipsisExpr] [None] 10] 10 0));
    (2%nat, ODecorator (mkDecorator 4%nat [CallExpr (NameExpr "dec") [] [] 20] 20 0));
    (3%nat, OFuncDef (mkFuncDef "f" [Some "x"] [0] (Some "t1") None [] 11 0));
    (4%nat, OFuncDef (mkFuncDef "f" [Some "x"] [0] (Some "t2") (Some "u2") [] 21 0))].

(** [@staticmethod @dec(a=...) def f(x)] at 1 and a stub
    [@staticmethod @dec(b=...) def f(x)] at 2. *)
Definition heap_decorated_twice : gmap loc object :=
  list_to_map [
    (1%nat, ODecorator (mkDecorator 3%nat
                          [NameExpr "staticmethod";
                           CallExpr (NameExpr "dec") [EllipsisExpr] [Some "a"] 10] 9 0));
    (2%nat, ODecorator (mkDecorator 4%nat
                          [NameExpr "staticmethod";
                           CallExpr (NameExpr "dec") [EllipsisExpr] [Some "b"] 20] 19 0));
    (3%nat, OFuncDef (mkFuncDef "f" [Some "x"] [0] (Some "t1") None [] 11 0));
    (4%nat, OFuncDef (mkFuncDef "f" [Some "x"] [0] (Some "t2") (Some "u2") [] 21 0))].

(** A symbol table at 1 with the names [f] and [x]. *)
Definition heap_symbol_table : gmap loc object :=
  list_to_map [
    (1%nat, OSymbolTable [("f", 2%nat); ("x", 3%nat)]);
    (2%nat, OSymbolTableNode 4%nat);
    (3%nat, OSymbolTableNode 5%nat);
    (4%nat, OFuncDef (mkFuncDef "f" [Some "x"] [0] (Some "t1") None [] 11 0));
    (5%nat, OAssignmentStmt (mkAssignmentStmt [NameExpr "x"] (OtherExpr "IntExpr")
                               (Some "int") (Some "int") 3 4))].

(** *** The two files of a merge *)

(** A [MypyFile], as far as the merge reads and writes it: its symbol table
    [names], its top-level statements [defs] and its [imports]. *)
Record MypyFile : Type := mkMypyFile {
  MypyFile_names : loc;
  MypyFile_defs : list loc;
  MypyFile_imports : list loc }.

(** Modelled from [mypy.nodes], which is not part of the sources at hand:
    the classes of statements that derive from [ImportBase]. *)
Definition ImportBase_classes : list string := ["Import"; "ImportFrom"; "ImportAll"].

Definition isinstance_ImportBase (o : object) : bool :=
  match o with
  | OOtherNode c _ _ => bool_decide (c ∈ ImportBase_classes)
  | _ => false
  end.

(** The property [source_definitions], on the file [src]. *)
Definition source_definitions (src : MypyFile) : M (list (string * loc)) :=
  for_each_acc (MypyFile_defs src)
    (fun d src_definitions =>
       o ← read d;
       match o with
       | OClassDef c => mret (dict_set (ClassDef_name c) d src_definitions)
       | OAssignmentStmt a =>
           mret (foldl (fun acc l => match l with
                                     | NameExpr n => dict_set n d acc
                                     | _ => acc
                                     end) src_definitions (lvalues a))
       | _ => mret src_definitions
       end)
    [].

(** [enrich_src_defs_with_stub_only]; it returns the file [src] as it has
    become. *)
Definition enrich_src_defs_with_stub_only (src stub : MypyFile) : M MypyFile :=
  src_definitions ← source_definitions src;
  '(stub_definitions, _) ←
    for_each_acc (MypyFile_defs stub)
      (fun i '(stub_definitions, src_definitions) =>
         o ← read i;
         if isinstance_ImportBase o then mret (stub_definitions ++ [i], src_definitions)
         else
           match o with
           | OClassDef c =>
               match dict_get (ClassDef_name c) src_definitions with
               | None => mret (stub_definitions ++ [i], src_definitions)
               | Some _ => mret (stub_definitions, src_definitions)
               end
           | OAssignmentStmt a =>
               match lvalues a with
               | [NameExpr name] =>
                   match dict_get name src_definitions with
                   | None =>
                       (* could be a type alias *)
                       mret (stub_definitions ++ [i], src_definitions)
                   | Some src_assignment =>
                       s ← read src_assignment;
                       match s with
                       | OAssignmentStmt sa =>
                           write src_assignment (OAssignmentStmt
                             (mkAssignmentStmt (lvalues sa) (rvalue sa)
                                (AssignmentStmt_type a) (AssignmentStmt_unanalyzed_type a)
                                (AssignmentStmt_line sa) (AssignmentStmt_column sa))) ;;
                           src_definitions' ← dict_del name src_definitions;
                           mret (stub_definitions, src_definitions')
                       | _ => mret (stub_definitions, src_definitions)
                       end
                   end
               | _ => mret (stub_definitions, src_definitions)
               end
           | _ => mret (stub_definitions, src_definitions)
           end)
      ([], src_definitions);
  mret (mkMypyFile (MypyFile_names src)
          (stub_definitions ++ MypyFile_defs src)
          (MypyFile_imports src ++ MypyFile_imports stub)).

(** [run], on the files [src] and [stub]; it returns the file [src] as it
    has become. *)
Definition run (fuel : nat) (src stub : MypyFile) : M MypyFile :=
  merge_symbol_tables (merge_nodes fuel) (MypyFile_names src) (MypyFile_names stub) ;;
  enrich_src_defs_with_stub_only src stub.

(** A source module [import os; class A; x = 1] and a stub module
    [import typing; class A; class P; x: int = ...; T = ...]. *)
Definition heap_modules : gmap loc object :=
  list_to_map [
    (1%nat, OSymbolTable [("A", 20%nat); ("x", 21%nat)]);
    (2%nat, OSymbolTable [("A", 22%nat); ("P", 23%nat); ("x", 24%nat); ("T", 25%nat)]);
    (3%nat, OSymbolTable []);
    (10%nat, OOtherNode "Import" 1 0);
    (11%nat, OClassDef (mkClassDef "A" [] [] 2 0));
    (12%nat, OAssignmentStmt (mkAssignmentStmt [NameExpr "x"] (OtherExpr "IntExpr")
                                None None 3 0));
    (13%nat, OOtherNode "Import" 1 0);
    (14%nat, OClassDef (mkClassDef "A" [] [] 2 0));
    (15%nat, OClassDef (mkClassDef "P" [] [] 3 0));
    (16%nat, OAssignmentStmt (mkAssignmentStmt [NameExpr "x"] EllipsisExpr
                                (Some "int") (Some "int") 4 0));
    (17%nat, OAssignmentStmt (mkAssignmentStmt [NameExpr "T"] EllipsisExpr
                                None None 5 0));
    (20%nat, OSymbolTableNode 30%nat); (21%nat, OSymbolTableNode 31%nat);
    (22%nat, OSymbolTableNode 32%nat); (23%nat, OSymbolTableNode 33%nat);
    (24%nat, OSymbolTableNode 34%nat); (25%nat, OSymbolTableNode 35%nat);
    (30%nat, OTypeInfo (mkTypeInfo [] None false 40%nat 11%nat 2 0));
    (31%nat, OVar (mkVar None 3 0));
    (32%nat, OTypeInfo (mkTypeInfo [] None false 41%nat 14%nat 2 0));
    (33%nat, OTypeInfo (mkTypeInfo [] None true 42%nat 15%nat 3 0));
    (34%nat, OVar (mkVar (Some "int") 4 0));
    (35%nat, OVar (mkVar None 5 0));
    (40%nat, OSymbolTable []); (41%nat, OSymbolTable []); (42%nat, OSymbolTable [])].

Definition file_src : MypyFile := mkMypyFile 1%nat [10%nat; 11%nat; 12%nat] [10%nat].
Definition file_stub : MypyFile :=
  mkMypyFile 2%nat [13%nat; 14%nat; 15%nat; 16%nat; 17%nat] [13%nat].

(** A stub module with nothing in it. *)
Definition file_empty_stub : MypyFile := mkMypyFile 3%nat [] [].

(** Two variables, at 1 and 2; a class definition at 3 and another at 4;
    nothing at 5. *)
Definition heap_variables : gmap loc object :=
  list_to_map [
    (1%nat, OVar (mkVar None 3 4));
    (2%nat, OVar (mkVar (Some "int") 7 0));
    (3%nat, OClassDef (mkClassDef "C" [] [] 1 0));
    (4%nat, OClassDef (mkClassDef "C" [] [] 1 0));
    (5%nat, ONone)].

(** The body of a stub class: [x: int = ...], [def f], [y: str = ...],
    [def f] again and a decorated [g]; and an assignment [self.x = 1] of
    the constructor of the source class. *)
Definition heap_class_body : gmap loc object :=
  list_to_map [
    (1%nat, OAssignmentStmt (mkAssignmentStmt [NameExpr "x"] EllipsisExpr
                               (Some "int") (Some "int") 2 4));
    (2%nat, OFuncDef (mkFuncDef "f" [Some "self"] [0] (Some "t1") None [] 3 4));
    (3%nat, OAssignmentStmt (mkAssignmentStmt [NameExpr "y"] EllipsisExpr
                               (Some "str") (Some "str") 4 4));
    (4%nat, OFuncDef (mkFuncDef "f" [Some "self"] [0] (Some "t2") None [] 5 4));
    (5%nat, ODecorator (mkDecorator 6%nat [NameExpr "property"] 6 4));
    (6%nat, OFuncDef (mkFuncDef "g" [Some "self"] [0] (Some "t3") None [] 7 4));
    (7%nat, OAssignmentStmt (mkAssignmentStmt [MemberExpr (NameExpr "self") "x"]
                               (OtherExpr "IntExpr") None None 10 8))].

End StubSrcMerge.

(** * Facts about the string and path functions *)

Module PyFacts.
Import Py.

Lemma sapp_cons (a : ascii) (s t : string) : String a s +:+ t = String a (s +:+ t).
Proof. reflexivity. Qed.

Lemma sapp_nil_l (s : string) : "" +:+ s = s.
Proof. reflexivity. Qed.

Lemma sapp_nil_r (s : string) : s +:+ "" = s.
Proof. induction s as [|a s IH]; [done|]. by rewrite sapp_cons, IH. Qed.

Lemma sapp_assoc (s t u : string) : (s +:+ t) +:+ u = s +:+ t +:+ u.
Proof. induction s as [|a s IH]; [done|]. by rewrite !sapp_cons, IH. Qed.

Lemma slength_app (s t : string) :
  String.length (s +:+ t) = (String.length s + String.length t)%nat.
Proof. induction s as [|a s IH]; [done|]. rewrite sapp_cons. simpl. by rewrite IH. Qed.

Lemma sapp_inv_tail_char (s1 s2 : string) (a b : ascii) :
  s1 +:+ String a "" = s2 +:+ String b "" -> s1 = s2 /\ a = b.
Proof.
  revert s2. induction s1 as [|c s1 IH]; intros [|d s2]; rewrite ?sapp_cons, ?sapp_nil_l.
  - by intros [= ->].
  - intros [= -> H]. by destruct s2.
  - intros [= -> H]. by destruct s1.
  - intros [= -> H]. apply IH in H as [-> ->]. done.
Qed.

(** **** [endswith] *)

Lemma endswith_refl (p : string) : endswith p p = true.
Proof. destruct p; simpl; [done|]. by rewrite Ascii.eqb_refl, String.eqb_refl. Qed.

Lemma endswith_app (s p : string) : endswith (s +:+ p) p = true.
Proof.
  induction s as [|a s IH]; [apply endswith_refl|].
  rewrite sapp_cons. simpl. rewrite IH. apply orb_true_r.
Qed.

Lemma endswith_inv (s p : string) : endswith s p = true -> exists s', s = s' +:+ p.
Proof.
  induction s as [|a s IH].
  - cbn [endswith]. rewrite orb_false_r. intros ->%String.eqb_eq. by exists "".
  - cbn [endswith]. intros [->%String.eqb_eq|H]%orb_true_iff; [by exists ""|].
    destruct (IH H) as [s' ->]. by exists (String a s').
Qed.

Lemma endswith_py_pyi (b : string) : endswith (b +:+ ".py") ".pyi" = false.
Proof.
  destruct (endswith (b +:+ ".py") ".pyi") eqn:H; [|done].
  apply endswith_inv in H as [s' H].
  change ".py" with (".p" +:+ "y") in H. change ".pyi" with (".py" +:+ "i") in H.
  rewrite <- !sapp_assoc in H. by apply sapp_inv_tail_char in H as [_ ?].
Qed.

(** **** [contains], [rsplit], [span_char] *)

Lemma contains_app (c : ascii) (s t : string) :
  contains c (s +:+ t) = contains c s || contains c t.
Proof.
  induction s as [|a s IH]; [done|]. rewrite sapp_cons. simpl.
  by rewrite IH, orb_assoc.
Qed.

Lemma rsplit_None (c : ascii) (s : string) : contains c s = false -> rsplit c s = None.
Proof.
  induction s as [|a s IH]; [done|]. simpl.
  intros [Ha Hs]%orb_false_iff. by rewrite (IH Hs), Ha.
Qed.

Lemma rsplit_Some (c : ascii) (s h t : string) :
  rsplit c s = Some (h, t) -> s = h +:+ String c t /\ contains c t = false.
Proof.
  revert h. induction s as [|a s IH]; intros h; [done|]. simpl.
  destruct (rsplit c s) as [[h' t']|] eqn:Hs.
  - intros [= <- <-]. destruct (IH _ eq_refl) as [-> Ht]. by rewrite sapp_cons.
  - destruct (Ascii.eqb a c) eqn:Ha; [|done]. intros [= <- <-].
    apply Ascii.eqb_eq in Ha as ->. split; [done|].
    clear IH. induction s as [|b s IH]; [done|]. simpl in *.
    destruct (rsplit c s) as [[??]|]; [done|].
    destruct (Ascii.eqb b c); [done|]. simpl. by apply IH.
Qed.

Lemma rsplit_app (c : ascii) (h t : string) :
  contains c t = false -> rsplit c (h +:+ String c t) = Some (h, t).
Proof.
  intros Ht. induction h as [|a h IH].
  - rewrite sapp_nil_l. simpl. by rewrite (rsplit_None _ _ Ht), Ascii.eqb_refl.
  - rewrite sapp_cons. simpl. by rewrite IH.
Qed.

Lemma span_char_app (c : ascii) (s d r : string) : span_char c s = (d, r) -> s = d +:+ r.
Proof.
  revert d. induction s as [|a s IH]; intros d; simpl; [by intros [= <- <-]|].
  destruct (Ascii.eqb a c).
  - destruct (span_char c s) as [d' r']. intros [= <- <-].
    by rewrite sapp_cons, (IH d' eq_refl).
  - by intros [= <- <-].
Qed.

Lemma span_char_no_lead (c : ascii) (s t : string) :
  s <> "" -> contains c s = false -> span_char c (s +:+ t) = ("", s +:+ t).
Proof.
  destruct s as [|a s]; [done|]. intros _. rewrite sapp_cons. simpl.
  intros [-> _]%orb_false_iff. done.
Qed.

(** **** [os.path.splitext] *)

Lemma splitext_app (n base suffix : string) :
  splitext n = (base, suffix) -> n = base +:+ suffix.
Proof.
  unfold splitext.
  destruct (rsplit sep n) as [[h t]|] eqn:Hsep.
  - apply rsplit_Some in Hsep as [-> _].
    destruct (span_char dot t) as [dots rest] eqn:Hspan.
    apply span_char_app in Hspan as ->.
    destruct (rsplit dot rest) as [[r1 r2]|] eqn:Hdot.
    + apply rsplit_Some in Hdot as [-> _]. intros [= <- <-].
      change (String sep ?x) with ("/" +:+ x). by rewrite !sapp_assoc.
    + intros [= <- <-]. by rewrite sapp_nil_r.
  - destruct (span_char dot n) as [dots rest] eqn:Hspan.
    apply span_char_app in Hspan as ->.
    destruct (rsplit dot rest) as [[r1 r2]|] eqn:Hdot.
    + apply rsplit_Some in Hdot as [-> _]. intros [= <- <-].
      by rewrite !sapp_nil_l, !sapp_assoc.
    + intros [= <- <-]. by rewrite sapp_nil_r.
Qed.

(** A base name of a module file: not empty, and with no dot and no
    separator in it. *)
Definition plain_name (b : string) : Prop :=
  b <> "" /\ contains dot b = false /\ contains sep b = false.

Lemma splitext_plain (b ext : string) :
  plain_name b -> contains dot ext = false -> contains sep ext = false ->
  splitext (b +:+ String dot ext) = (b, String dot ext).
Proof.
  intros (Hne & Hdot & Hsep) Hedot Hesep. unfold splitext.
  rewrite rsplit_None.
  2:{ rewrite contains_app, Hsep. simpl. by rewrite Hesep. }
  rewrite span_char_no_lead by done.
  by rewrite rsplit_app.
Qed.

Lemma splitext_py (b : string) : plain_name b -> splitext (b +:+ ".py") = (b, ".py").
Proof. intros Hb. by apply (splitext_plain b "py"). Qed.

Lemma splitext_pyi (b : string) : plain_name b -> splitext (b +:+ ".pyi") = (b, ".pyi").
Proof. intros Hb. by apply (splitext_plain b "pyi"). Qed.

(** **** [os.path.split]: the head is shorter than the path *)

Lemma length_rstrip (c : ascii) (s : string) :
  (String.length (rstrip c s) <= String.length s)%nat.
Proof.
  induction s as [|a s IH]; simpl; [done|].
  destruct (rstrip c s); [destruct (Ascii.eqb a c)|]; simpl in *; lia.
Qed.

Lemma length_split_head (p head tail : string) :
  split p = (head, tail) -> tail <> "" ->
  (String.length head < String.length p)%nat.
Proof.
  unfold split. destruct (rsplit sep p) as [[h t]|] eqn:Hsep.
  - apply rsplit_Some in Hsep as [-> _]. intros [= <- <-] Ht.
    rewrite slength_app. simpl.
    assert (String.length t <> 0)%nat by (by destruct t).
    assert (String.length (h +:+ "/") = S (String.length h))
      by (rewrite slength_app; simpl; lia).
    destruct (all_char sep (h +:+ "/")); [lia|].
    pose proof (length_rstrip sep (h +:+ "/")). lia.
  - intros [= <- <-] Ht. simpl. destruct p; [done|simpl; lia].
Qed.

(** **** [os.path.join] *)

Lemma startswith_sep (n : string) : contains sep n = false -> startswith n "/" = false.
Proof.
  destruct n as [|a n]; [done|]. simpl. intros [Ha _]%orb_false_iff.
  unfold sep in Ha. by rewrite Ha.
Qed.

Lemma join_inj (a n1 n2 : string) :
  contains sep n1 = false -> contains sep n2 = false ->
  join a n1 = join a n2 -> n1 = n2.
Proof.
  intros H1 H2. unfold join. rewrite !startswith_sep by done.
  destruct (_ || _).
  - apply (inj (String.app a)).
  - intros H. apply (inj (String.app a)) in H. by apply (inj (String.app "/")) in H.
Qed.

End PyFacts.

(** * Properties of the source finder *)

Module FindSourcesProofs.
Import FindSources.
Import PyFacts.

Lemma obind_Ok {A B} (m : outcome A) (k : A -> outcome B) (b : B) :
  obind m k = Ok b -> exists a, m = Ok a /\ k a = Ok b.
Proof. destruct m; simpl; intros; try discriminate; eauto. Qed.

(** *** The sort keeps the entries *)

Lemma sort_insert_perm (x : string) (l : list string) : sort_insert x l ≡ₚ x :: l.
Proof.
  induction l as [|y l IH]; simpl; [done|].
  destruct (key_leb (keyfunc x) (keyfunc y)); [done|].
  rewrite IH. apply Permutation_swap.
Qed.

Lemma sort_by_keyfunc_perm (l : list string) : sort_by_keyfunc l ≡ₚ l.
Proof.
  induction l as [|x l IH]; simpl; [done|].
  by rewrite sort_insert_perm, IH.
Qed.

Lemma elem_of_sort_by_keyfunc (x : string) (l : list string) :
  x ∈ sort_by_keyfunc l <-> x ∈ l.
Proof. by rewrite sort_by_keyfunc_perm. Qed.

(** *** The order of the sort keys *)

Lemma compare_refl (s : string) : String.compare s s = Eq.
Proof.
  induction s as [|a s IH]; simpl; [done|].
  unfold Ascii.compare. by rewrite N.compare_refl.
Qed.

Lemma ltb_le (s1 s2 : string) :
  String.ltb s1 s2 = true <-> String.le s1 s2 /\ s1 <> s2.
Proof.
  unfold String.ltb, String.le, String.leb.
  destruct (String.compare s1 s2) eqn:Hc; split; try done.
  - apply String.compare_eq_iff in Hc. by intros [_ ?].
  - intros _. split; [done|]. intros ->.
    by rewrite compare_refl in Hc.
  - by intros [? _].
Qed.

Lemma ltb_irrefl (s : string) : String.ltb s s = false.
Proof.
  destruct (String.ltb s s) eqn:H; [|done]. by apply ltb_le in H as [_ ?].
Qed.

Lemma ltb_trans (s1 s2 s3 : string) :
  String.ltb s1 s2 = true -> String.ltb s2 s3 = true -> String.ltb s1 s3 = true.
Proof.
  rewrite !ltb_le. intros [H12 Hne12] [H23 Hne23]. split; [by etrans|].
  intros ->. apply Hne12. by apply (anti_symm String.le).
Qed.

Lemma ltb_total (s1 s2 : string) :
  String.ltb s1 s2 = true \/ s1 = s2 \/ String.ltb s2 s1 = true.
Proof.
  destruct (decide (s1 = s2)) as [->|Hne]; [auto|].
  destruct (total String.le s1 s2).
  - left. by apply ltb_le.
  - right; right. apply ltb_le. split; [done|congruence].
Qed.

Lemma key_leb_spec (k1 k2 : string * Z) : key_leb k1 k2 = true <-> key_le k1 k2.
Proof.
  unfold key_leb, key_le. rewrite orb_true_iff, andb_true_iff, String.eqb_eq, Z.leb_le.
  done.
Qed.

Lemma key_le_total (k1 k2 : string * Z) : key_leb k1 k2 = false -> key_le k2 k1.
Proof.
  intros E. unfold key_leb in E. apply orb_false_iff in E as [Hlt E].
  unfold key_le. destruct (ltb_total k1.1 k2.1) as [?|[Heq|?]]; [congruence| |by left].
  right. split; [done|]. apply String.eqb_eq in Heq. rewrite Heq in E. simpl in E.
  apply Z.leb_gt in E. lia.
Qed.

Lemma key_le_trans (k1 k2 k3 : string * Z) : key_le k1 k2 -> key_le k2 k3 -> key_le k1 k3.
Proof.
  unfold key_le. intros [H12|[E12 H12]] [H23|[E23 H23]].
  - left. by eapply ltb_trans.
  - left. by rewrite <- E23.
  - left. by rewrite E12.
  - right. split; [congruence|lia].
Qed.

(** The entries in the order of their keys: "foo < foo.pyi < foo.py". *)
Definition name_le (x y : string) : Prop := key_le (keyfunc x) (keyfunc y).

Lemma sort_insert_sorted (x : string) (l : list string) :
  StronglySorted name_le l -> StronglySorted name_le (sort_insert x l).
Proof.
  induction 1 as [|y l Hl IH Hy]; simpl; [by repeat constructor|].
  destruct (key_leb (keyfunc x) (keyfunc y)) eqn:Hxy.
  - apply key_leb_spec in Hxy. constructor; [by constructor|].
    constructor; [done|]. eapply Forall_impl; [exact Hy|].
    intros z Hz. by eapply key_le_trans.
  - apply key_le_total in Hxy. constructor; [done|].
    apply Forall_forall. intros z Hz. rewrite sort_insert_perm in Hz.
    apply elem_of_cons in Hz as [->|Hz]; [done|].
    by eapply Forall_forall in Hy.
Qed.

Lemma sort_by_keyfunc_sorted (l : list string) : StronglySorted name_le (sort_by_keyfunc l).
Proof.
  induction l as [|x l IH]; simpl; [constructor|]. by apply sort_insert_sorted.
Qed.

(** In the sorted listing a stub comes before its source: nothing before
    the first [b.pyi] is [b.py]. *)
Lemma stub_sorts_before_source (b : string) (l : list string) :
  plain_name b ->
  (b +:+ ".pyi") ∈ l ->
  exists pre post,
    sort_by_keyfunc l = pre ++ (b +:+ ".pyi") :: post /\
    ((b +:+ ".pyi") ∉ pre) /\ ((b +:+ ".py") ∉ pre).
Proof.
  intros Hb Hin. apply elem_of_sort_by_keyfunc in Hin.
  apply list_elem_of_split_l in Hin as (pre & post & Heq & Hpre).
  exists pre, post. split_and!; [done..|].
  intros Hpy. pose proof (sort_by_keyfunc_sorted l) as Hs. rewrite Heq in Hs.
  assert (Hle : name_le (b +:+ ".py") (b +:+ ".pyi")).
  { eapply StronglySorted_app_1_elem_of; [exact Hs|done|]. apply elem_of_cons; auto. }
  unfold name_le, keyfunc in Hle.
  rewrite splitext_py, splitext_pyi in Hle by done.
  destruct Hle as [Hlt|[_ Hle]]; simpl in *.
  - by rewrite ltb_irrefl in Hlt.
  - vm_compute in Hle. done.
Qed.

Section Walk.
Variable fs : FileSystem.
Variable merge : bool.

Lemma expand_dir_loop_unfold fuel cache arg mod_prefix base_dir name name_iter seen sources :
  expand_dir_loop fs merge (S fuel) cache arg mod_prefix base_dir (Some name) name_iter
    seen sources =
  if skipped_name name then
    expand_dir_loop fs merge fuel cache arg mod_prefix base_dir (Some name) name_iter
      seen sources
  else
    let path := Py.join arg name in
    if isdir fs path then
      obind (expand_dir fs merge fuel cache path (mod_prefix +:+ name +:+ "."))
        (fun '(sub_sources, cache') =>
           let seen' := if bool_decide (sub_sources = []) then seen else {[name]} ∪ seen in
           let sources' := sources ++ sub_sources in
           match name_iter with
           | [] => Ok (sources', cache')
           | name' :: name_iter' =>
               expand_dir_loop fs merge fuel cache' arg mod_prefix base_dir
                 (Some name') name_iter' seen' sources'
           end)
    else
      let '(base, suffix) := Py.splitext name in
      let name' := head name_iter in
      let name_iter' := tail name_iter in
      if String.eqb base "__init__" then
        expand_dir_loop fs merge fuel cache arg mod_prefix base_dir name' name_iter' seen sources
      else if negb (bool_decide (base ∈ seen)) && negb (Py.contains Py.dot base)
              && in_PY_EXTENSIONS suffix then
        let seen' := {[base]} ∪ seen in
        let next_base := (fun n => fst (Py.splitext n)) <$> name' in
        let src := mkBuildSource (Some path) (Some (mod_prefix +:+ base))
                     None (Some base_dir) None in
        let src' :=
          match name', next_base with
          | Some n, Some nb =>
              if merge && String.eqb nb base then
                mkBuildSource (Some (Py.join arg n)) (Some (mod_prefix +:+ nb))
                  None (Some base_dir) (Some src)
              else src
          | _, _ => src
          end in
        expand_dir_loop fs merge fuel cache arg mod_prefix base_dir
          name' name_iter' seen' (sources ++ [src'])
      else
        expand_dir_loop fs merge fuel cache arg mod_prefix base_dir name' name_iter' seen sources.
Proof. reflexivity. Qed.

Lemma expand_dir_unfold fuel cache arg mod_prefix :
  expand_dir fs merge (S fuel) cache arg mod_prefix =
  let f := get_init_file fs arg in
  if negb (String.eqb mod_prefix "") && negb (bool_decide (is_Some f)) then Ok ([], cache)
  else
    obind (crawl_up_dir fs cache arg)
      (fun '((top_mod, base_dir), cache1) =>
         let mod_prefix1 :=
           if bool_decide (is_Some f) && String.eqb mod_prefix ""
           then top_mod +:+ "." else mod_prefix in
         let sources :=
           if negb (String.eqb mod_prefix1 "")
           then [mkBuildSource f (Some (Py.rstrip Py.dot mod_prefix1)) None (Some base_dir) None]
           else [] in
         let names := sort_by_keyfunc (listdir fs arg) in
         expand_dir_loop fs merge fuel cache1 arg mod_prefix1 base_dir
           (head names) (tail names) ∅ sources).
Proof. reflexivity. Qed.

(** Once the loop variable is at, or before, a name that is skipped, the
    loop does not return: the [continue] of the skip keeps [name]. *)
Lemma expand_dir_loop_stuck fuel :
  forall cache arg mod_prefix base_dir name name_iter seen sources,
    (exists n, n ∈ name :: name_iter /\ skipped_name n = true) ->
    forall r, expand_dir_loop fs merge fuel cache arg mod_prefix base_dir
                (Some name) name_iter seen sources <> Ok r.
Proof.
  induction fuel as [|fuel IH]; intros cache arg mod_prefix base_dir name name_iter
    seen sources (n & Hn & Hskip) r; [done|].
  rewrite expand_dir_loop_unfold.
  destruct (skipped_name name) eqn:Hname.
  { apply IH. eauto. }
  assert (Hin : n ∈ name_iter).
  { apply elem_of_cons in Hn as [->|]; [congruence|done]. }
  destruct name_iter as [|name' name_iter']; [by apply elem_of_nil in Hin|].
  cbn zeta. destruct (isdir fs (Py.join arg name)).
  - intros Hr. apply obind_Ok in Hr as ([sub cache'] & _ & Hr).
    revert Hr. apply IH. eauto.
  - destruct (Py.splitext name) as [base suffix]. simpl head; simpl tail.
    destruct (String.eqb base "__init__"); [apply IH; eauto|].
    destruct (_ && _); apply IH; eauto.
Qed.


(** C3, on the code as it is: when the listing of a directory that is
    walked holds a name that the walk means to skip, the expansion does not
    return, whatever number of steps it is given: the [continue] of the skip
    leaves the loop variable at the skipped name. *)

Theorem expand_dir_skipped_entry_never_returns fuel cache arg mod_prefix name :
  name ∈ listdir fs arg ->
  skipped_name name = true ->
  mod_prefix = "" \/ is_Some (get_init_file fs arg) ->
  forall r, expand_dir fs merge fuel cache arg mod_prefix <> Ok r.
Proof.
  intros Hin Hskip Hwalk r. destruct fuel as [|fuel]; [done|].
  rewrite expand_dir_unfold. cbn zeta.
  assert (negb (String.eqb mod_prefix "")
          && negb (bool_decide (is_Some (get_init_file fs arg))) = false) as ->.
  { destruct Hwalk as [->|Hf]; [done|].
    rewrite (bool_decide_eq_true_2 _ Hf). apply andb_false_r. }
  intros Hr. apply obind_Ok in Hr as ([[top_mod base_dir] cache1] & _ & Hr).
  apply elem_of_sort_by_keyfunc in Hin.
  destruct (sort_by_keyfunc (listdir fs arg)) as [|n0 names]; [by apply elem_of_nil in Hin|].
  revert Hr. apply expand_dir_loop_stuck. eauto.
Qed.

(** *** Invalid package directories *)






(** [crawl_up_dir] returns or raises: the bound on its depth is enough. *)
Lemma crawl_up_dir_rec_total fuel : forall cache dir,
  (String.length dir < fuel)%nat -> crawl_up_dir_rec fs fuel cache dir <> OutOfFuel.
Proof.
  induction fuel as [|fuel IH]; intros cache dir Hfuel; [lia|]. simpl.
  destruct (cache !! dir); [done|].
  destruct (Py.split dir) as [parent base] eqn:Hsplit.
  destruct (String.eqb dir "" || negb (bool_decide (is_Some (get_init_file fs dir)))
            || String.eqb base "") eqn:Hstop; [done|].
  destruct (Py.isidentifier base); [|done]. simpl.
  apply orb_false_iff in Hstop as [_ Hbase]. apply String.eqb_neq in Hbase.
  pose proof (length_split_head _ _ _ Hsplit Hbase).
  specialize (IH cache parent). destruct (crawl_up_dir_rec fs fuel cache parent) as [[[??]?]| |];
    [done..|]. apply IH. lia.
Qed.

Lemma crawl_up_dir_total cache dir : crawl_up_dir fs cache dir <> OutOfFuel.
Proof. apply crawl_up_dir_rec_total. lia. Qed.

End Walk.

(** *** The walk over a listing, without merging *)

Section Dedupe.
Variable fs : FileSystem.
Variables arg b mod_prefix base_dir : string.
Hypothesis Hb : plain_name b.
Hypothesis Hinit : b <> "__init__".

(** The build sources whose path is the stub [b.pyi] or the source [b.py]
    of the directory. *)
Definition is_unit_of (s : BuildSource) : bool :=
  bool_decide (path s = Some (Py.join arg (b +:+ ".pyi")) \/
               path s = Some (Py.join arg (b +:+ ".py"))).


Definition walk (fuel : nat) (cache : gmap string (string * string))
    (l : list string) (seen : gset string) (sources : list BuildSource) :=
  expand_dir_loop fs false fuel cache arg mod_prefix base_dir (head l) (tail l) seen sources.

Lemma sep_free_stub : Py.contains Py.sep (b +:+ ".pyi") = false.
Proof. pose proof Hb as (_ & _ & H). by rewrite contains_app, H. Qed.

Lemma sep_free_source : Py.contains Py.sep (b +:+ ".py") = false.
Proof. pose proof Hb as (_ & _ & H). by rewrite contains_app, H. Qed.

Lemma not_unit_of (n base suffix : string) :
  Py.contains Py.sep n = false ->
  Py.splitext n = (base, suffix) -> base <> b ->
  is_unit_of (mkBuildSource (Some (Py.join arg n)) (Some (mod_prefix +:+ base))
                None (Some base_dir) None) = false.
Proof.
  intros Hsep Hext Hne. apply bool_decide_eq_false_2. simpl.
  intros [[= H]|[= H]]; apply join_inj in H; auto using sep_free_stub, sep_free_source;
    subst n; [rewrite splitext_pyi in Hext by done|rewrite splitext_py in Hext by done];
    congruence.
Qed.

Lemma prefix_nonempty (mp n : string) : String.eqb (mp +:+ n +:+ ".") "" = false.
Proof.
  apply String.eqb_neq. intros H. apply (f_equal String.length) in H.
  rewrite !slength_app in H. simpl in H. lia.
Qed.

Lemma expand_dir_no_package fuel cache p mp n :
  get_init_file fs p = None ->
  expand_dir fs false (S fuel) cache p (mp +:+ n +:+ ".") = Ok ([], cache).
Proof.
  intros Hp. rewrite expand_dir_unfold. cbn zeta. rewrite Hp, prefix_nonempty.
  by rewrite bool_decide_eq_false_2 by (by intros [??]).
Qed.

Lemma walk_dir fuel cache n l seen sources :
  skipped_name n = false ->
  isdir fs (Py.join arg n) = true ->
  get_init_file fs (Py.join arg n) = None ->
  walk (S (S fuel)) cache (n :: l) seen sources =
    match l with
    | [] => Ok (sources, cache)
    | _ => walk (S fuel) cache l seen sources
    end.
Proof.
  intros Hskip Hdir Hp. unfold walk.
  change (head (n :: l)) with (Some n). change (tail (n :: l)) with l.
  rewrite expand_dir_loop_unfold, Hskip. cbn zeta. rewrite Hdir.
  rewrite expand_dir_no_package by done. simpl. rewrite app_nil_r.
  by destruct l.
Qed.

Lemma walk_file fuel cache n l seen sources :
  skipped_name n = false ->
  isdir fs (Py.join arg n) = false ->
  walk (S fuel) cache (n :: l) seen sources =
    let '(base, suffix) := Py.splitext n in
    if String.eqb base "__init__" then walk fuel cache l seen sources
    else if negb (bool_decide (base ∈ seen)) && negb (Py.contains Py.dot base)
            && in_PY_EXTENSIONS suffix
    then walk fuel cache l ({[base]} ∪ seen)
           (sources ++ [mkBuildSource (Some (Py.join arg n)) (Some (mod_prefix +:+ base))
                          None (Some base_dir) None])
    else walk fuel cache l seen sources.
Proof.
  intros Hskip Hdir. unfold walk.
  change (head (n :: l)) with (Some n). change (tail (n :: l)) with l.
  rewrite expand_dir_loop_unfold, Hskip. cbn zeta. rewrite Hdir.
  destruct (Py.splitext n) as [base suffix].
  destruct (String.eqb base "__init__"); [done|].
  destruct (_ && _); [|done]. by destruct (head l).
Qed.

Lemma walk_nil fuel cache seen sources :
  walk (S fuel) cache [] seen sources = Ok (sources, cache).
Proof. reflexivity. Qed.

Lemma in_PY_EXTENSIONS_inv (suffix : string) :
  in_PY_EXTENSIONS suffix = true -> suffix = ".pyi" \/ suffix = ".py".
Proof.
  intros H. apply bool_decide_eq_true in H. unfold PY_EXTENSIONS in H.
  apply elem_of_cons in H as [->|H]; [by left|].
  apply elem_of_cons in H as [->|H]; [by right|]. by apply elem_of_nil in H.
Qed.




Lemma init_file_not_unit_of (f : string) (m : option string) :
  get_init_file fs arg = Some f ->
  is_unit_of (mkBuildSource (Some f) m None (Some base_dir) None) = false.
Proof.
  unfold get_init_file, PY_EXTENSIONS. simpl. intros Hf.
  assert (f = Py.join arg "__init__.pyi" \/ f = Py.join arg "__init__.py") as Hcases.
  { change ("__init__" +:+ ".pyi") with "__init__.pyi" in Hf.
    change ("__init__" +:+ ".py") with "__init__.py" in Hf.
    destruct (isfile fs (Py.join arg "__init__.pyi")); [left; congruence|].
    destruct (isfile fs (Py.join arg "__init__.py")); [right; congruence|].
    destruct (init_under_package_root fs (Py.join arg "__init__.py"));
      [right; congruence|done]. }
  apply bool_decide_eq_false_2. simpl.
  intros [[= H]|[= H]]; destruct Hcases as [-> | ->];
    apply join_inj in H; try done; auto using sep_free_stub, sep_free_source;
    apply (f_equal Py.splitext) in H;
    rewrite ?splitext_pyi, ?splitext_py in H by done;
    vm_compute in H; by simplify_eq.
Qed.

End Dedupe.

Section Driver.
Variable fs : FileSystem.
Variable options : Options.
Variable fuel : nat.
Variable allow_empty_dir : bool.

Abbreviation step := (create_source_list_step fs (merge_stub_into_src options) options
                    fuel allow_empty_dir).
Abbreviation loop := (create_source_list_loop fs (merge_stub_into_src options) options
                    fuel allow_empty_dir).


(** The arguments in the order [create_source_list] goes through them. *)
Definition source_then_stubs (files : list string) : list string :=
  (partition (fun v => Py.endswith v ".pyi") files).1 ++
  (partition (fun v => Py.endswith v ".pyi") files).2.

Lemma create_source_list_eq files :
  create_source_list fuel fs files options allow_empty_dir =
  obind (loop ([], ∅, ∅) (source_then_stubs files)) (fun '(targets, _, _) => Ok targets).
Proof. reflexivity. Qed.

(** C8: with merging of stubs on, for a source file [base.py] whose stub
    [base.pyi] exists, the argument lists [[base.py; base.pyi]] and
    [[base.pyi; base.py]] give the same result; and when the module of the
    file resolves, that result is the one build source of [base.py] with the
    build source of [base.pyi] as its [merge_with]. *)
Theorem explicit_pair_order_irrelevant base :
  merge_stub_into_src options = true ->
  Py.splitext (base +:+ ".py") = (base, ".py") ->
  exists_ fs (base +:+ ".pyi") = true ->
  create_source_list fuel fs [base +:+ ".py"; base +:+ ".pyi"] options allow_empty_dir =
  create_source_list fuel fs [base +:+ ".pyi"; base +:+ ".py"] options allow_empty_dir /\
  forall name base_dir cache',
    crawl_up fs ∅ (Py.normpath (base +:+ ".py")) = Ok ((name, base_dir), cache') ->
    let unit :=
      mkBuildSource (Some (base +:+ ".py")) (Some name) None (Some base_dir)
        (Some (mkBuildSource (Some (base +:+ ".pyi")) (Some name) None (Some base_dir) None)) in
    create_source_list fuel fs [base +:+ ".py"; base +:+ ".pyi"] options allow_empty_dir
      = Ok [unit] /\
    create_source_list fuel fs [base +:+ ".pyi"; base +:+ ".py"] options allow_empty_dir
      = Ok [unit].
Proof.
  intros Hmerge Hext Hexists.
  assert (Horder : forall files,
            files = [base +:+ ".py"; base +:+ ".pyi"] \/
            files = [base +:+ ".pyi"; base +:+ ".py"] ->
            source_then_stubs files = [base +:+ ".py"; base +:+ ".pyi"]).
  { intros files [-> | ->]; unfold source_then_stubs, partition; simpl;
      change ".pyi" with ("" +:+ ".pyi") at 1 3 5 7;
      rewrite ?endswith_py_pyi, ?endswith_app; simpl; reflexivity. }
  split; [by rewrite !create_source_list_eq, !Horder by auto|].
  intros name base_dir cache' Hcrawl unit.
  assert (Hrun : loop ([], ∅, ∅) [base +:+ ".py"; base +:+ ".pyi"]
                 = Ok ([unit], {[base +:+ ".pyi"]} ∪ ({[base +:+ ".py"]} ∪ ∅), cache')).
  { simpl. rewrite bool_decide_eq_false_2 by apply not_elem_of_empty.
    rewrite Hext. simpl. rewrite Hcrawl. simpl.
    rewrite Hmerge, Hexists. simpl.
    rewrite bool_decide_eq_true_2 by (by apply elem_of_union_l, elem_of_singleton). done. }
  split; rewrite create_source_list_eq, Horder, ?Hrun; auto.
Qed.

End Driver.

(** *** The theorems at concrete file systems *)

Ltac by_compute :=
  match goal with
  | |- ?P => apply (@bool_decide_unpack P _); vm_compute; exact I
  end.

(** A listing with [__pycache__] in it: the expansion of [t] is still
    running after any number of steps. *)
Lemma expand_dir_skipped_entry_never_returns_witness :
  "__pycache__" ∈ listdir fs_with_pycache "t" /\
  skipped_name "__pycache__" = true /\
  forall fuel r, expand_dir fs_with_pycache true fuel ∅ "t" "" <> Ok r.
Proof.
  assert (Hin : "__pycache__" ∈ listdir fs_with_pycache "t") by by_compute.
  split; [exact Hin|]. split; [reflexivity|]. intros fuel.
  apply (expand_dir_skipped_entry_never_returns fs_with_pycache true fuel ∅ "t" ""
           "__pycache__" Hin eq_refl (or_introl eq_refl)).
Defined.

(** The claim of C7 as it stands, refuted: beside a package [t/a/], the
    files [t/a.py] and [t/a.pyi] are both left out, and the one build source
    of module [a] is the marker file of the package. *)
Lemma package_of_same_name_hides_stub_and_source :
  "a.pyi" ∈ listdir fs_package_beside_module "t" /\
  "a.py" ∈ listdir fs_package_beside_module "t" /\
  isfile fs_package_beside_module "t/a.pyi" = true /\
  isfile fs_package_beside_module "t/a.py" = true /\
  create_source_list 10 fs_package_beside_module ["t"] (mkOptions false false) false =
    Ok [mkBuildSource (Some "t/a/__init__.py") (Some "a") None (Some "t") None] /\
  ~ (exists sources cache' unit,
        expand_dir fs_package_beside_module false 10 ∅ "t" "" = Ok (sources, cache') /\
        List.filter (is_unit_of "t" "a") sources = [unit] /\
        path unit = Some "t/a.pyi").
Proof.
  split; [by_compute|]. split; [by_compute|]. split; [reflexivity|].
  split; [reflexivity|]. split; [vm_compute; reflexivity|].
  intros (sources & cache' & unit & Hrun & Hunits & _).
  vm_compute in Hrun. injection Hrun as <- _. vm_compute in Hunits. discriminate.
Qed.

(** [a.py] and [a.pyi] in the working directory, in either order. *)
Lemma explicit_pair_order_irrelevant_witness :
  let unit :=
    mkBuildSource (Some "a.py") (Some "a") None (Some ".")
      (Some (mkBuildSource (Some "a.pyi") (Some "a") None (Some ".") None)) in
  create_source_list 10 fs_cwd_module_and_stub ["a.py"; "a.pyi"] (mkOptions true false) false
    = Ok [unit] /\
  create_source_list 10 fs_cwd_module_and_stub ["a.pyi"; "a.py"] (mkOptions true false) false
    = Ok [unit].
Proof.
  apply (proj2 (explicit_pair_order_irrelevant fs_cwd_module_and_stub (mkOptions true false)
                  10 false "a" eq_refl eq_refl eq_refl)
           "a" "." (<["" := ("", ".")]> ∅)).
  vm_compute. reflexivity.
Defined.


End FindSourcesProofs.

(** * Further properties of the source finder *)

Module FindSourcesExtra.
Import FindSources.
Import PyFacts.
Import FindSourcesProofs.

(** *** [partition] *)

Lemma partition_perm (pred : string -> bool) (l : list string) :
  List.filter (fun v => negb (pred v)) l ++ List.filter pred l ≡ₚ l.
Proof.
  induction l as [|x l IH]; [done|]. simpl. destruct (pred x); simpl.
  - rewrite <- Permutation_middle. by constructor.
  - by constructor.
Qed.

Lemma filter_sublist (p : string -> bool) (l : list string) : sublist (List.filter p l) l.
Proof.
  induction l as [|x l IH]; [constructor|]. simpl.
  destruct (p x); by constructor.
Qed.

(** X1: [partition] loses and duplicates nothing: its two parts, one after the
    other, are a permutation of the input; each part keeps the order of
    the input; the first part holds the entries for which the predicate is
    false and the second those for which it is true. *)
Theorem partition_keeps_every_entry (pred : string -> bool) (files : list string) :
  fst (partition pred files) ++ snd (partition pred files) ≡ₚ files /\
  sublist (fst (partition pred files)) files /\
  sublist (snd (partition pred files)) files /\
  (forall f, f ∈ fst (partition pred files) <-> f ∈ files /\ pred f = false) /\
  (forall f, f ∈ snd (partition pred files) <-> f ∈ files /\ pred f = true).
Proof.
  unfold partition. simpl. split; [apply partition_perm|].
  split; [apply filter_sublist|]. split; [apply filter_sublist|].
  split; intros f; rewrite !list_elem_of_In, filter_In; [|done].
  by rewrite negb_true_iff.
Qed.

(** *** [keyfunc] *)

Lemma splitext_no_ext (b : string) : plain_name b -> Py.splitext b = (b, "").
Proof.
  intros (Hne & Hdot & Hsep). unfold Py.splitext.
  rewrite (rsplit_None _ _ Hsep).
  rewrite <- (sapp_nil_r b) at 1. rewrite span_char_no_lead by done.
  by rewrite sapp_nil_r, (rsplit_None _ _ Hdot).
Qed.

(** The strict order of the sort keys. *)
Definition key_lt (k1 k2 : string * Z) : Prop := key_le k1 k2 /\ ~ key_le k2 k1.

Lemma key_lt_same_base (b : string) (i j : Z) : i < j -> key_lt (b, i) (b, j).
Proof.
  intros Hij. split.
  - right. simpl. split; [done|lia].
  - intros [H|[_ H]]; simpl in H; [by rewrite ltb_irrefl in H|lia].
Qed.

(** X2: The property the sort key is meant to have: for a base name [foo],
    [foo < foo.pyi < foo.py]. *)
Theorem keyfunc_orders_package_stub_source (b : string) :
  plain_name b ->
  key_lt (keyfunc b) (keyfunc (b +:+ ".pyi")) /\
  key_lt (keyfunc (b +:+ ".pyi")) (keyfunc (b +:+ ".py")).
Proof.
  intros Hb. unfold keyfunc.
  rewrite (splitext_no_ext _ Hb), (splitext_pyi _ Hb), (splitext_py _ Hb).
  split; by apply key_lt_same_base.
Qed.

(** *** [strip_py] *)

Lemma substring_app_head (s t : string) : String.substring 0 (String.length s) (s +:+ t) = s.
Proof.
  induction s as [|a s IH]; simpl; [by destruct t|]. by rewrite IH.
Qed.

Lemma drop_last_app (s ext : string) : Py.drop_last (String.length ext) (s +:+ ext) = s.
Proof.
  unfold Py.drop_last. rewrite slength_app.
  replace (String.length s + String.length ext - String.length ext)%nat
    with (String.length s) by lia.
  apply substring_app_head.
Qed.

Lemma endswith_iff (s p : string) : Py.endswith s p = true <-> exists s', s = s' +:+ p.
Proof. split; [apply endswith_inv|]. intros [s' ->]. apply endswith_app. Qed.


(** X3: [strip_py] undoes the appending of a recognized extension, and of
    nothing else: it returns [s] exactly when its argument is [s] followed
    by [.py] or by [.pyi], and [None] exactly when its argument ends in
    neither. *)
Theorem strip_py_inverts_extension (arg : string) :
  (forall s, strip_py arg = Some s <-> arg = s +:+ ".py" \/ arg = s +:+ ".pyi") /\
  (strip_py arg = None <->
     Py.endswith arg ".py" = false /\ Py.endswith arg ".pyi" = false).
Proof.
  unfold strip_py, PY_EXTENSIONS. cbn [strip_py_from]. split.
  - intros s. split.
    + destruct (Py.endswith arg ".pyi") eqn:Hpyi.
      * apply endswith_inv in Hpyi as [s' ->]. rewrite drop_last_app.
        intros [= <-]. by right.
      * destruct (Py.endswith arg ".py") eqn:Hpy; [|done].
        apply endswith_inv in Hpy as [s' ->]. rewrite drop_last_app.
        intros [= <-]. by left.
    + intros [-> | ->].
      * by rewrite endswith_py_pyi, endswith_app, drop_last_app.
      * by rewrite endswith_app, drop_last_app.
  - destruct (Py.endswith arg ".pyi"); [by split; [|intros [_ ?]]|].
    destruct (Py.endswith arg ".py"); [by split; [|intros [? _]]|]. done.
Qed.

(** *** [module_join] *)

Lemma sapp_nonempty_r (s t : string) : t <> "" -> s +:+ t <> "".
Proof. intros Ht. destruct s; [by rewrite sapp_nil_l|done]. Qed.

Lemma eqb_sapp_nonempty_r (s t : string) : t <> "" -> String.eqb (s +:+ t) "" = false.
Proof. intros Ht. by apply String.eqb_neq, sapp_nonempty_r. Qed.

(** X4: Joining module ids composes: an empty parent changes nothing, and
    joining is associative as long as the id in the middle is not empty. *)
Theorem module_join_composes (a b c : string) :
  b <> "" ->
  module_join "" c = c /\
  module_join (module_join a b) c = module_join a (module_join b c).
Proof.
  intros Hb. split; [done|]. unfold module_join.
  apply String.eqb_neq in Hb as Hb'. rewrite Hb'.
  destruct (String.eqb a "") eqn:Ha; [by rewrite Hb'|].
  rewrite eqb_sapp_nonempty_r by (by apply sapp_nonempty_r).
  by rewrite !sapp_assoc.
Qed.

(** *** [get_init_file] *)

(** [get_init_file] prefers the stub: it returns [dir/__init__.pyi]
    whenever that is a file; it returns [None] exactly when neither marker
    file is a file and [dir/__init__.py] is not under a package root; and
    what it returns is always one of the two marker paths. *)
Lemma get_init_file_prefers_stub (fs : FileSystem) (dir : string) :
  (isfile fs (Py.join dir "__init__.pyi") = true ->
   get_init_file fs dir = Some (Py.join dir "__init__.pyi")) /\
  (isfile fs (Py.join dir "__init__.pyi") = false ->
   isfile fs (Py.join dir "__init__.py") = true
     \/ init_under_package_root fs (Py.join dir "__init__.py") = true ->
   get_init_file fs dir = Some (Py.join dir "__init__.py")) /\
  (get_init_file fs dir = None <->
     isfile fs (Py.join dir "__init__.pyi") = false /\
     isfile fs (Py.join dir "__init__.py") = false /\
     init_under_package_root fs (Py.join dir "__init__.py") = false).
Proof.
  unfold get_init_file, PY_EXTENSIONS. cbn [get_init_file_from].
  change ("__init__" +:+ ".pyi") with "__init__.pyi".
  change ("__init__" +:+ ".py") with "__init__.py".
  change (String.eqb ".pyi" ".py") with false. change (String.eqb ".py" ".py") with true.
  cbn [andb].
  destruct (isfile fs (Py.join dir "__init__.pyi")); [by repeat split; try intros (?&?&?)|].
  destruct (isfile fs (Py.join dir "__init__.py")); [by repeat split; try intros (?&?&?)|].
  destruct (init_under_package_root fs (Py.join dir "__init__.py"));
    repeat split; try done; try (by intros (?&?&?)); by intros _ [|].
Qed.

(** *** [crawl_up_dir] *)

Section Crawl.
Variable fs : FileSystem.

Lemma crawl_up_dir_rec_unfold fuel cache dir :
  crawl_up_dir_rec fs (S fuel) cache dir =
  match cache !! dir with
  | Some r => Ok (r, cache)
  | None =>
      let '(parent_dir, base) := Py.split dir in
      if String.eqb dir "" || negb (bool_decide (is_Some (get_init_file fs dir)))
         || String.eqb base "" then
        Ok (("", if String.eqb dir "" then "." else dir),
            <[dir := ("", if String.eqb dir "" then "." else dir)]> cache)
      else if negb (Py.isidentifier base) then
        Raise (InvalidSourceList_not_a_package_name base)
      else
        obind (crawl_up_dir_rec fs fuel cache parent_dir)
          (fun '((parent, base_dir), cache') =>
             Ok ((module_join parent base, base_dir),
                 <[dir := (module_join parent base, base_dir)]> cache'))
  end.
Proof. reflexivity. Qed.

(** The one exception [crawl_up_dir] raises. *)
Lemma crawl_up_dir_rec_raises fuel : forall cache dir e,
  crawl_up_dir_rec fs fuel cache dir = Raise e ->
  exists base, e = InvalidSourceList_not_a_package_name base /\ Py.isidentifier base = false.
Proof.
  induction fuel as [|fuel IH]; intros cache dir e; [done|].
  rewrite crawl_up_dir_rec_unfold. destruct (cache !! dir); [done|].
  destruct (Py.split dir) as [parent base].
  destruct (String.eqb dir "" || negb (bool_decide (is_Some (get_init_file fs dir)))
            || String.eqb base ""); [done|].
  destruct (Py.isidentifier base) eqn:Hid; simpl.
  - destruct (crawl_up_dir_rec fs fuel cache parent) as [[[??]?]|e'|] eqn:Hrec; simpl; [done| |done].
    intros [= <-]. by eapply IH.
  - intros [= <-]. eauto.
Qed.

(** X5: [crawl_up_dir] always comes to an end, for every state of the cache:
    it returns, or it raises [InvalidSourceList] for a path component that
    is not an identifier. *)
Theorem crawl_up_dir_returns_or_raises (cache : gmap string (string * string))
    (dir : string) :
  (exists r cache', crawl_up_dir fs cache dir = Ok (r, cache')) \/
  (exists base, crawl_up_dir fs cache dir = Raise (InvalidSourceList_not_a_package_name base)
                /\ Py.isidentifier base = false).
Proof.
  pose proof (crawl_up_dir_total fs cache dir) as Htotal.
  destruct (crawl_up_dir fs cache dir) as [[r cache']|e|] eqn:Hrun; [left; eauto| |done].
  right. apply crawl_up_dir_rec_raises in Hrun as (base & -> & Hid). eauto.
Qed.

(** With enough fuel the result does not depend on the fuel. *)
Lemma crawl_up_dir_rec_fuel fuel1 : forall fuel2 cache dir,
  (String.length dir < fuel1)%nat -> (String.length dir < fuel2)%nat ->
  crawl_up_dir_rec fs fuel1 cache dir = crawl_up_dir_rec fs fuel2 cache dir.
Proof.
  induction fuel1 as [|fuel1 IH]; intros [|fuel2] cache dir H1 H2; [lia..|].
  rewrite !crawl_up_dir_rec_unfold. destruct (cache !! dir); [done|].
  destruct (Py.split dir) as [parent base] eqn:Hsplit.
  destruct (String.eqb dir "" || negb (bool_decide (is_Some (get_init_file fs dir)))
            || String.eqb base "") eqn:Hstop; [done|]. destruct (negb (Py.isidentifier base)); [done|].
  apply orb_false_iff in Hstop as [_ Hbase]. apply String.eqb_neq in Hbase.
  pose proof (length_split_head _ _ _ Hsplit Hbase).
  rewrite (IH fuel2) by lia. done.
Qed.

Lemma crawl_up_dir_rec_eq fuel cache dir :
  (String.length dir < fuel)%nat ->
  crawl_up_dir_rec fs fuel cache dir = crawl_up_dir fs cache dir.
Proof. intros H. apply crawl_up_dir_rec_fuel; lia. Qed.

(** One step of [crawl_up_dir], the recursive call being a call of
    [crawl_up_dir]. *)
Lemma crawl_up_dir_unfold cache dir :
  crawl_up_dir fs cache dir =
  match cache !! dir with
  | Some r => Ok (r, cache)
  | None =>
      let '(parent_dir, base) := Py.split dir in
      if String.eqb dir "" || negb (bool_decide (is_Some (get_init_file fs dir)))
         || String.eqb base "" then
        Ok (("", if String.eqb dir "" then "." else dir),
            <[dir := ("", if String.eqb dir "" then "." else dir)]> cache)
      else if negb (Py.isidentifier base) then
        Raise (InvalidSourceList_not_a_package_name base)
      else
        obind (crawl_up_dir fs cache parent_dir)
          (fun '((parent, base_dir), cache') =>
             Ok ((module_join parent base, base_dir),
                 <[dir := (module_join parent base, base_dir)]> cache'))
  end.
Proof.
  unfold crawl_up_dir at 1. rewrite crawl_up_dir_rec_unfold.
  destruct (cache !! dir); [done|].
  destruct (Py.split dir) as [parent base] eqn:Hsplit.
  destruct (String.eqb dir "" || negb (bool_decide (is_Some (get_init_file fs dir)))
            || String.eqb base "") eqn:Hstop; [done|]. destruct (negb (Py.isidentifier base)); [done|].
  apply orb_false_iff in Hstop as [_ Hbase]. apply String.eqb_neq in Hbase.
  pose proof (length_split_head _ _ _ Hsplit Hbase).
  by rewrite crawl_up_dir_rec_eq by lia.
Qed.

(** An induction principle for [crawl_up_dir]: on the length of the path. *)
Lemma crawl_up_dir_ind (P : string -> Prop) :
  (forall dir, (forall parent, (String.length parent < String.length dir)%nat -> P parent) ->
               P dir) ->
  forall dir, P dir.
Proof.
  intros Hstep dir. remember (String.length dir) as n eqn:Hn.
  revert dir Hn. induction (lt_wf n) as [n _ IH]. intros dir ->.
  apply Hstep. intros parent Hlt. by eapply IH.
Qed.

(** *** The package cache *)

Lemma crawl_up_dir_cache : forall dir cache r cache',
  crawl_up_dir fs cache dir = Ok (r, cache') ->
  cache ⊆ cache' /\ cache' !! dir = Some r.
Proof.
  intros dir. induction dir as [dir IH] using crawl_up_dir_ind.
  intros cache r cache'. rewrite crawl_up_dir_unfold.
  destruct (cache !! dir) as [r0|] eqn:Hd; [by intros [= <- <-]|].
  destruct (Py.split dir) as [parent base] eqn:Hsplit.
  destruct (String.eqb dir "" || negb (bool_decide (is_Some (get_init_file fs dir)))
            || String.eqb base "") eqn:Hstop.
  { intros [= <- <-]. split; [by apply insert_subseteq|by rewrite lookup_insert_eq]. }
  destruct (negb (Py.isidentifier base)); [done|].
  apply orb_false_iff in Hstop as [_ Hbase]. apply String.eqb_neq in Hbase.
  pose proof (length_split_head _ _ _ Hsplit Hbase) as Hlt.
  intros Hr. apply obind_Ok in Hr as ([[parent' base_dir] cache1] & Hrec & [= <- <-]).
  apply (IH _ Hlt) in Hrec as [Hsub _].
  split; [|by rewrite lookup_insert_eq].
  by apply insert_subseteq_r.
Qed.

(** X6: [crawl_up_dir] memoises: a call that returns has only added entries to
    the cache, the entry of its directory is its result, and the same call
    again returns the same result and leaves the cache as it is. *)
Theorem crawl_up_dir_memoises (cache cache' : gmap string (string * string))
    (dir : string) (r : string * string) :
  crawl_up_dir fs cache dir = Ok (r, cache') ->
  cache ⊆ cache' /\ cache' !! dir = Some r /\
  crawl_up_dir fs cache' dir = Ok (r, cache').
Proof.
  intros Hrun. apply crawl_up_dir_cache in Hrun as [Hsub Hdir].
  split; [done|]. split; [done|].
  by rewrite crawl_up_dir_unfold, Hdir.
Qed.

(** A cache is exact when each of its entries is what [crawl_up_dir]
    computes for the directory from an empty cache. *)
Definition cache_exact (cache : gmap string (string * string)) : Prop :=
  forall d r, cache !! d = Some r -> exists c, crawl_up_dir fs ∅ d = Ok (r, c).

Lemma cache_exact_empty : cache_exact ∅.
Proof. intros d r Hd. by rewrite lookup_empty in Hd. Qed.

Lemma cache_exact_insert cache d r c :
  cache_exact cache -> crawl_up_dir fs ∅ d = Ok (r, c) -> cache_exact (<[d := r]> cache).
Proof.
  intros Hc Hd d' r'. destruct (decide (d = d')) as [<-|Hne].
  - rewrite lookup_insert_eq. intros [= <-]. eauto.
  - rewrite lookup_insert_ne by done. apply Hc.
Qed.

Lemma crawl_up_dir_exact : forall dir cache,
  cache_exact cache ->
  match crawl_up_dir fs cache dir with
  | Ok (r, cache') => (exists c, crawl_up_dir fs ∅ dir = Ok (r, c)) /\ cache_exact cache'
  | Raise e => crawl_up_dir fs ∅ dir = Raise e
  | OutOfFuel => False
  end.
Proof.
  intros dir. induction dir as [dir IH] using crawl_up_dir_ind.
  intros cache Hc. rewrite (crawl_up_dir_unfold cache).
  destruct (cache !! dir) as [r0|] eqn:Hd; [by split; [apply (Hc _ _ Hd)|]|].
  pose proof (crawl_up_dir_unfold ∅ dir) as Hempty.
  rewrite lookup_empty in Hempty.
  destruct (Py.split dir) as [parent base] eqn:Hsplit.
  destruct (String.eqb dir "" || negb (bool_decide (is_Some (get_init_file fs dir)))
            || String.eqb base "") eqn:Hstop.
  { split; [eauto|]. by eapply cache_exact_insert. }
  destruct (negb (Py.isidentifier base)); [done|].
  apply orb_false_iff in Hstop as [_ Hbase]. apply String.eqb_neq in Hbase.
  pose proof (length_split_head _ _ _ Hsplit Hbase) as Hlt.
  specialize (IH _ Hlt cache Hc).
  destruct (crawl_up_dir fs cache parent) as [[[parent' base_dir] cache1]|e|]; simpl; [| |done].
  - destruct IH as [[c Hparent] Hc1]. rewrite Hparent in Hempty. simpl in Hempty.
    split; [eauto|]. by eapply cache_exact_insert.
  - by rewrite IH in Hempty.
Qed.

(** X7: The cache does not change what [crawl_up_dir] answers: from an exact
    cache it returns what it returns from an empty one, it raises when and
    what it raises from an empty one, and the cache it leaves is exact. *)
Theorem crawl_up_dir_cache_is_transparent (cache : gmap string (string * string))
    (dir : string) :
  cache_exact cache ->
  (forall r cache', crawl_up_dir fs cache dir = Ok (r, cache') ->
     (exists c, crawl_up_dir fs ∅ dir = Ok (r, c)) /\ cache_exact cache') /\
  (forall e, crawl_up_dir fs cache dir = Raise e -> crawl_up_dir fs ∅ dir = Raise e).
Proof.
  intros Hc. pose proof (crawl_up_dir_exact dir cache Hc) as H.
  split.
  - intros r cache' Hrun. by rewrite Hrun in H.
  - intros e Hrun. by rewrite Hrun in H.
Qed.

(** *** What [crawl_up_dir] returns *)

(** The ids of packages: identifiers joined by dots. *)
Inductive package_id : string -> Prop :=
  | package_id_top (base : string) :
      Py.isidentifier base = true -> package_id base
  | package_id_sub (parent base : string) :
      package_id parent -> Py.isidentifier base = true ->
      package_id (parent +:+ "." +:+ base).

(** A module id and base directory as [crawl_up_dir] gives them: the id is
    empty or the id of a package, and the base directory is [.], or has no
    marker file, or has an empty last component. *)
Definition identity_ok (r : string * string) : Prop :=
  (fst r = "" \/ package_id (fst r)) /\
  (snd r = "." \/ get_init_file fs (snd r) = None \/ Py.basename (snd r) = "").

Definition cache_ok (cache : gmap string (string * string)) : Prop :=
  forall d r, cache !! d = Some r -> identity_ok r.

Lemma cache_ok_empty : cache_ok ∅.
Proof. intros d r Hd. by rewrite lookup_empty in Hd. Qed.

Lemma cache_ok_insert cache d r :
  cache_ok cache -> identity_ok r -> cache_ok (<[d := r]> cache).
Proof.
  intros Hc Hr d' r'. destruct (decide (d = d')) as [<-|Hne].
  - rewrite lookup_insert_eq. by intros [= <-].
  - rewrite lookup_insert_ne by done. apply Hc.
Qed.

Lemma module_join_package_id parent base :
  parent = "" \/ package_id parent -> Py.isidentifier base = true ->
  package_id (module_join parent base).
Proof.
  intros [->|Hp] Hb; [by constructor|]. unfold module_join.
  destruct (String.eqb parent "") eqn:He; by constructor.
Qed.

Lemma crawl_up_dir_identity : forall dir cache r cache',
  cache_ok cache ->
  crawl_up_dir fs cache dir = Ok (r, cache') ->
  identity_ok r /\ cache_ok cache'.
Proof.
  intros dir. induction dir as [dir IH] using crawl_up_dir_ind.
  intros cache r cache' Hc. rewrite crawl_up_dir_unfold.
  destruct (cache !! dir) as [r0|] eqn:Hd; [intros [= <- <-]; eauto|].
  destruct (Py.split dir) as [parent base] eqn:Hsplit.
  destruct (String.eqb dir "" || negb (bool_decide (is_Some (get_init_file fs dir)))
            || String.eqb base "") eqn:Hstop.
  { intros [= <- <-].
    assert (identity_ok ("", if String.eqb dir "" then "." else dir)) as Hok.
    { split; [by left|]. simpl.
      destruct (String.eqb dir "") eqn:Hdir; [by left|]. right. simpl in Hstop.
      apply orb_true_iff in Hstop as [Hf|Hb].
      - left. apply negb_true_iff, bool_decide_eq_false in Hf.
        by apply eq_None_not_Some.
      - right. unfold Py.basename. rewrite Hsplit. by apply String.eqb_eq. }
    split; [done|]. by apply cache_ok_insert. }
  destruct (Py.isidentifier base) eqn:Hid; [|done]. simpl.
  apply orb_false_iff in Hstop as [_ Hbase]. apply String.eqb_neq in Hbase.
  pose proof (length_split_head _ _ _ Hsplit Hbase) as Hlt.
  intros Hr. apply obind_Ok in Hr as ([[parent' base_dir] cache1] & Hrec & [= <- <-]).
  apply (IH _ Hlt) in Hrec as [[Hm Hb] Hc1]; [|done].
  assert (identity_ok (module_join parent' base, base_dir)) as Hok.
  { split; [|done]. right. by apply module_join_package_id. }
  split; [done|]. by apply cache_ok_insert.
Qed.

(** X8: The identity [crawl_up_dir] returns: the module id is empty or a
    sequence of identifiers joined by dots, and the base directory is [.],
    or a directory without a marker file, or one whose last component is
    empty; the entries of the cache keep that form. *)
Theorem crawl_up_dir_gives_package_id (cache cache' : gmap string (string * string))
    (dir mod_ base_dir : string) :
  cache_ok cache ->
  crawl_up_dir fs cache dir = Ok ((mod_, base_dir), cache') ->
  (mod_ = "" \/ package_id mod_) /\
  (base_dir = "." \/ get_init_file fs base_dir = None \/ Py.basename base_dir = "") /\
  cache_ok cache'.
Proof.
  intros Hc Hrun. apply crawl_up_dir_identity in Hrun as [[Hm Hb] Hc']; done.
Qed.

(** *** [crawl_up] *)

Lemma rsplit_None_inv (c : ascii) (s : string) : Py.rsplit c s = None -> Py.contains c s = false.
Proof.
  induction s as [|a s IH]; [done|]. simpl.
  destruct (Py.rsplit c s) as [[??]|]; [done|].
  destruct (Ascii.eqb a c); [done|]. intros _. by apply IH.
Qed.

Lemma split_app_tail (p s : string) :
  Py.contains Py.sep s = false ->
  Py.split (p +:+ s) = (fst (Py.split p), snd (Py.split p) +:+ s).
Proof.
  intros Hs. unfold Py.split.
  destruct (Py.rsplit Py.sep p) as [[h t]|] eqn:Hp.
  - apply rsplit_Some in Hp as [-> Ht].
    rewrite sapp_assoc, sapp_cons, rsplit_app; [done|].
    by rewrite contains_app, Ht, Hs.
  - apply rsplit_None_inv in Hp. rewrite rsplit_None; [done|].
    by rewrite contains_app, Hp, Hs.
Qed.

Lemma strip_py_py (s : string) : strip_py (s +:+ ".py") = Some s.
Proof.
  unfold strip_py, PY_EXTENSIONS. cbn [strip_py_from].
  by rewrite endswith_py_pyi, endswith_app, drop_last_app.
Qed.

Lemma strip_py_pyi (s : string) : strip_py (s +:+ ".pyi") = Some s.
Proof.
  unfold strip_py, PY_EXTENSIONS. cbn [strip_py_from].
  by rewrite endswith_app, drop_last_app.
Qed.

(** X9: A source file and its stub have the same identity: for every path [p]
    whose last component is not empty, [crawl_up] gives for [p.py] what it
    gives for [p.pyi], whatever the cache. *)
Theorem crawl_up_same_for_stub_and_source (cache : gmap string (string * string))
    (p : string) :
  Py.basename p <> "" ->
  crawl_up fs cache (p +:+ ".py") = crawl_up fs cache (p +:+ ".pyi").
Proof.
  intros Hp. unfold crawl_up, Py.basename in *.
  rewrite !split_app_tail by done.
  destruct (Py.split p) as [dir mod0]. simpl in *.
  rewrite strip_py_py, strip_py_pyi.
  by apply String.eqb_neq in Hp as ->.
Qed.

Lemma crawl_up_of_last_component (cache : gmap string (string * string))
    (arg dir name : string) :
  Py.split arg = (dir, name) ->
  name = "__init__.py" \/ name = "__init__.pyi" \/ name = "" ->
  crawl_up fs cache arg = crawl_up_dir fs cache dir.
Proof.
  intros Hsplit Hname. unfold crawl_up. rewrite Hsplit.
  assert (forall m, (m = "__init__" \/ m = "") ->
            obind (crawl_up_dir fs cache dir)
              (fun '((base, base_dir), cache') =>
                 Ok ((if String.eqb m "__init__" || String.eqb m ""
                      then base else module_join base m, base_dir), cache'))
            = crawl_up_dir fs cache dir) as Hm.
  { intros m Hm. destruct (crawl_up_dir fs cache dir) as [[[base base_dir] cache']| |];
      [|done..]. simpl. by destruct Hm as [-> | ->]. }
  destruct Hname as [-> | [-> | ->]]; apply Hm; auto.
Qed.

Lemma endswith_sep_cons (a : ascii) (d : string) :
  d <> "" -> Py.endswith (String a d) "/" = Py.endswith d "/".
Proof.
  intros Hd. cbn [Py.endswith].
  assert (String.eqb (String a d) "/" = false) as ->; [|done].
  apply String.eqb_neq. intros [= _ ->]. done.
Qed.

Lemma rstrip_app_sep (dir : string) :
  dir <> "" -> Py.endswith dir "/" = false ->
  Py.rstrip Py.sep (dir +:+ "/") = dir /\ Py.all_char Py.sep (dir +:+ "/") = false.
Proof.
  induction dir as [|a d IH]; [done|]. intros _ Hend. rewrite sapp_cons.
  destruct (decide (d = "")) as [->|Hd].
  - assert (Ascii.eqb a Py.sep = false) as Ha.
    { destruct (Ascii.eqb a Py.sep) eqn:E; [|done]. apply Ascii.eqb_eq in E as ->.
      by vm_compute in Hend. }
    simpl. by rewrite Ha.
  - rewrite endswith_sep_cons in Hend by done. destruct (IH Hd Hend) as [Hr Ha].
    cbn [Py.rstrip Py.all_char]. rewrite Hr, Ha, andb_false_r.
    split; [|done]. by destruct d.
Qed.

(** [os.path.split] undoes [os.path.join], for a directory that is [/] or
    does not end in a separator, and a name without a separator. *)
Lemma split_join (dir n : string) :
  dir = "/" \/ Py.endswith dir "/" = false ->
  Py.contains Py.sep n = false ->
  Py.split (Py.join dir n) = (dir, n).
Proof.
  intros Hdir Hn. unfold Py.join. rewrite (startswith_sep _ Hn).
  destruct Hdir as [->|Hend].
  - simpl. unfold Py.split. change ("/" +:+ n) with ("" +:+ String Py.sep n).
    by rewrite rsplit_app.
  - rewrite Hend, orb_false_r. destruct (String.eqb dir "") eqn:Hd.
    + apply String.eqb_eq in Hd as ->. rewrite sapp_nil_l. unfold Py.split.
      by rewrite (rsplit_None _ _ Hn).
    + apply String.eqb_neq in Hd. unfold Py.split.
      change (dir +:+ "/" +:+ n) with (dir +:+ String Py.sep n).
      rewrite rsplit_app by done.
      destruct (rstrip_app_sep dir Hd Hend) as [-> ->]. done.
Qed.

Lemma get_init_file_cases (dir f : string) :
  get_init_file fs dir = Some f ->
  f = Py.join dir "__init__.pyi" \/ f = Py.join dir "__init__.py".
Proof.
  unfold get_init_file, PY_EXTENSIONS. cbn [get_init_file_from].
  change ("__init__" +:+ ".pyi") with "__init__.pyi".
  change ("__init__" +:+ ".py") with "__init__.py".
  change (String.eqb ".pyi" ".py") with false. change (String.eqb ".py" ".py") with true.
  cbn [andb].
  destruct (isfile fs (Py.join dir "__init__.pyi")); [left; congruence|].
  destruct (isfile fs (Py.join dir "__init__.py")); [right; congruence|].
  destruct (init_under_package_root fs (Py.join dir "__init__.py")); [right; congruence|done].
Qed.

(** X10: The marker file of a package has the identity of the package: for a
    directory that is [/] or does not end in a separator, [crawl_up] of
    what [get_init_file] returns is [crawl_up_dir] of the directory,
    whatever the cache. *)
Theorem crawl_up_of_marker_file_is_the_package (cache : gmap string (string * string))
    (dir f : string) :
  get_init_file fs dir = Some f ->
  dir = "/" \/ Py.endswith dir "/" = false ->
  crawl_up fs cache f = crawl_up_dir fs cache dir.
Proof.
  intros Hf Hdir. apply get_init_file_cases in Hf as [-> | ->].
  - apply (crawl_up_of_last_component cache _ dir "__init__.pyi"); [|auto].
    by apply split_join.
  - apply (crawl_up_of_last_component cache _ dir "__init__.py"); [|auto].
    by apply split_join.
Qed.

End Crawl.

(** *** [expand_dir] *)

Section Expand.
Variable fs : FileSystem.
Variable merge : bool.

(** The loop of [expand_dir] only appends to the build sources it has. *)
Lemma expand_dir_loop_appends fuel :
  forall cache arg mod_prefix base_dir name name_iter seen sources r cache',
    expand_dir_loop fs merge fuel cache arg mod_prefix base_dir name name_iter
      seen sources = Ok (r, cache') ->
    sources `prefix_of` r.
Proof.
  induction fuel as [|fuel IH]; [done|].
  intros cache arg mod_prefix base_dir name name_iter seen sources r cache'.
  destruct name as [name|]; [|by intros [= <- _]].
  rewrite expand_dir_loop_unfold.
  destruct (skipped_name name); [by apply IH|]. cbn zeta.
  destruct (isdir fs (Py.join arg name)).
  - intros Hr. apply obind_Ok in Hr as ([sub cache1] & _ & Hr).
    destruct name_iter as [|name' name_iter].
    + injection Hr as <- _. by apply prefix_app_r.
    + apply IH in Hr. etrans; [|exact Hr]. by apply prefix_app_r.
  - destruct (Py.splitext name) as [base suffix].
    destruct (String.eqb base "__init__"); [by apply IH|].
    destruct (_ && _); [|by apply IH].
    intros Hr. apply IH in Hr. etrans; [|exact Hr]. by apply prefix_app_r.
Qed.

(** X11: The expansion of a package starts with the package itself: when the
    directory has a marker file, the first build source of the result is
    the one of the marker file, with the module id of the package (the
    prefix without its last dot) and its base directory. *)
Theorem expand_dir_of_package_starts_with_marker_file fuel
    (cache cache' : gmap string (string * string)) (arg mod_prefix f : string)
    (r : list BuildSource) :
  get_init_file fs arg = Some f ->
  expand_dir fs merge fuel cache arg mod_prefix = Ok (r, cache') ->
  exists top_mod base_dir cache1 rest,
    crawl_up_dir fs cache arg = Ok ((top_mod, base_dir), cache1) /\
    r = mkBuildSource (Some f)
          (Some (Py.rstrip Py.dot
                   (if String.eqb mod_prefix "" then top_mod +:+ "." else mod_prefix)))
          None (Some base_dir) None :: rest.
Proof.
  intros Hf. destruct fuel as [|fuel]; [done|].
  rewrite expand_dir_unfold. cbn zeta. rewrite Hf.
  rewrite (bool_decide_eq_true_2 (is_Some (Some f))) by eauto.
  rewrite andb_false_r. cbn [andb].
  intros Hr. apply obind_Ok in Hr as ([[top_mod base_dir] cache1] & Hcrawl & Hr).
  exists top_mod, base_dir, cache1.
  assert (negb (String.eqb (if String.eqb mod_prefix "" then top_mod +:+ "." else mod_prefix)
                  "") = true) as Hne.
  { destruct (String.eqb mod_prefix "") eqn:Hmp; [|by rewrite Hmp].
    by rewrite eqb_sapp_nonempty_r. }
  rewrite Hne in Hr. apply expand_dir_loop_appends in Hr as [rest ->].
  by exists rest.
Qed.

(** The build sources that [expand_dir] makes: with a path, a module id
    and a base directory, and no text; paired with another build source
    only when merging is on, the pair being of one module and one base
    directory, and the second of the pair paired with nothing. *)
Definition source_ok (s : BuildSource) : Prop :=
  is_Some (path s) /\ is_Some (module s) /\ text s = None /\ is_Some (base_dir s) /\
  match merge_with s with
  | None => True
  | Some t =>
      merge = true /\ is_Some (path t) /\ module t = module s /\ text t = None /\
      base_dir t = base_dir s /\ merge_with t = None
  end.

Lemma expand_dir_source_ok fuel :
  (forall cache arg mod_prefix r cache',
      expand_dir fs merge fuel cache arg mod_prefix = Ok (r, cache') ->
      Forall source_ok r) /\
  (forall cache arg mod_prefix base_dir name name_iter seen sources r cache',
      Forall source_ok sources ->
      expand_dir_loop fs merge fuel cache arg mod_prefix base_dir name name_iter
        seen sources = Ok (r, cache') ->
      Forall source_ok r).
Proof.
  induction fuel as [|fuel [IHd IHl]]; [done|]. split.
  - intros cache arg mod_prefix r cache'. rewrite expand_dir_unfold. cbn zeta.
    destruct (negb (String.eqb mod_prefix "")
              && negb (bool_decide (is_Some (get_init_file fs arg)))) eqn:Hearly;
      [by intros [= <- _]|].
    intros Hr. apply obind_Ok in Hr as ([[top_mod base_dir] cache1] & Hcrawl & Hr).
    eapply IHl; [|exact Hr].
    set (mp := if bool_decide (is_Some (get_init_file fs arg)) && String.eqb mod_prefix ""
               then top_mod +:+ "." else mod_prefix).
    destruct (negb (String.eqb mp "")) eqn:Hmp; [|constructor].
    repeat constructor; simpl; eauto.
    destruct (get_init_file fs arg) as [f|]; [eauto|]. exfalso. subst mp.
    rewrite bool_decide_eq_false_2 in Hearly, Hmp by (by intros [??]).
    simpl in Hearly, Hmp. rewrite andb_true_r in Hearly. congruence.
  - intros cache arg mod_prefix base_dir name name_iter seen sources r cache' Hs.
    destruct name as [name|]; [|by intros [= <- _]].
    rewrite expand_dir_loop_unfold.
    destruct (skipped_name name); [by apply IHl|]. cbn zeta.
    destruct (isdir fs (Py.join arg name)).
    + intros Hr. apply obind_Ok in Hr as ([sub cache1] & Hsub & Hr).
      apply IHd in Hsub.
      assert (Forall source_ok (sources ++ sub)) by (by apply Forall_app).
      destruct name_iter; [by injection Hr as <- _|]. by eapply IHl.
    + destruct (Py.splitext name) as [base suffix].
      destruct (String.eqb base "__init__"); [by apply IHl|].
      destruct (_ && _); [|by apply IHl].
      apply IHl. apply Forall_app. split; [done|]. constructor; [|constructor].
      destruct (head name_iter) as [n|]; simpl; [|by repeat split; simpl; eauto].
      destruct (merge && String.eqb (Py.splitext n).1 base) eqn:Hm;
        [|by repeat split; simpl; eauto].
      apply andb_true_iff in Hm as [-> ->%String.eqb_eq].
      repeat split; simpl; eauto.
Qed.

(** X12: Every build source of a directory expansion has a path, a module id
    and a base directory and no text; without merging none of them is
    paired with a stub, and with merging a pair is of one module and one
    base directory, and is not nested. *)
Theorem expand_dir_makes_well_formed_sources fuel
    (cache cache' : gmap string (string * string)) (arg mod_prefix : string)
    (r : list BuildSource) :
  expand_dir fs merge fuel cache arg mod_prefix = Ok (r, cache') ->
  Forall source_ok r /\
  (merge = false -> Forall (fun s => merge_with s = None) r).
Proof.
  intros Hr. apply (proj1 (expand_dir_source_ok fuel)) in Hr.
  split; [done|]. intros Hmerge. eapply Forall_impl; [exact Hr|].
  intros s (_ & _ & _ & _ & Hm). destruct (merge_with s); [|done].
  destruct Hm as [Hm _]. congruence.
Qed.

End Expand.

(** *** [create_source_list] *)

Section Arguments.
Variable fs : FileSystem.
Variable options : Options.
Variable fuel : nat.
Variable allow_empty_dir : bool.

Abbreviation step := (create_source_list_step fs (merge_stub_into_src options) options
                    fuel allow_empty_dir).
Abbreviation loop := (create_source_list_loop fs (merge_stub_into_src options) options
                    fuel allow_empty_dir).

Lemma step_found st f st' :
  step st f = Ok st' -> st.1.2 ⊆ st'.1.2 /\ f ∈ st'.1.2.
Proof.
  destruct st as [[targets found] cache]. simpl.
  destruct (bool_decide (f ∈ found)) eqn:Hf.
  { apply bool_decide_eq_true in Hf. by intros [= <-]. }
  destruct (Py.splitext f) as [base ext].
  destruct (in_PY_EXTENSIONS ext).
  - intros Hr. apply obind_Ok in Hr as ([[name base_dir] cache1] & _ & [= <-]). simpl.
    destruct (_ && _); set_solver.
  - destruct (isdir fs f).
    + intros Hr. apply obind_Ok in Hr as ([sub cache1] & _ & Hr).
      destruct (_ && _); [done|]. injection Hr as <-. simpl. set_solver.
    + intros [= <-]. simpl. set_solver.
Qed.

Lemma loop_found l : forall st st',
  loop st l = Ok st' -> st.1.2 ⊆ st'.1.2 /\ forall f, f ∈ l -> f ∈ st'.1.2.
Proof.
  induction l as [|f l IH]; intros st st'; simpl.
  { intros [= <-]. split; [done|]. by intros f ?%elem_of_nil. }
  intros Hr. apply obind_Ok in Hr as (st1 & Hstep & Hr).
  apply step_found in Hstep as [Hsub Hf]. apply IH in Hr as [Hsub' Hl].
  split; [by etrans|]. intros f' [->|Hf']%elem_of_cons; auto.
Qed.

Lemma step_skip st f : f ∈ st.1.2 -> step st f = Ok st.
Proof.
  destruct st as [[targets found] cache]. simpl. intros Hf.
  by rewrite bool_decide_eq_true_2.
Qed.

Lemma loop_app a b st : loop st (a ++ b) = obind (loop st a) (fun st' => loop st' b).
Proof.
  revert st. induction a as [|f a IH]; intros st; simpl; [done|].
  destruct (step st f); simpl; auto.
Qed.

Lemma loop_skip_repeated a f b st : f ∈ a -> loop st (a ++ f :: b) = loop st (a ++ b).
Proof.
  intros Hf. rewrite !loop_app.
  destruct (loop st a) as [st'| |] eqn:Ha; [|done..]. simpl.
  apply loop_found in Ha as [_ Ha]. by rewrite step_skip by auto.
Qed.

(** X13: An argument given twice counts once: leaving out a later occurrence of
    an argument changes nothing of what [create_source_list] does. *)
Theorem create_source_list_ignores_repeated_argument (l1 l2 l3 : list string) (f : string) :
  create_source_list fuel fs (l1 ++ f :: l2 ++ f :: l3) options allow_empty_dir =
  create_source_list fuel fs (l1 ++ f :: l2 ++ l3) options allow_empty_dir.
Proof.
  rewrite !create_source_list_eq. f_equal.
  unfold source_then_stubs, partition. cbn [fst snd].
  rewrite !List.filter_app. cbn [List.filter]. rewrite !List.filter_app. cbn [List.filter].
  destruct (Py.endswith f ".pyi"); cbn [negb].
  - generalize (List.filter (fun v => negb (Py.endswith v ".pyi")) l1
                ++ List.filter (fun v => negb (Py.endswith v ".pyi")) l2
                ++ List.filter (fun v => negb (Py.endswith v ".pyi")) l3).
    generalize (List.filter (fun v => Py.endswith v ".pyi") l1)
               (List.filter (fun v => Py.endswith v ".pyi") l2)
               (List.filter (fun v => Py.endswith v ".pyi") l3).
    intros s1 s2 s3 o.
    transitivity (loop ([], ∅, ∅) ((o ++ s1 ++ f :: s2) ++ f :: s3)).
    { f_equal. by repeat (rewrite <- app_assoc || rewrite <- app_comm_cons). }
    rewrite loop_skip_repeated.
    + f_equal. by repeat (rewrite <- app_assoc || rewrite <- app_comm_cons).
    + rewrite !elem_of_app, elem_of_cons. auto.
  - generalize (List.filter (fun v => Py.endswith v ".pyi") l1
                ++ List.filter (fun v => Py.endswith v ".pyi") l2
                ++ List.filter (fun v => Py.endswith v ".pyi") l3).
    generalize (List.filter (fun v => negb (Py.endswith v ".pyi")) l1)
               (List.filter (fun v => negb (Py.endswith v ".pyi")) l2)
               (List.filter (fun v => negb (Py.endswith v ".pyi")) l3).
    intros o1 o2 o3 s.
    transitivity (loop ([], ∅, ∅) ((o1 ++ f :: o2) ++ f :: (o3 ++ s))).
    { f_equal. by repeat (rewrite <- app_assoc || rewrite <- app_comm_cons). }
    rewrite loop_skip_repeated.
    + f_equal. by repeat (rewrite <- app_assoc || rewrite <- app_comm_cons).
    + rewrite !elem_of_app, elem_of_cons. auto.
Qed.

Lemma source_then_stubs_singleton (f : string) : source_then_stubs [f] = [f].
Proof.
  unfold source_then_stubs, partition. simpl. by destruct (Py.endswith f ".pyi").
Qed.

(** An argument that is neither a Python file nor a directory is passed
    through as a script: one build source with the argument as its path,
    no base directory, and a module id only when scripts count as modules,
    which then is the last component of the path. *)
Lemma create_source_list_passes_script_through (f : string) :
  in_PY_EXTENSIONS (Py.splitext f).2 = false ->
  isdir fs f = false ->
  create_source_list fuel fs [f] options allow_empty_dir =
    Ok [mkBuildSource (Some f)
          (if scripts_are_modules options then Some (Py.basename f) else None)
          None None None].
Proof.
  intros Hext Hdir. rewrite create_source_list_eq, source_then_stubs_singleton.
  cbn [create_source_list_loop]. unfold create_source_list_step.
  rewrite bool_decide_eq_false_2 by apply not_elem_of_empty.
  destruct (Py.splitext f) as [base ext]. simpl in Hext. by rewrite Hext, Hdir.
Qed.

Lemma loop_explicit_files l : forall targets found cache st',
  merge_stub_into_src options = false ->
  NoDup l ->
  (forall f, f ∈ l -> f ∉ found) ->
  (forall f, f ∈ l -> in_PY_EXTENSIONS (Py.splitext f).2 = true \/ isdir fs f = false) ->
  loop (targets, found, cache) l = Ok st' ->
  path <$> st'.1.1 = (path <$> targets) ++ (Some <$> l).
Proof.
  induction l as [|f l IH]; intros targets found cache st' Hmerge Hnd Hnew Hfiles.
  { simpl. intros [= <-]. simpl. by rewrite app_nil_r. }
  apply NoDup_cons in Hnd as [Hf Hnd].
  cbn [create_source_list_loop]. intros Hr.
  apply obind_Ok in Hr as ([[targets1 found1] cache1] & Hstep & Hr).
  assert (path <$> targets1 = (path <$> targets) ++ [Some f] /\ found1 = {[f]} ∪ found)
    as [Ht ->].
  { revert Hstep. unfold create_source_list_step.
    rewrite bool_decide_eq_false_2 by (apply Hnew; by left).
    destruct (Hfiles f) as [Hext|Hdir]; [by left| |].
    - destruct (Py.splitext f) as [base ext]. simpl in Hext. rewrite Hext.
      intros Hc. apply obind_Ok in Hc as ([[name base_dir] cache2] & _ & Hc).
      rewrite Hmerge in Hc. simpl in Hc. injection Hc as <- <- _.
      by rewrite fmap_app.
    - destruct (Py.splitext f) as [base ext].
      destruct (in_PY_EXTENSIONS ext).
      + intros Hc. apply obind_Ok in Hc as ([[name base_dir] cache2] & _ & Hc).
        rewrite Hmerge in Hc. simpl in Hc. injection Hc as <- <- _.
        by rewrite fmap_app.
      + rewrite Hdir. intros [= <- <- _]. by rewrite fmap_app. }
  apply IH in Hr; [|done..| |].
  - simpl in *. rewrite Hr, Ht, <- app_assoc. done.
  - intros f' Hf' [->%elem_of_singleton|Hin]%elem_of_union; [done|].
    apply (Hnew f'); [by right|done].
  - intros f' Hf'. apply Hfiles. by right.
Qed.

(** X14: Without merging, and with no directory among them, arguments that are
    all different come out one for one: the paths of the build sources are
    the arguments, those that are not stubs first, then the stubs, each
    group in the order given. *)
Theorem create_source_list_of_files_is_one_for_one (files : list string)
    (targets : list BuildSource) :
  merge_stub_into_src options = false ->
  NoDup files ->
  (forall f, f ∈ files -> in_PY_EXTENSIONS (Py.splitext f).2 = true \/ isdir fs f = false) ->
  create_source_list fuel fs files options allow_empty_dir = Ok targets ->
  path <$> targets =
    Some <$> (List.filter (fun f => negb (Py.endswith f ".pyi")) files
              ++ List.filter (fun f => Py.endswith f ".pyi") files).
Proof.
  intros Hmerge Hnd Hfiles. rewrite create_source_list_eq.
  intros Hr. apply obind_Ok in Hr as ([[targets1 found1] cache1] & Hloop & [= <-]).
  apply loop_explicit_files in Hloop; [done|done| | |].
  - unfold source_then_stubs, partition. cbn [fst snd].
    by rewrite partition_perm.
  - intros f _. apply not_elem_of_empty.
  - intros f Hf. apply Hfiles. unfold source_then_stubs, partition in Hf. cbn [fst snd] in Hf.
    by rewrite partition_perm in Hf.
Qed.

End Arguments.


(** *** The walk over a listing, with merging *)



Section Pairing.
Variable fs : FileSystem.
Variables arg b mod_prefix base_dir : string.
Hypothesis Hb : plain_name b.
Hypothesis Hinit : b <> "__init__".


(** The build source of the file [n] of base name [base], paired with the
    next entry of the listing when that has the same base name. *)
Definition paired (n base : string) (next : option string) : BuildSource :=
  let src := mkBuildSource (Some (Py.join arg n)) (Some (mod_prefix +:+ base))
               None (Some base_dir) None in
  match next with
  | Some n' =>
      if String.eqb (Py.splitext n').1 base then
        mkBuildSource (Some (Py.join arg n')) (Some (mod_prefix +:+ (Py.splitext n').1))
          None (Some base_dir) (Some src)
      else src
  | None => src
  end.








End Pairing.


(** *** The properties at work *)

(** [foo], [foo.pyi], [foo.py]. *)
Lemma keyfunc_orders_package_stub_source_witness :
  key_lt (keyfunc "foo") (keyfunc "foo.pyi") /\
  key_lt (keyfunc "foo.pyi") (keyfunc "foo.py").
Proof.
  apply (keyfunc_orders_package_stub_source "foo").
  split; [discriminate|]. split; reflexivity.
Defined.

(** [a], [b] and [c] give [a.b.c] either way. *)
Lemma module_join_composes_witness :
  module_join "" "c" = "c" /\
  module_join (module_join "a" "b") "c" = module_join "a" (module_join "b" "c").
Proof. apply (module_join_composes "a" "b" "c"). discriminate. Defined.

(** The sub-package [src/pkg/sub]: its identity is cached, with that of
    [src/pkg] and of [src]. *)
Lemma crawl_up_dir_memoises_witness :
  exists cache',
    crawl_up_dir fs_nested_packages ∅ "src/pkg/sub" = Ok (("pkg.sub", "src"), cache') /\
    ∅ ⊆ cache' /\ cache' !! "src/pkg/sub" = Some ("pkg.sub", "src") /\
    crawl_up_dir fs_nested_packages cache' "src/pkg/sub" = Ok (("pkg.sub", "src"), cache').
Proof.
  eexists.
  assert (crawl_up_dir fs_nested_packages ∅ "src/pkg/sub" = Ok (("pkg.sub", "src"), _)) as H
    by (vm_compute; reflexivity).
  split; [exact H|].
  apply (crawl_up_dir_memoises fs_nested_packages _ _ _ _ H).
Defined.

(** The sub-package [src/pkg/sub], the identity of [src/pkg] being cached. *)
Lemma crawl_up_dir_cache_is_transparent_witness :
  cache_exact fs_nested_packages (<["src/pkg" := ("pkg", "src")]> ∅) /\
  exists cache',
    crawl_up_dir fs_nested_packages (<["src/pkg" := ("pkg", "src")]> ∅) "src/pkg/sub"
      = Ok (("pkg.sub", "src"), cache') /\
    (exists c, crawl_up_dir fs_nested_packages ∅ "src/pkg/sub" = Ok (("pkg.sub", "src"), c)) /\
    cache_exact fs_nested_packages cache'.
Proof.
  assert (cache_exact fs_nested_packages (<["src/pkg" := ("pkg", "src")]> ∅)) as Hc.
  { intros d r [[<- <-]|[_ H]]%lookup_insert_Some.
    - eexists. vm_compute. reflexivity.
    - by rewrite lookup_empty in H. }
  split; [exact Hc|]. eexists.
  assert (crawl_up_dir fs_nested_packages (<["src/pkg" := ("pkg", "src")]> ∅) "src/pkg/sub"
          = Ok (("pkg.sub", "src"), _)) as H by (vm_compute; reflexivity).
  split; [exact H|].
  apply (proj1 (crawl_up_dir_cache_is_transparent fs_nested_packages _ "src/pkg/sub" Hc)
           _ _ H).
Defined.

(** The sub-package [src/pkg/sub] has the id [pkg.sub] and the base
    directory [src]. *)
Lemma crawl_up_dir_gives_package_id_witness :
  exists cache',
    crawl_up_dir fs_nested_packages ∅ "src/pkg/sub" = Ok (("pkg.sub", "src"), cache') /\
    ("pkg.sub" = "" \/ package_id "pkg.sub") /\
    ("src" = "." \/ get_init_file fs_nested_packages "src" = None \/ Py.basename "src" = "") /\
    cache_ok fs_nested_packages cache'.
Proof.
  eexists.
  assert (crawl_up_dir fs_nested_packages ∅ "src/pkg/sub" = Ok (("pkg.sub", "src"), _)) as H
    by (vm_compute; reflexivity).
  split; [exact H|].
  apply (crawl_up_dir_gives_package_id fs_nested_packages ∅ _ "src/pkg/sub" "pkg.sub" "src"
           (cache_ok_empty _) H).
Defined.

(** [src/pkg/sub/m.py] and [src/pkg/sub/m.pyi]. *)
Lemma crawl_up_same_for_stub_and_source_witness :
  crawl_up fs_nested_packages ∅ "src/pkg/sub/m.py" =
  crawl_up fs_nested_packages ∅ "src/pkg/sub/m.pyi".
Proof.
  apply (crawl_up_same_for_stub_and_source fs_nested_packages ∅ "src/pkg/sub/m").
  discriminate.
Defined.

(** [src/pkg/sub/__init__.pyi] is the package [src/pkg/sub]. *)
Lemma crawl_up_of_marker_file_is_the_package_witness :
  get_init_file fs_nested_packages "src/pkg/sub" = Some "src/pkg/sub/__init__.pyi" /\
  crawl_up fs_nested_packages ∅ "src/pkg/sub/__init__.pyi" =
  crawl_up_dir fs_nested_packages ∅ "src/pkg/sub".
Proof.
  split; [reflexivity|].
  apply (crawl_up_of_marker_file_is_the_package fs_nested_packages ∅
           "src/pkg/sub" "src/pkg/sub/__init__.pyi"); [reflexivity|by right].
Defined.

(** The expansion of [src/pkg] starts with [src/pkg/__init__.py]. *)
Lemma expand_dir_of_package_starts_with_marker_file_witness :
  exists r cache',
    expand_dir fs_nested_packages true 10 ∅ "src/pkg" "" = Ok (r, cache') /\
    exists top_mod base_dir cache1 rest,
      crawl_up_dir fs_nested_packages ∅ "src/pkg" = Ok ((top_mod, base_dir), cache1) /\
      r = mkBuildSource (Some "src/pkg/__init__.py")
            (Some (Py.rstrip Py.dot (top_mod +:+ "."))) None (Some base_dir) None :: rest.
Proof.
  eexists _, _.
  assert (expand_dir fs_nested_packages true 10 ∅ "src/pkg" "" = Ok (_, _)) as H
    by (vm_compute; reflexivity).
  split; [exact H|].
  apply (expand_dir_of_package_starts_with_marker_file fs_nested_packages true 10 ∅ _
           "src/pkg" "" "src/pkg/__init__.py" _ eq_refl H).
Defined.

(** The build sources of the expansion of [src/pkg], with merging. *)
Lemma expand_dir_makes_well_formed_sources_witness :
  exists r cache',
    expand_dir fs_nested_packages true 10 ∅ "src/pkg" "" = Ok (r, cache') /\
    Forall (source_ok true) r /\
    (true = false -> Forall (fun s => merge_with s = None) r).
Proof.
  eexists _, _.
  assert (expand_dir fs_nested_packages true 10 ∅ "src/pkg" "" = Ok (_, _)) as H
    by (vm_compute; reflexivity).
  split; [exact H|].
  apply (expand_dir_makes_well_formed_sources fs_nested_packages true 10 ∅ _ "src/pkg" "" _ H).
Defined.

(** A stub, its source and a text file: the source and the text file come
    first, the stub last. *)
Lemma create_source_list_of_files_is_one_for_one_witness :
  exists targets,
    create_source_list 10 fs_cwd_module_and_stub ["a.pyi"; "a.py"; "x.txt"]
      (mkOptions false false) false = Ok targets /\
    path <$> targets = [Some "a.py"; Some "x.txt"; Some "a.pyi"].
Proof.
  eexists.
  assert (create_source_list 10 fs_cwd_module_and_stub ["a.pyi"; "a.py"; "x.txt"]
            (mkOptions false false) false = Ok _) as H by (vm_compute; reflexivity).
  split; [exact H|].
  apply (create_source_list_of_files_is_one_for_one fs_cwd_module_and_stub
           (mkOptions false false) 10 false ["a.pyi"; "a.py"; "x.txt"] _ eq_refl);
    [by_compute| |exact H].
  apply Forall_forall. by_compute.
Defined.



End FindSourcesExtra.

(** * Package directories in the source finder *)

Module FindSourcesPackages.
Import FindSources.
Import PyFacts.
Import FindSourcesProofs.
Import FindSourcesExtra.

(** The build sources of an expansion, without the cache it leaves. *)
Definition sources_of (o : outcome (list BuildSource * gmap string (string * string)))
    : outcome (list BuildSource) :=
  obind o (fun p => Ok p.1).

Section Expansion.
Variable fs : FileSystem.
Variable merge : bool.

Lemma expand_dir_loop_None fuel cache arg mod_prefix base_dir name_iter seen sources :
  expand_dir_loop fs merge (S fuel) cache arg mod_prefix base_dir None name_iter seen sources
    = Ok (sources, cache).
Proof. reflexivity. Qed.

(** *** The cache through an expansion *)

Lemma crawl_up_dir_Ok_exact cache dir r cache' :
  cache_exact fs cache -> crawl_up_dir fs cache dir = Ok (r, cache') ->
  cache_exact fs cache' /\ cache ⊆ cache' /\ cache' !! dir = Some r.
Proof.
  intros Hc Hrun. pose proof (crawl_up_dir_exact fs dir cache Hc) as H.
  rewrite Hrun in H. destruct H as [_ H].
  apply crawl_up_dir_cache in Hrun as [??]. done.
Qed.

(** An expansion that returns has only added entries to the cache, and
    has left it exact. *)
Lemma expand_dir_exact fuel :
  (forall cache arg mod_prefix r cache',
      cache_exact fs cache ->
      expand_dir fs merge fuel cache arg mod_prefix = Ok (r, cache') ->
      cache_exact fs cache' /\ cache ⊆ cache') /\
  (forall cache arg mod_prefix base_dir name name_iter seen sources r cache',
      cache_exact fs cache ->
      expand_dir_loop fs merge fuel cache arg mod_prefix base_dir name name_iter
        seen sources = Ok (r, cache') ->
      cache_exact fs cache' /\ cache ⊆ cache').
Proof.
  induction fuel as [|fuel [IHd IHl]]; [done|]. split.
  - intros cache arg mod_prefix r cache' Hc. rewrite expand_dir_unfold. cbn zeta.
    destruct (_ && _); [by intros [= _ <-]|].
    intros Hr. apply obind_Ok in Hr as ([[top_mod base_dir] cache1] & Hcrawl & Hr).
    apply crawl_up_dir_Ok_exact in Hcrawl as (Hc1 & Hsub & _); [|done].
    apply IHl in Hr as [? ?]; [|done]. split; [done|]. by etrans.
  - intros cache arg mod_prefix base_dir name name_iter seen sources r cache' Hc.
    destruct name as [name|]; [|by intros [= _ <-]].
    rewrite expand_dir_loop_unfold.
    destruct (skipped_name name); [by apply IHl|]. cbn zeta.
    destruct (isdir fs (Py.join arg name)).
    + intros Hr. apply obind_Ok in Hr as ([sub cache1] & Hsub & Hr).
      apply IHd in Hsub as [Hc1 Hsub]; [|done].
      destruct name_iter; [by injection Hr as _ <-|].
      apply IHl in Hr as [? ?]; [|done]. split; [done|]. by etrans.
    + destruct (Py.splitext name) as [base suffix].
      destruct (String.eqb base "__init__"); [by apply IHl|].
      destruct (_ && _); by apply IHl.
Qed.

(** *** The one exception of an expansion *)


(** *** More steps than needed change nothing *)

Lemma expand_dir_fuel fuel :
  (forall fuel' cache arg mod_prefix,
      (fuel <= fuel')%nat ->
      expand_dir fs merge fuel cache arg mod_prefix <> OutOfFuel ->
      expand_dir fs merge fuel' cache arg mod_prefix =
        expand_dir fs merge fuel cache arg mod_prefix) /\
  (forall fuel' cache arg mod_prefix base_dir name name_iter seen sources,
      (fuel <= fuel')%nat ->
      expand_dir_loop fs merge fuel cache arg mod_prefix base_dir name name_iter
        seen sources <> OutOfFuel ->
      expand_dir_loop fs merge fuel' cache arg mod_prefix base_dir name name_iter
        seen sources =
        expand_dir_loop fs merge fuel cache arg mod_prefix base_dir name name_iter
          seen sources).
Proof.
  induction fuel as [|fuel [IHd IHl]]; [done|]. split.
  - intros [|fuel'] cache arg mod_prefix Hle; [lia|].
    rewrite !expand_dir_unfold. cbn zeta.
    destruct (_ && _); [done|].
    destruct (crawl_up_dir fs cache arg) as [[[top_mod base_dir] cache1]|e'|]; simpl;
      [|done..].
    apply IHl. lia.
  - intros [|fuel'] cache arg mod_prefix base_dir name name_iter seen sources Hle; [lia|].
    destruct name as [name|]; [|done].
    rewrite !expand_dir_loop_unfold.
    destruct (skipped_name name); [apply IHl; lia|]. cbn zeta.
    destruct (isdir fs (Py.join arg name)).
    + intros Hrun.
      rewrite (IHd fuel') by (lia || by intros Hsub; rewrite Hsub in Hrun).
      destruct (expand_dir fs merge fuel cache (Py.join arg name) _)
        as [[sub cache1]|e'|]; simpl in *; [|done..].
      destruct name_iter; [done|]. apply IHl; [lia|done].
    + destruct (Py.splitext name) as [base suffix].
      destruct (String.eqb base "__init__"); [apply IHl; lia|].
      destruct (_ && _); apply IHl; lia.
Qed.

Lemma expand_dir_more_fuel fuel fuel' cache arg mod_prefix r :
  expand_dir fs merge fuel cache arg mod_prefix = Ok r -> (fuel <= fuel')%nat ->
  expand_dir fs merge fuel' cache arg mod_prefix = Ok r.
Proof.
  intros Hrun Hle. rewrite <- Hrun. apply (proj1 (expand_dir_fuel fuel)); [done|].
  by rewrite Hrun.
Qed.

(** *** The cache does not change what an expansion finds *)

Lemma crawl_up_dir_transparent c1 c2 dir :
  cache_exact fs c1 -> cache_exact fs c2 ->
  match crawl_up_dir fs c1 dir, crawl_up_dir fs c2 dir with
  | Ok (r1, c1'), Ok (r2, c2') => r1 = r2 /\ cache_exact fs c1' /\ cache_exact fs c2'
  | Raise e1, Raise e2 => e1 = e2
  | _, _ => False
  end.
Proof.
  intros H1 H2.
  pose proof (crawl_up_dir_exact fs dir c1 H1) as E1.
  pose proof (crawl_up_dir_exact fs dir c2 H2) as E2.
  destruct (crawl_up_dir fs c1 dir) as [[r1 c1']|e1|],
           (crawl_up_dir fs c2 dir) as [[r2 c2']|e2|]; try done.
  - destruct E1 as [[c E1] ?], E2 as [[c' E2] ?]. split; [congruence|done].
  - destruct E1 as [[c E1] ?]. congruence.
  - destruct E2 as [[c E2] ?]. congruence.
  - congruence.
Qed.

Lemma expand_dir_transparent fuel :
  (forall c1 c2 arg mod_prefix,
      cache_exact fs c1 -> cache_exact fs c2 ->
      sources_of (expand_dir fs merge fuel c1 arg mod_prefix) =
      sources_of (expand_dir fs merge fuel c2 arg mod_prefix)) /\
  (forall c1 c2 arg mod_prefix base_dir name name_iter seen sources,
      cache_exact fs c1 -> cache_exact fs c2 ->
      sources_of (expand_dir_loop fs merge fuel c1 arg mod_prefix base_dir name name_iter
                    seen sources) =
      sources_of (expand_dir_loop fs merge fuel c2 arg mod_prefix base_dir name name_iter
                    seen sources)).
Proof.
  induction fuel as [|fuel [IHd IHl]]; [done|]. split.
  - intros c1 c2 arg mod_prefix H1 H2. rewrite !expand_dir_unfold. cbn zeta.
    destruct (_ && _); [done|].
    pose proof (crawl_up_dir_transparent c1 c2 arg H1 H2) as Hcrawl.
    destruct (crawl_up_dir fs c1 arg) as [[[top_mod base_dir] c1']|e1|],
             (crawl_up_dir fs c2 arg) as [[[top_mod2 base_dir2] c2']|e2|]; try done.
    + destruct Hcrawl as ([= <- <-] & ? & ?). simpl. by apply IHl.
    + simpl. congruence.
  - intros c1 c2 arg mod_prefix base_dir name name_iter seen sources H1 H2.
    destruct name as [name|]; [|done].
    rewrite !expand_dir_loop_unfold.
    destruct (skipped_name name); [by apply IHl|]. cbn zeta.
    destruct (isdir fs (Py.join arg name)).
    + pose proof (IHd c1 c2 (Py.join arg name) (mod_prefix +:+ name +:+ ".") H1 H2) as Hsub.
      destruct (expand_dir fs merge fuel c1 (Py.join arg name) _)
        as [[sub1 c1']|e1|] eqn:E1,
        (expand_dir fs merge fuel c2 (Py.join arg name) _)
        as [[sub2 c2']|e2|] eqn:E2; try done.
      * injection Hsub as <-.
        apply (proj1 (expand_dir_exact fuel)) in E1 as [? _]; [|done].
        apply (proj1 (expand_dir_exact fuel)) in E2 as [? _]; [|done].
        simpl. destruct name_iter; [done|]. by apply IHl.
    + destruct (Py.splitext name) as [base suffix].
      destruct (String.eqb base "__init__"); [by apply IHl|].
      destruct (_ && _); by apply IHl.
Qed.

(** *** The directories whose identity a run resolves *)








(** *** When the walk gets to a directory *)





Section Listing.
Variables arg mod_prefix base_dir : string.




End Listing.

Lemma entered_no_early_return arg mod_prefix :
  mod_prefix = "" \/ is_Some (get_init_file fs arg) ->
  negb (String.eqb mod_prefix "") && negb (bool_decide (is_Some (get_init_file fs arg)))
    = false.
Proof.
  intros [->|Hf]; [done|]. rewrite (bool_decide_eq_true_2 _ Hf). apply andb_false_r.
Qed.



End Expansion.

(** *** The paths below a directory *)

(** Names as a listing has them: not empty, and without a separator. *)
Definition listed_name (n : string) : Prop := n <> "" /\ Py.contains Py.sep n = false.

Definition listed_names (fs : FileSystem) : Prop :=
  forall dir n, n ∈ listdir fs dir -> listed_name n.

Lemma last_char (n : string) : n <> "" -> exists n' c, n = n' +:+ String c "".
Proof.
  induction n as [|a n IH]; [done|]. intros _. destruct n as [|a' n].
  - by exists "", a.
  - destruct IH as (n' & c & Hn); [done|]. exists (String a n'), c.
    by rewrite sapp_cons, <- Hn.
Qed.

Lemma endswith_listed_name (p n : string) :
  listed_name n -> Py.endswith (p +:+ n) "/" = false.
Proof.
  intros [Hn Hsep]. destruct (Py.endswith (p +:+ n) "/") eqn:Hend; [|done].
  apply endswith_inv in Hend as [s Hs].
  destruct (last_char n Hn) as (n' & c & ->).
  rewrite <- sapp_assoc in Hs. apply sapp_inv_tail_char in Hs as [_ ->].
  rewrite contains_app in Hsep. apply orb_false_iff in Hsep as [_ Hsep]. done.
Qed.

Lemma join_below (p n : string) :
  p <> "" -> Py.endswith p "/" = false -> Py.contains Py.sep n = false ->
  Py.join p n = p +:+ "/" +:+ n.
Proof.
  intros Hp Hend Hn. unfold Py.join. rewrite (startswith_sep _ Hn), Hend.
  by apply String.eqb_neq in Hp as ->.
Qed.

Lemma join_prefix (a n : string) :
  Py.contains Py.sep n = false -> Py.join a n = Py.join a "" +:+ n.
Proof.
  intros Hn. unfold Py.join. rewrite (startswith_sep _ Hn). simpl.
  destruct (_ || _); by rewrite ?sapp_assoc, ?sapp_nil_r, ?sapp_nil_l.
Qed.

Lemma join_listed_name (a n : string) :
  listed_name n -> Py.join a n <> "" /\ Py.endswith (Py.join a n) "/" = false.
Proof.
  intros Hn. pose proof Hn as [Hne Hsep]. rewrite (join_prefix _ _ Hsep). split.
  - intros H. apply (f_equal String.length) in H. rewrite slength_app in H.
    destruct n; [done|]. simpl in H. lia.
  - by apply endswith_listed_name.
Qed.

Lemma head_tail_names (l : list string) :
  from_option (fun name => name :: tail l) [] (head l) = l.
Proof. by destruct l. Qed.

(** The build sources whose path is below the directory [p]. *)
Definition under (p : string) (s : BuildSource) : Prop :=
  exists rest, path s = Some (p +:+ "/" +:+ rest).

Lemma under_join (p n : string) (s : BuildSource) :
  p <> "" -> Py.endswith p "/" = false -> Py.contains Py.sep n = false ->
  under (Py.join p n) s -> under p s.
Proof.
  intros Hp Hend Hn [rest Hs]. exists (n +:+ "/" +:+ rest).
  by rewrite Hs, join_below, !sapp_assoc by done.
Qed.

Section Below.
Variable fs : FileSystem.
Variable merge : bool.
Hypothesis Hnames : listed_names fs.

(** Every build source of an expansion lies below the directory. *)
Lemma expand_dir_under fuel :
  (forall cache p mod_prefix r cache',
      p <> "" -> Py.endswith p "/" = false ->
      expand_dir fs merge fuel cache p mod_prefix = Ok (r, cache') ->
      Forall (under p) r) /\
  (forall cache p mod_prefix base_dir name name_iter seen sources r cache',
      p <> "" -> Py.endswith p "/" = false ->
      Forall listed_name (from_option (fun name => name :: name_iter) [] name) ->
      Forall (under p) sources ->
      expand_dir_loop fs merge fuel cache p mod_prefix base_dir name name_iter
        seen sources = Ok (r, cache') ->
      Forall (under p) r).
Proof.
  induction fuel as [|fuel [IHd IHl]]; [done|]. split.
  - intros cache p mod_prefix r cache' Hp Hend. rewrite expand_dir_unfold. cbn zeta.
    destruct (negb (String.eqb mod_prefix "")
              && negb (bool_decide (is_Some (get_init_file fs p)))) eqn:Hearly;
      [by intros [= <- _]|].
    intros Hr. apply obind_Ok in Hr as ([[top_mod base_dir] cache1] & _ & Hr).
    revert Hr. apply IHl; [exact Hp|exact Hend| |].
    + rewrite head_tail_names. apply Forall_forall. intros n Hn.
      exact (Hnames _ _ (proj1 (elem_of_sort_by_keyfunc _ _) Hn)).
    + destruct (get_init_file fs p) as [f|] eqn:Hf.
      * match goal with |- Forall _ (if ?c then _ else _) => destruct c end;
          [|constructor]. apply Forall_singleton.
        apply get_init_file_cases in Hf as [-> | ->]; eexists; simpl;
          by rewrite join_below.
      * rewrite bool_decide_eq_false_2 in Hearly by (by intros [??]).
        rewrite bool_decide_eq_false_2 by (by intros [??]). simpl in *.
        rewrite andb_true_r in Hearly. rewrite Hearly. constructor.
  - intros cache p mod_prefix base_dir name name_iter seen sources r cache'
      Hp Hend Hlisted Hsources.
    destruct name as [name|]; [|by intros [= <- _]].
    cbn [from_option] in Hlisted. apply Forall_cons in Hlisted as [Hname Hiter].
    rewrite expand_dir_loop_unfold.
    destruct (skipped_name name); [apply IHl; try done; by apply Forall_cons|]. cbn zeta.
    pose proof Hname as [_ Hsep].
    assert (Hrest : forall seen' sources',
              Forall (under p) sources' ->
              expand_dir_loop fs merge fuel cache p mod_prefix base_dir
                (head name_iter) (tail name_iter) seen' sources' = Ok (r, cache') ->
              Forall (under p) r).
    { intros seen' sources' Hs'. apply IHl; [done..| |done].
      by rewrite head_tail_names. }
    destruct (isdir fs (Py.join p name)).
    + intros Hr. apply obind_Ok in Hr as ([sub cache1] & Hsub & Hr).
      destruct (join_listed_name p name Hname) as [Hp' Hend'].
      apply IHd in Hsub; [|done..].
      assert (Hall : Forall (under p) (sources ++ sub)).
      { apply Forall_app. split; [done|].
        eapply Forall_impl; [exact Hsub|]. intros s. by apply under_join. }
      destruct name_iter as [|name' name_iter']; [by injection Hr as <- _|].
      revert Hr. by apply IHl.
    + destruct (Py.splitext name) as [base suffix].
      destruct (String.eqb base "__init__"); [by apply Hrest|].
      destruct (_ && _); [|by apply Hrest].
      apply Hrest. apply Forall_app. split; [done|]. apply Forall_singleton.
      destruct name_iter as [|name' name_iter']; simpl.
      * eexists. simpl. by rewrite join_below.
      * apply Forall_cons in Hiter as [[_ Hsep'] _].
        destruct (merge && _); eexists; simpl; by rewrite join_below.
Qed.

End Below.

(** A path below a sub-directory is not the path of a file of the
    directory. *)
Lemma under_not_unit_of (arg b n : string) (s : BuildSource) :
  plain_name b -> listed_name n -> under (Py.join arg n) s -> is_unit_of arg b s = false.
Proof.
  intros Hb [Hne Hsep] [rest Hs]. apply bool_decide_eq_false_2. rewrite Hs.
  rewrite (join_prefix arg n Hsep),
    (join_prefix arg _ (sep_free_stub b Hb)), (join_prefix arg _ (sep_free_source b Hb)).
  rewrite sapp_assoc.
  assert (Hin : Py.contains Py.sep (n +:+ "/" +:+ rest) = true).
  { rewrite !contains_app. simpl. by rewrite orb_true_r. }
  intros [[= H]|[= H]]; apply (inj (String.app _)) in H; rewrite H in Hin.
  - by rewrite (sep_free_stub b Hb) in Hin.
  - by rewrite (sep_free_source b Hb) in Hin.
Qed.

(** *** A stub and its source beside package sub-directories *)

Section StubOnly.
Variable fs : FileSystem.
Variables arg b mod_prefix base_dir : string.
Variable sub_fuel : nat.
Hypothesis Hb : plain_name b.
Hypothesis Hinit : b <> "__init__".
Hypothesis Hnames : listed_names fs.

(** Entries that the walk without merging gets past, and that leave the
    name [b] free: no name that is skipped, and among the sub-directories
    no package of the name [b] and only packages whose expansion on its own
    returns. *)
Definition entries_leave_free (l : list string) : Prop :=
  forall n, n ∈ l ->
    listed_name n /\ skipped_name n = false /\
    (isdir fs (Py.join arg n) = true -> is_Some (get_init_file fs (Py.join arg n)) ->
     n <> b /\
     exists r c,
       expand_dir fs false sub_fuel ∅ (Py.join arg n) (mod_prefix +:+ n +:+ ".") =
         Ok (r, c)).

Abbreviation walk_off := (walk fs arg mod_prefix base_dir).
Abbreviation units := (List.filter (is_unit_of arg b)).

(** The step of the walk at a sub-directory. *)
Lemma walk_sub_directory fuel cache n l seen sources :
  cache_exact fs cache -> entries_leave_free (n :: l) ->
  isdir fs (Py.join arg n) = true -> (sub_fuel < fuel)%nat ->
  exists r cache' seen',
    cache_exact fs cache' /\ units r = [] /\ (b ∈ seen' <-> b ∈ seen) /\
    walk_off (S fuel) cache (n :: l) seen sources =
      match l with
      | [] => Ok (sources ++ r, cache')
      | _ => walk_off fuel cache' l seen' (sources ++ r)
      end.
Proof.
  intros Hc Hl Hdir Hfuel. destruct (Hl n) as (Hn & Hskip & Hsub); [by left|].
  destruct (get_init_file fs (Py.join arg n)) as [f|] eqn:Hf.
  - destruct Hsub as (Hne & r & c & Hrun); [done..|].
    pose proof (proj1 (expand_dir_transparent fs false sub_fuel) cache ∅ (Py.join arg n)
                  (mod_prefix +:+ n +:+ ".") Hc (cache_exact_empty fs)) as Hsame.
    rewrite Hrun in Hsame.
    destruct (expand_dir fs false sub_fuel cache (Py.join arg n) (mod_prefix +:+ n +:+ "."))
      as [[r' cache']|e|] eqn:Hrun'; try discriminate Hsame.
    injection Hsame as ->.
    pose proof Hrun' as Hc'.
    apply (proj1 (expand_dir_exact fs false sub_fuel)) in Hc' as [Hc' _]; [|done].
    destruct (join_listed_name arg n Hn) as [Hp Hend].
    pose proof (proj1 (expand_dir_under fs false Hnames sub_fuel) _ _ _ _ _ Hp Hend Hrun')
      as Hunder.
    exists r, cache', (if bool_decide (r = []) then seen else {[n]} ∪ seen).
    split; [done|]. split; [|split].
    + clear Hrun Hrun'. induction Hunder as [|s r Hs _ IH]; [done|]. simpl.
      by rewrite (under_not_unit_of arg b n s Hb Hn Hs).
    + destruct (bool_decide (r = [])); [done|]. rewrite elem_of_union, elem_of_singleton.
      split; [by intros [->|?]|by right].
    + unfold walk. change (head (n :: l)) with (Some n). change (tail (n :: l)) with l.
      rewrite expand_dir_loop_unfold, Hskip. cbn zeta. rewrite Hdir.
      rewrite (expand_dir_more_fuel fs false sub_fuel fuel _ _ _ _ Hrun') by lia.
      simpl. by destruct l.
  - exists [], cache, seen. split; [done|]. split; [done|]. split; [done|].
    destruct fuel as [|fuel]; [lia|]. rewrite walk_dir by done.
    rewrite app_nil_r. by destruct l.
Qed.

(** Once the base name is taken, the walk adds no unit of [b]. *)
Lemma walk_off_after l : forall fuel cache seen sources,
  b ∈ seen -> entries_leave_free l -> cache_exact fs cache ->
  (length l + sub_fuel + 1 < fuel)%nat ->
  exists sources' cache',
    walk_off fuel cache l seen sources = Ok (sources', cache') /\
    units sources' = units sources.
Proof.
  induction l as [|n l IH]; intros fuel cache seen sources Hseen Hl Hc Hfuel.
  { destruct fuel as [|fuel]; [simpl in Hfuel; lia|]. rewrite walk_nil. eauto. }
  destruct (Hl n) as ([Hne Hsep] & Hskip & _); [by left|].
  assert (Hl' : entries_leave_free l) by (intros m Hm; apply Hl; by right).
  simpl in Hfuel. destruct fuel as [|fuel]; [lia|].
  destruct (isdir fs (Py.join arg n)) eqn:Hdir.
  - destruct (walk_sub_directory fuel cache n l seen sources)
      as (r & cache' & seen' & Hc' & Hr & Hseen' & ->); [done..|lia|].
    assert (Hunits : units (sources ++ r) = units sources)
      by (by rewrite List.filter_app, Hr, app_nil_r).
    destruct l as [|n' l]; [eauto|].
    destruct (IH fuel cache' seen' (sources ++ r)) as (sources' & cache'' & -> & Hf);
      [by apply Hseen'|done|done|simpl in *; lia|].
    exists sources', cache''. split; [done|]. by rewrite Hf.
  - rewrite walk_file by done. destruct (Py.splitext n) as [base suffix] eqn:Hext.
    destruct (String.eqb base "__init__"); [apply IH; [done..|lia]|].
    destruct (_ && _) eqn:Hcond; [|apply IH; [done..|lia]].
    destruct (IH fuel cache ({[base]} ∪ seen)
                (sources ++ [mkBuildSource (Some (Py.join arg n))
                               (Some (mod_prefix +:+ base)) None (Some base_dir) None]))
      as (sources' & cache' & -> & Hf); [by apply elem_of_union_r|done|done|lia|].
    exists sources', cache'. split; [done|]. rewrite Hf, List.filter_app. simpl.
    rewrite (not_unit_of arg b mod_prefix base_dir Hb n base suffix), app_nil_r; [done..|].
    intros ->. apply andb_true_iff in Hcond as [[Hcond _]%andb_true_iff _].
    by rewrite (bool_decide_eq_true_2 _ Hseen) in Hcond.
Qed.

(** Up to the first [b.pyi] the walk adds no unit of [b]; there it adds
    the stub. *)
Lemma walk_off_before pre : forall post fuel cache seen sources,
  b ∉ seen -> units sources = [] ->
  (b +:+ ".pyi") ∉ pre -> (b +:+ ".py") ∉ pre ->
  entries_leave_free (pre ++ (b +:+ ".pyi") :: post) ->
  isdir fs (Py.join arg (b +:+ ".pyi")) = false ->
  cache_exact fs cache ->
  (length (pre ++ (b +:+ ".pyi") :: post) + sub_fuel + 1 < fuel)%nat ->
  exists sources' cache',
    walk_off fuel cache (pre ++ (b +:+ ".pyi") :: post) seen sources = Ok (sources', cache') /\
    units sources' =
      [mkBuildSource (Some (Py.join arg (b +:+ ".pyi"))) (Some (mod_prefix +:+ b))
         None (Some base_dir) None].
Proof.
  induction pre as [|n pre IH]; intros post fuel cache seen sources Hseen Hnone
    Hpyi Hpy Hl Hfile Hc Hfuel.
  - simpl in *. destruct fuel as [|fuel]; [lia|].
    destruct (Hl (b +:+ ".pyi")) as (_ & Hskip & _); [by left|].
    rewrite walk_file, splitext_pyi by done.
    pose proof Hinit as Hi. apply String.eqb_neq in Hi. rewrite Hi.
    rewrite (bool_decide_eq_false_2 _ Hseen).
    pose proof Hb as (_ & Hd & _). rewrite Hd. simpl.
    destruct (walk_off_after post fuel cache ({[b]} ∪ seen)
                (sources ++ [mkBuildSource (Some (Py.join arg (b +:+ ".pyi")))
                               (Some (mod_prefix +:+ b)) None (Some base_dir) None]))
      as (sources' & cache' & -> & Hf);
      [by apply elem_of_union_l, elem_of_singleton|intros m Hm; apply Hl; by right|done|lia|].
    exists sources', cache'. split; [done|]. rewrite Hf, List.filter_app, Hnone. simpl.
    unfold is_unit_of. simpl. by rewrite bool_decide_eq_true_2 by auto.
  - apply not_elem_of_cons in Hpyi as [Hn1 Hpyi]. apply not_elem_of_cons in Hpy as [Hn2 Hpy].
    destruct (Hl n) as ([Hne Hsep] & Hskip & _); [by left|].
    assert (Hl' : entries_leave_free (pre ++ (b +:+ ".pyi") :: post))
      by (intros m Hm; apply Hl; by right).
    simpl in Hfuel. destruct fuel as [|fuel]; [lia|].
    change ((n :: pre) ++ (b +:+ ".pyi") :: post)
      with (n :: (pre ++ (b +:+ ".pyi") :: post)) in *.
    destruct (isdir fs (Py.join arg n)) eqn:Hdir.
    + destruct (walk_sub_directory fuel cache n (pre ++ (b +:+ ".pyi") :: post) seen sources)
        as (r & cache' & seen' & Hc' & Hr & Hseen' & ->); [done..|lia|].
      destruct (pre ++ (b +:+ ".pyi") :: post) as [|n' l] eqn:E; [by destruct pre|].
      rewrite <- E in *. apply IH; [by rewrite Hseen'| |done..|lia].
      by rewrite List.filter_app, Hr, Hnone.
    + rewrite walk_file by done. destruct (Py.splitext n) as [base suffix] eqn:Hext.
      destruct (String.eqb base "__init__"); [apply IH; [done..|lia]|].
      destruct (_ && _) eqn:Hcond; [|apply IH; [done..|lia]].
      assert (Hbase : base <> b).
      { intros ->. apply andb_true_iff in Hcond as [_ Hsuf].
        apply splitext_app in Hext.
        apply in_PY_EXTENSIONS_inv in Hsuf as [->| ->]; congruence. }
      apply IH; [|  |done..|lia].
      { intros [Hin%elem_of_singleton|Hin]%elem_of_union; [congruence|done]. }
      rewrite List.filter_app, Hnone. simpl.
      by rewrite (not_unit_of arg b mod_prefix base_dir Hb n base suffix).
Qed.

Lemma entries_leave_free_perm (l1 l2 : list string) :
  l1 ≡ₚ l2 -> entries_leave_free l1 -> entries_leave_free l2.
Proof. intros Hp H n Hn. apply H. by rewrite Hp. Qed.

End StubOnly.

(** C7, as amended: in a directory that is walked (it is expanded at the
    top level or it is a package) and whose identity resolves, whose
    listing holds the stub [b.pyi] of a module and its source [b.py], no
    name that the walk skips and no package sub-directory of the name [b],
    and whose package sub-directories have expansions that return, the
    expansion without merging returns, and of the two files it emits the
    stub, once, as a build source of its own; the source file is not
    emitted. Other packages, files and directories may be listed. *)
Theorem no_merge_emits_stub_only fs arg b mod_prefix cache top_mod base_dir cache1
    fuel sub_fuel :
  let module_prefix :=
    if bool_decide (is_Some (get_init_file fs arg)) && String.eqb mod_prefix ""
    then top_mod +:+ "." else mod_prefix in
  plain_name b -> b <> "__init__" ->
  (b +:+ ".pyi") ∈ listdir fs arg ->
  (b +:+ ".py") ∈ listdir fs arg ->
  isdir fs (Py.join arg (b +:+ ".pyi")) = false ->
  listed_names fs ->
  (forall n, n ∈ listdir fs arg -> skipped_name n = false) ->
  (forall n, n ∈ listdir fs arg ->
     isdir fs (Py.join arg n) = true -> is_Some (get_init_file fs (Py.join arg n)) ->
     n <> b /\
     exists r c,
       expand_dir fs false sub_fuel ∅ (Py.join arg n) (module_prefix +:+ n +:+ ".") =
         Ok (r, c)) ->
  mod_prefix = "" \/ is_Some (get_init_file fs arg) ->
  cache_exact fs cache ->
  crawl_up_dir fs cache arg = Ok ((top_mod, base_dir), cache1) ->
  (length (listdir fs arg) + sub_fuel + 2 < fuel)%nat ->
  exists sources cache',
    expand_dir fs false fuel cache arg mod_prefix = Ok (sources, cache') /\
    List.filter (is_unit_of arg b) sources =
      [mkBuildSource (Some (Py.join arg (b +:+ ".pyi"))) (Some (module_prefix +:+ b))
         None (Some base_dir) None].
Proof.
  intros module_prefix Hb Hinit Hpyi _ Hfile Hnames Hskip Hsub Hwalk Hc Hcrawl Hfuel.
  destruct fuel as [|fuel]; [lia|].
  rewrite expand_dir_unfold. cbn zeta.
  rewrite entered_no_early_return by done.
  rewrite Hcrawl. simpl.
  apply crawl_up_dir_Ok_exact in Hcrawl as [Hc1 _]; [|done].
  fold module_prefix. set (mp := module_prefix) in *.
  destruct (stub_sorts_before_source b (listdir fs arg) Hb Hpyi)
    as (pre & post & Hsorted & Hpre1 & Hpre2).
  set (sources0 := if negb (String.eqb mp "") then _ else _).
  assert (Hnone : List.filter (is_unit_of arg b) sources0 = []).
  { subst sources0. destruct (negb (String.eqb mp "")) eqn:Hmp; [|done].
    destruct (get_init_file fs arg) as [f|] eqn:Hf.
    - simpl. by rewrite (init_file_not_unit_of fs arg b base_dir Hb).
    - subst mp module_prefix. destruct Hwalk as [->|[? ?]]; [|done].
      rewrite bool_decide_eq_false_2 in Hmp by (by intros [??]). done. }
  destruct (walk_off_before fs arg b mp base_dir sub_fuel Hb Hinit Hnames pre post fuel
              cache1 ∅ sources0) as (sources & cache' & Hrun & Hunits).
  all: try done.
  - rewrite <- Hsorted.
    eapply entries_leave_free_perm; [symmetry; apply sort_by_keyfunc_perm|].
    intros n Hn. split; [by eapply Hnames|]. split; [by apply Hskip|]. by apply Hsub.
  - rewrite <- Hsorted, sort_by_keyfunc_perm. lia.
  - exists sources, cache'. unfold walk in Hrun. rewrite <- Hsorted in Hrun. done.
Qed.

Lemma listed_names_file_system_of (files dirs : list string)
    (listings : list (string * list string)) :
  Forall (fun e => Forall listed_name e.2) listings ->
  listed_names (file_system_of files dirs listings).
Proof.
  intros H dir n. unfold file_system_of, listdir.
  induction H as [|[d l] listings Hl _ IH]; simpl.
  - intros Hn. by apply elem_of_nil in Hn.
  - destruct (String.eqb d dir); simpl; [|exact IH].
    intros Hn. exact (proj1 (Forall_forall _ _) Hl n Hn).
Qed.

(** [t/a.py] and [t/a.pyi] beside the package [t/pkg], no merging: of the
    two files the stub alone. *)
Lemma no_merge_emits_stub_only_witness :
  exists sources cache',
    expand_dir fs_module_stub_and_package false 12 ∅ "t" "" = Ok (sources, cache') /\
    List.filter (is_unit_of "t" "a") sources =
      [mkBuildSource (Some "t/a.pyi") (Some "a") None (Some "t") None].
Proof.
  apply (no_merge_emits_stub_only fs_module_stub_and_package "t" "a" "" ∅ "" "t"
           (<["t" := ("", "t")]> ∅) 12 5).
  - split; [discriminate|]. split; reflexivity.
  - discriminate.
  - by_compute.
  - by_compute.
  - reflexivity.
  - apply listed_names_file_system_of.
    repeat (apply Forall_cons_2 || apply Forall_nil_2 || (split; [discriminate|reflexivity])).
  - intros n Hn. apply list_elem_of_In in Hn.
    destruct Hn as [<-|[<-|[<-|[]]]]; reflexivity.
  - intros n Hn. apply list_elem_of_In in Hn.
    destruct Hn as [<-|[<-|[<-|[]]]].
    + intros _ _. split; [discriminate|]. eexists _, _. vm_compute. reflexivity.
    + intros Hdir. vm_compute in Hdir. discriminate Hdir.
    + intros Hdir. vm_compute in Hdir. discriminate Hdir.
  - by left.
  - apply cache_exact_empty.
  - vm_compute. reflexivity.
  - vm_compute. lia.
Defined.

(** *** Invalid package directories and [create_source_list] *)

Section Discovery.
Variable fs : FileSystem.
Variable options : Options.
Variable allow_empty_dir : bool.

Abbreviation step fuel := (create_source_list_step fs (merge_stub_into_src options) options
                    fuel allow_empty_dir).
Abbreviation loop fuel := (create_source_list_loop fs (merge_stub_into_src options) options
                    fuel allow_empty_dir).










End Discovery.

(** *** At concrete file systems *)


(** Identifiers are not ASCII only: the package directory [café] has a
    valid name, and the module of [café/a.py] is [café.a]. *)
Lemma package_name_beyond_ascii_is_accepted :
  Py.isidentifier "café" = true /\
  create_source_list 10
    (file_system_of ["café/__init__.py"; "café/a.py"] ["café"]
       [("café", ["a.py"; "__init__.py"])])
    ["café/a.py"] (mkOptions false false) false =
    Ok [mkBuildSource (Some "café/a.py") (Some "café.a") None (Some ".") None].
Proof. split; vm_compute; reflexivity. Qed.

End FindSourcesPackages.

(** * Properties of the merge engine *)

Module StubSrcMergeProofs.
Import StubSrcMerge.

(** *** Running the monad *)

Lemma run_bind {A B} (m : M A) (k : A -> M B) (self : MergeFiles) :
  (m ≫= k) self =
  match m self with
  | Returns a self' => k a self'
  | Raises e self' => Raises e self'
  | Diverges => Diverges
  end.
Proof. reflexivity. Qed.

Lemma run_ret {A} (a : A) (self : MergeFiles) : (mret a : M A) self = Returns a self.
Proof. reflexivity. Qed.

Lemma run_read l o self : heap self !! l = Some o -> read l self = Returns o self.
Proof. unfold read. by intros ->. Qed.

Lemma run_read_FuncDef l f self :
  heap self !! l = Some (OFuncDef f) -> read_FuncDef l self = Returns f self.
Proof. intros H. unfold read_FuncDef. by rewrite run_bind, (run_read _ _ _ H). Qed.

Lemma run_read_AssignmentStmt l a self :
  heap self !! l = Some (OAssignmentStmt a) -> read_AssignmentStmt l self = Returns a self.
Proof. intros H. unfold read_AssignmentStmt. by rewrite run_bind, (run_read _ _ _ H). Qed.

Lemma run_read_Decorator l d self :
  heap self !! l = Some (ODecorator d) -> read_Decorator l self = Returns d self.
Proof. intros H. unfold read_Decorator. by rewrite run_bind, (run_read _ _ _ H). Qed.

Lemma run_read_SymbolTable l items self :
  heap self !! l = Some (OSymbolTable items) -> read_SymbolTable l self = Returns items self.
Proof. intros H. unfold read_SymbolTable. by rewrite run_bind, (run_read _ _ _ H). Qed.

(** The state with more diagnostics. *)
Definition with_errors (self : MergeFiles) (ds : list Diagnostic) : MergeFiles :=
  mkMergeFiles (heap self) (errors self ++ ds) (_line self) (_column self).

(** The state with an object written. *)
Definition with_object (self : MergeFiles) (l : loc) (o : object) : MergeFiles :=
  mkMergeFiles (<[l := o]> (heap self)) (errors self) (_line self) (_column self).

Lemma run_report m self :
  report m None None self =
  Returns tt (with_errors self [mkDiagnostic (_line self) (_column self) m]).
Proof. reflexivity. Qed.

Lemma run_write l o self : write l o self = Returns tt (with_object self l o).
Proof. reflexivity. Qed.

Lemma self_eta self : mkMergeFiles (heap self) (errors self) (_line self) (_column self) = self.
Proof. by destruct self. Qed.

(** *** [merge_nodes] on two function definitions *)

Definition FuncDef_merged (f g : FuncDef) : FuncDef :=
  mkFuncDef (FuncDef_name f) (arg_names f) (arg_kinds g) (FuncDef_type g)
    (FuncDef_unanalyzed_type g) (FuncDef_body f) (FuncDef_line f) (FuncDef_column f).

Lemma merge_nodes_FuncDef fuel src stub f g self :
  heap self !! src = Some (OFuncDef f) ->
  heap self !! stub = Some (OFuncDef g) ->
  merge_nodes (S fuel) src stub self =
    if bool_decide (arg_names f = arg_names g) then
      Returns tt (with_object self src (OFuncDef (FuncDef_merged f g)))
    else
      Returns tt (with_errors self
        [mkDiagnostic (FuncDef_line f) (FuncDef_line f)
           (arg_conflict (arg_names f) (FuncDef_line g) (arg_names g))]).
Proof.
  intros Hsrc Hstub. simpl. unfold merge_nodes_body, report_from_element.
  rewrite Hsrc. simpl.
  set (self1 := mkMergeFiles _ _ _ _).
  assert (Hsrc1 : heap self1 !! src = Some (OFuncDef f)) by done.
  assert (Hstub1 : heap self1 !! stub = Some (OFuncDef g)) by done.
  rewrite run_bind, (run_read _ _ _ Hsrc1), run_bind, (run_read _ _ _ Hstub1). simpl.
  unfold merge_func_definition.
  rewrite run_bind, (run_read_FuncDef _ _ _ Hsrc1), run_bind, (run_read_FuncDef _ _ _ Hstub1).
  destruct (bool_decide (arg_names f = arg_names g)); reflexivity.
Qed.

(** C6: merging two function definitions. With equal argument names the
    type, the argument kinds and the unanalyzed type of the stub are copied
    onto the source function, and nothing is reported; otherwise one
    argument conflict is reported and the heap, so the source function, is
    left as it was. *)
Theorem merge_func_definition_copies_or_reports fuel src stub f g self :
  heap self !! src = Some (OFuncDef f) ->
  heap self !! stub = Some (OFuncDef g) ->
  (arg_names f = arg_names g ->
   exists self',
     merge_nodes (S fuel) src stub self = Returns tt self' /\
     heap self' = <[src := OFuncDef (mkFuncDef (FuncDef_name f) (arg_names f) (arg_kinds g)
                                     (FuncDef_type g) (FuncDef_unanalyzed_type g)
                                     (FuncDef_body f) (FuncDef_line f) (FuncDef_column f))]>
                    (heap self) /\
     errors self' = errors self) /\
  (arg_names f <> arg_names g ->
   exists self' d,
     merge_nodes (S fuel) src stub self = Returns tt self' /\
     heap self' = heap self /\
     errors self' = errors self ++ [d] /\
     msg d = arg_conflict (arg_names f) (FuncDef_line g) (arg_names g)).
Proof.
  intros Hsrc Hstub. rewrite (merge_nodes_FuncDef fuel src stub f g self Hsrc Hstub).
  split; intros Hnames.
  - rewrite bool_decide_eq_true_2 by done. eexists. split; [reflexivity|]. done.
  - rewrite bool_decide_eq_false_2 by done. eexists _, _. split; [reflexivity|]. done.
Qed.

(** C4, on the code as it is: the diagnostic of an argument conflict is
    reported at the line of the source node, and at a column that is the
    line of the source node again, whatever its column is. *)
Theorem report_column_is_the_line_of_the_node fuel src stub f g self :
  heap self !! src = Some (OFuncDef f) ->
  heap self !! stub = Some (OFuncDef g) ->
  arg_names f <> arg_names g ->
  exists self' d,
    merge_nodes (S fuel) src stub self = Returns tt self' /\
    errors self' = errors self ++ [d] /\
    line d = FuncDef_line f /\ column d = FuncDef_line f /\
    _line self' = _line self /\ _column self' = _column self.
Proof.
  intros Hsrc Hstub Hnames.
  rewrite (merge_nodes_FuncDef fuel src stub f g self Hsrc Hstub).
  rewrite bool_decide_eq_false_2 by done. eexists _, _. split; [reflexivity|]. done.
Qed.

(** *** [merge_nodes] on two nodes of different classes *)

Lemma merge_nodes_class_mismatch fuel src stub s t stub_line self :
  heap self !! src = Some s ->
  heap self !! stub = Some t ->
  class_of s <> class_of t ->
  line_of t = Some stub_line ->
  merge_nodes (S fuel) src stub self =
    Returns tt (with_errors self
      [mkDiagnostic (default (_line self) (line_of s)) (default (_column self) (line_of s))
         (conflict_of_definition (class_of s) stub_line (class_of t))]).
Proof.
  intros Hsrc Hstub Hclass Hline. simpl. unfold merge_nodes_body, report_from_element.
  rewrite Hsrc. simpl.
  set (self1 := mkMergeFiles _ _ _ _).
  assert (Hsrc1 : heap self1 !! src = Some s) by done.
  assert (Hstub1 : heap self1 !! stub = Some t) by done.
  rewrite run_bind, (run_read _ _ _ Hsrc1), run_bind, (run_read _ _ _ Hstub1).
  rewrite bool_decide_eq_false_2 by done. simpl.
  unfold read_line. rewrite !run_bind, (run_read _ _ _ Hstub1), Hline. reflexivity.
Qed.

(** *** [merge_nodes] on two assignments *)

Definition AssignmentStmt_merged (a b : AssignmentStmt) : AssignmentStmt :=
  mkAssignmentStmt (lvalues a) (rvalue a)
    (AssignmentStmt_type b) (AssignmentStmt_unanalyzed_type b)
    (AssignmentStmt_line a) (AssignmentStmt_column a).

(** What [simple_assignment_name], reporting, says of the targets and
    returns. *)
Definition simple_name_result (lv : list Expression) : list message * option string :=
  match lv with
  | [e] =>
      match e with
      | NameExpr n => ([], Some n)
      | _ => ([lvalues_must_be_simple (class_of_expr e)], None)
      end
  | _ => ([more_than_one_lvalue], None)
  end.

Definition default_result (name : option string) (default_node : Expression) : list message :=
  if isinstance_EllipsisExpr default_node then []
  else [stub_should_not_contain_default name (class_of_expr default_node)].

Lemma with_errors_nil self : with_errors self [] = self.
Proof. unfold with_errors. rewrite app_nil_r. apply self_eta. Qed.

Lemma with_errors_app self ds1 ds2 :
  with_errors (with_errors self ds1) ds2 = with_errors self (ds1 ++ ds2).
Proof. unfold with_errors. simpl. by rewrite app_assoc. Qed.

Lemma run_simple_assignment_name node a self :
  heap self !! node = Some (OAssignmentStmt a) ->
  simple_assignment_name node is_NameExpr true self =
    Returns (simple_name_result (lvalues a)).2
      (with_errors self
         (mkDiagnostic (_line self) (_column self) <$> (simple_name_result (lvalues a)).1)).
Proof.
  intros H. unfold simple_assignment_name.
  rewrite run_bind, (run_read_AssignmentStmt _ _ _ H).
  destruct (lvalues a) as [|e [|e' lv]]; simpl; [reflexivity| |reflexivity].
  destruct e; simpl; try reflexivity. by rewrite with_errors_nil.
Qed.

Lemma run_check_no_explicit_default default_node stub name self :
  check_no_explicit_default default_node (heap_node stub) name self =
    Returns tt (with_errors self
      (mkDiagnostic (_line self) (_column self) <$> default_result name default_node)).
Proof.
  unfold check_no_explicit_default, default_result. simpl.
  destruct (isinstance_EllipsisExpr default_node); simpl; [|reflexivity].
  by rewrite with_errors_nil.
Qed.

(** The diagnostics of one merge of assignments, at the position [pos]. *)
Definition assignment_diagnostics (pos : Z) (b : AssignmentStmt) : list Diagnostic :=
  mkDiagnostic pos pos <$>
    ((simple_name_result (lvalues b)).1 ++
     default_result (simple_name_result (lvalues b)).2 (rvalue b)).

Lemma merge_nodes_AssignmentStmt fuel src stub a b self :
  heap self !! src = Some (OAssignmentStmt a) ->
  heap self !! stub = Some (OAssignmentStmt b) ->
  merge_nodes (S fuel) src stub self =
    Returns tt
      (mkMergeFiles (<[src := OAssignmentStmt (AssignmentStmt_merged a b)]> (heap self))
         (errors self ++ assignment_diagnostics (AssignmentStmt_line a) b)
         (_line self) (_column self)).
Proof.
  intros Hsrc Hstub. simpl. unfold merge_nodes_body, report_from_element.
  rewrite Hsrc. simpl.
  set (self1 := mkMergeFiles _ _ _ _).
  assert (Hsrc1 : heap self1 !! src = Some (OAssignmentStmt a)) by done.
  assert (Hstub1 : heap self1 !! stub = Some (OAssignmentStmt b)) by done.
  rewrite run_bind, (run_read _ _ _ Hsrc1), run_bind, (run_read _ _ _ Hstub1). simpl.
  unfold merge_assignment.
  rewrite run_bind, (run_read_AssignmentStmt _ _ _ Hsrc1).
  rewrite run_bind, (run_read_AssignmentStmt _ _ _ Hstub1).
  rewrite run_bind, run_write. fold (AssignmentStmt_merged a b).
  set (self2 := with_object self1 src _).
  assert (Hstub2 : exists b', heap self2 !! stub = Some (OAssignmentStmt b') /\
                              lvalues b' = lvalues b /\ rvalue b' = rvalue b).
  { destruct (decide (src = stub)) as [->|Hne].
    - exists (AssignmentStmt_merged a b). split; [apply lookup_insert_eq|].
      rewrite Hsrc in Hstub. by injection Hstub as ->.
    - exists b. split; [|done]. subst self2. simpl. by rewrite lookup_insert_ne. }
  destruct Hstub2 as (b' & Hstub2 & Hlv & Hrv).
  rewrite run_bind, (run_simple_assignment_name _ _ _ Hstub2), Hlv.
  rewrite run_bind.
  rewrite (run_read_AssignmentStmt stub b') by done.
  rewrite run_check_no_explicit_default, with_errors_app, Hrv.
  unfold assignment_diagnostics. rewrite fmap_app. reflexivity.
Qed.

(** C1, as amended: a conflict reported for two nodes of different classes
    leaves the heap, so the source node, as it was; and merging a source
    assignment with a stub assignment whose value is not an [EllipsisExpr]
    reports that the stub should not contain a default value, last of the
    diagnostics of the pair, after the type and the unanalyzed type of the
    stub assignment have been copied onto the source assignment. *)
Theorem assignment_is_overwritten_then_checked fuel src stub s t self :
  heap self !! src = Some s ->
  heap self !! stub = Some t ->
  (class_of s <> class_of t ->
   forall stub_line, line_of t = Some stub_line ->
   exists self' d,
     merge_nodes (S fuel) src stub self = Returns tt self' /\
     heap self' = heap self /\ errors self' = errors self ++ [d]) /\
  (forall a b,
     s = OAssignmentStmt a -> t = OAssignmentStmt b ->
     isinstance_EllipsisExpr (rvalue b) = false ->
     exists self' ds d name,
       merge_nodes (S fuel) src stub self = Returns tt self' /\
       heap self' =
         <[src := OAssignmentStmt
                    (mkAssignmentStmt (lvalues a) (rvalue a)
                       (AssignmentStmt_type b) (AssignmentStmt_unanalyzed_type b)
                       (AssignmentStmt_line a) (AssignmentStmt_column a))]> (heap self) /\
       errors self' = errors self ++ ds ++ [d] /\
       msg d = stub_should_not_contain_default name (class_of_expr (rvalue b))).
Proof.
  intros Hsrc Hstub. split.
  - intros Hclass stub_line Hline.
    rewrite (merge_nodes_class_mismatch fuel src stub s t stub_line self) by done.
    eexists _, _. split; [reflexivity|]. done.
  - intros a b -> -> Hdefault.
    rewrite (merge_nodes_AssignmentStmt fuel src stub a b self) by done.
    unfold assignment_diagnostics, default_result. rewrite Hdefault, fmap_app. simpl.
    eexists _, _, _, _. split; [reflexivity|]. done.
Qed.

(** *** The decorators *)

(** The message of the first loop of [decorator_argument_checks]. *)
Fixpoint first_argument_name_conflict
    (pairs : list (option (option string) * option (option string))) : list message :=
  match pairs with
  | [] => []
  | (l_arg, r_arg) :: pairs' =>
      if bool_decide (mjoin l_arg = mjoin r_arg) then first_argument_name_conflict pairs'
      else [conflict_of_decorator_argument_name (mjoin l_arg) (mjoin r_arg)]
  end.

(** The messages of its second loop. *)
Definition argument_default_results (l : list (option string * Expression)) : list message :=
  l ≫= (fun '(name, default_node) => default_result name default_node).

Lemma run_decorator_argument_names_loop pairs src_line self :
  decorator_argument_names_loop pairs src_line self =
    Returns tt (with_errors self
      (mkDiagnostic src_line (_column self) <$> first_argument_name_conflict pairs)).
Proof.
  induction pairs as [|[l_arg r_arg] pairs IH]; simpl.
  - by rewrite with_errors_nil.
  - destruct (bool_decide (mjoin l_arg = mjoin r_arg)); simpl; [apply IH|reflexivity].
Qed.

Lemma run_check_no_explicit_default_expr default_node src name self :
  src <> TempNode ->
  check_no_explicit_default default_node (expr_node src) name self =
    Returns tt (with_errors self
      (mkDiagnostic (_line self) (_column self) <$> default_result name default_node)).
Proof.
  intros Hsrc. unfold check_no_explicit_default, default_result.
  assert (isinstance_TempNode (expr_node src) = false) as -> by by destruct src.
  destruct (isinstance_EllipsisExpr default_node); simpl; [|reflexivity].
  by rewrite with_errors_nil.
Qed.

Lemma run_argument_defaults src l : forall self,
  src <> TempNode ->
  for_each l (fun '(name, default_node) =>
                check_no_explicit_default default_node (expr_node src) name) self =
    Returns tt (with_errors self
      (mkDiagnostic (_line self) (_column self) <$> argument_default_results l)).
Proof.
  intros self Hsrc. revert self.
  induction l as [|[name default_node] l IH]; intros self.
  - simpl. by rewrite with_errors_nil.
  - cbn [for_each]. rewrite run_bind, run_check_no_explicit_default_expr by done.
    rewrite IH, with_errors_app. unfold argument_default_results. simpl.
    by rewrite fmap_app.
Qed.

(** The diagnostics of [decorator_argument_checks] on two calls, reported
    with the position [(pos_line, pos_column)] current. *)
Definition decorator_argument_diagnostics (pos_line pos_column : Z)
    (src_arg_names : list (option string)) (src_line : Z)
    (stub_args : list Expression) (stub_arg_names : list (option string))
    : list Diagnostic :=
  (mkDiagnostic src_line pos_column <$>
     first_argument_name_conflict (zip_longest src_arg_names stub_arg_names)) ++
  (mkDiagnostic pos_line pos_column <$>
     argument_default_results (zip stub_arg_names stub_args)).

Lemma run_decorator_argument_checks lc la ln ll rc ra rn rl self :
  decorator_argument_checks (CallExpr lc la ln ll) (CallExpr rc ra rn rl) self =
    Returns tt (with_errors self
      (decorator_argument_diagnostics (_line self) (_column self) ln ll ra rn)).
Proof.
  unfold decorator_argument_checks.
  rewrite run_bind, run_decorator_argument_names_loop.
  rewrite run_argument_defaults by done.
  by rewrite with_errors_app.
Qed.

(** A pair of decorators that does not end the loop of [merge_decorators]:
    the two are of one class, and of one name where both are names or are
    calls of names. *)
Definition decorator_pair_reconciled (p : option Expression * option Expression) : bool :=
  bool_decide (class_of_opt_expr p.1 = class_of_opt_expr p.2) &&
  match p with
  | (Some (NameExpr ln), Some (NameExpr rn)) => String.eqb ln rn
  | (Some (CallExpr (NameExpr ln) _ _ _), Some (CallExpr (NameExpr rn) _ _ _)) =>
      String.eqb ln rn
  | _ => true
  end.

Definition decorators_reconciled (pairs : list (option Expression * option Expression))
    : bool :=
  forallb decorator_pair_reconciled pairs.

Lemma run_decorator_name_check ln rn self :
  decorator_name_check (NameExpr ln) (NameExpr rn) self =
    Returns (String.eqb ln rn)
      (with_errors self
         (if String.eqb ln rn then []
          else [mkDiagnostic (_line self) (_column self) (conflict_of_decorator_name ln rn)])).
Proof.
  unfold decorator_name_check, expr_name, mbind, M_bind, mret, M_ret.
  destruct (String.eqb ln rn); simpl; [|reflexivity]. by rewrite with_errors_nil.
Qed.

(** The loop only reports, and tells whether all pairs are reconciled. *)
Lemma run_merge_decorators_loop pairs : forall self,
  exists ds,
    merge_decorators_loop pairs self =
      Returns (decorators_reconciled pairs) (with_errors self ds).
Proof.
  induction pairs as [|[l r] pairs IH]; intros self.
  { exists []. simpl. by rewrite with_errors_nil. }
  cbn [merge_decorators_loop decorators_reconciled forallb].
  unfold decorator_pair_reconciled at 1. cbn [fst snd].
  destruct (bool_decide (class_of_opt_expr l = class_of_opt_expr r)) eqn:Hclass;
    cbn [negb andb].
  2:{ eexists. reflexivity. }
  apply bool_decide_eq_true in Hclass.
  assert (Hskip : forall self0, exists ds,
            merge_decorators_loop pairs self0 =
              Returns (true && decorators_reconciled pairs) (with_errors self0 ds))
    by (intros self0; apply IH).
  destruct l as [[ln|le ln|lc la ln ll| | |lcls]|], r as [[rn|re rn|rc ra rn rl| | |rcls]|];
    try discriminate Hclass; try apply Hskip.
  - rewrite run_bind, run_decorator_name_check.
    destruct (String.eqb ln rn); simpl.
    + destruct (IH (with_errors self [])) as [ds Hds]. rewrite Hds, with_errors_app. eauto.
    + eauto.
  - destruct lc as [lcn| | | | |], rc as [rcn| | | | |]; try apply Hskip.
    rewrite run_bind, run_decorator_name_check.
    destruct (String.eqb lcn rcn); cbv beta iota; [|eexists; reflexivity].
    rewrite run_bind, run_decorator_argument_checks.
    match goal with
    | |- context [merge_decorators_loop pairs ?s] => destruct (IH s) as [ds Hds]; rewrite Hds
    end.
    rewrite !with_errors_app. eauto.
Qed.

Lemma first_argument_name_conflict_Exists pairs :
  Exists (fun p => mjoin p.1 <> mjoin p.2) pairs ->
  exists l_arg r_arg,
    first_argument_name_conflict pairs = [conflict_of_decorator_argument_name l_arg r_arg].
Proof.
  induction pairs as [|[l r] pairs IH]; intros H; [by apply Exists_nil in H|]. simpl.
  destruct (bool_decide (mjoin l = mjoin r)) eqn:E; [|eauto].
  apply bool_decide_eq_true in E. apply Exists_cons in H as [H|H]; [done|]. by apply IH.
Qed.

Lemma zip_longest_app {A B} (l1 l2 : list A) (r1 r2 : list B) :
  length l1 = length r1 ->
  zip_longest (l1 ++ l2) (r1 ++ r2) = zip_longest l1 r1 ++ zip_longest l2 r2.
Proof.
  revert r1. induction l1 as [|a l1 IH]; intros [|b r1] Hlen; try discriminate Hlen.
  - reflexivity.
  - simpl. f_equal. apply IH. by injection Hlen.
Qed.

(** Over pairs that are reconciled the loop only reports and goes on. *)
Lemma run_merge_decorators_loop_app pre : forall self,
  decorators_reconciled pre = true ->
  exists ds, forall post,
    merge_decorators_loop (pre ++ post) self =
      merge_decorators_loop post (with_errors self ds).
Proof.
  induction pre as [|[l r] pre IH]; intros self Hpre.
  { exists []. intros post. by rewrite with_errors_nil. }
  cbn [decorators_reconciled forallb] in Hpre.
  apply andb_true_iff in Hpre as [Hpair Hpre].
  unfold decorator_pair_reconciled in Hpair. cbn [fst snd] in Hpair.
  apply andb_true_iff in Hpair as [Hclass Hname].
  assert (Hskip : forall self0, exists ds, forall post,
            merge_decorators_loop (pre ++ post) self0 =
              merge_decorators_loop post (with_errors self0 ds))
    by (intros self0; by apply IH).
  assert (Hgo : forall (m : list (option Expression * option Expression) -> M bool),
            (forall post, m post = merge_decorators_loop (pre ++ post)) ->
            exists ds, forall post, m post self =
              merge_decorators_loop post (with_errors self ds)).
  { intros m Hm. destruct (Hskip self) as [ds Hds]. exists ds. intros post.
    by rewrite Hm, Hds. }
  cbn [app merge_decorators_loop]. rewrite Hclass. cbn [negb].
  apply bool_decide_eq_true in Hclass.
  destruct l as [[ln|le ln|lc la ln ll| | |lcls]|], r as [[rn|re rn|rc ra rn rl| | |rcls]|];
    try discriminate Hclass;
    try (apply (Hgo (fun post => merge_decorators_loop (pre ++ post))); reflexivity).
  - destruct (Hskip (with_errors self [])) as [ds Hds]. exists ds. intros post.
    rewrite run_bind, run_decorator_name_check, Hname. cbv beta iota.
    by rewrite Hds, with_errors_app.
  - destruct lc as [lcn| | | | |], rc as [rcn| | | | |];
      try (apply (Hgo (fun post => merge_decorators_loop (pre ++ post))); reflexivity).
    destruct (Hskip (with_errors (with_errors self [])
                       (decorator_argument_diagnostics (_line self) (_column self)
                          ln ll ra rn))) as [ds Hds].
    eexists. intros post.
    rewrite run_bind, run_decorator_name_check, Hname. cbv beta iota.
    rewrite run_bind, run_decorator_argument_checks. cbn [_line _column with_errors].
    rewrite Hds, !with_errors_app. reflexivity.
Qed.

(** At a pair that is not reconciled the loop ends: the pairs after it are
    not looked at. *)
Lemma run_merge_decorators_loop_ends pre : forall self post,
  decorators_reconciled pre = false ->
  merge_decorators_loop (pre ++ post) self = merge_decorators_loop pre self.
Proof.
  induction pre as [|[l r] pre IH]; intros self post Hpre; [done|].
  cbn [decorators_reconciled forallb] in Hpre.
  unfold decorator_pair_reconciled in Hpre. cbn [fst snd] in Hpre.
  cbn [app merge_decorators_loop].
  destruct (bool_decide (class_of_opt_expr l = class_of_opt_expr r)) eqn:Hclass;
    cbn [negb andb] in *; [|done].
  apply bool_decide_eq_true in Hclass.
  destruct l as [[ln|le ln|lc la ln ll| | |lcls]|], r as [[rn|re rn|rc ra rn rl| | |rcls]|];
    try discriminate Hclass; try (by apply IH).
  - rewrite !run_bind, !run_decorator_name_check.
    destruct (String.eqb ln rn); cbv beta iota; [by apply IH|done].
  - destruct lc as [lcn| | | | |], rc as [rcn| | | | |]; try (by apply IH).
    rewrite !run_bind, !run_decorator_name_check.
    destruct (String.eqb lcn rcn); cbv beta iota; [|done].
    rewrite !run_bind, !run_decorator_argument_checks. by apply IH.
Qed.

(** C5, as amended: the two underlying functions are merged exactly when
    the loop over the decorators runs to its end, which is when every pair
    of decorators is of one class and, where both are names or calls of
    names, of one name; the decorators themselves change nothing in the
    heap. A difference in the names of the arguments never ends the loop:
    in lists of decorators of any length, two calls of one name at one
    position whose lists of argument names differ at some position (the
    shorter list filled up with [None]) have this reported at the line of
    the source decorator whenever every pair before them is reconciled, and
    the underlying functions are then merged exactly when every pair after
    them is reconciled too. When a pair before them is not reconciled, the
    loop has ended there: what is reported is what the pairs before them
    give, and the functions are not merged. *)
Theorem decorator_argument_conflict_does_not_stop_merge
    (merge_nodes_rec : loc -> loc -> M unit) src stub d e self :
  heap self !! src = Some (ODecorator d) ->
  heap self !! stub = Some (ODecorator e) ->
  (exists ds,
     merge_decorators merge_nodes_rec src stub self =
       if decorators_reconciled (zip_longest (decorators d) (decorators e))
       then merge_nodes_rec (func d) (func e) (with_errors self ds)
       else Returns tt (with_errors self ds)) /\
  (forall before_d after_d before_e after_e n la ln ll ra rn rl,
     decorators d = before_d ++ CallExpr (NameExpr n) la ln ll :: after_d ->
     decorators e = before_e ++ CallExpr (NameExpr n) ra rn rl :: after_e ->
     length before_d = length before_e ->
     decorators_reconciled (zip_longest before_d before_e) = true ->
     Exists (fun p => mjoin p.1 <> mjoin p.2) (zip_longest ln rn) ->
     exists l_arg r_arg ds_before ds_after,
       let self' :=
         with_errors self
           (ds_before ++
            mkDiagnostic ll (_column self)
              (conflict_of_decorator_argument_name l_arg r_arg) :: ds_after) in
       merge_decorators merge_nodes_rec src stub self =
         if decorators_reconciled (zip_longest after_d after_e)
         then merge_nodes_rec (func d) (func e) self'
         else Returns tt self') /\
  (forall before_d after_d before_e after_e,
     decorators d = before_d ++ after_d ->
     decorators e = before_e ++ after_e ->
     length before_d = length before_e ->
     decorators_reconciled (zip_longest before_d before_e) = false ->
     exists ds,
       merge_decorators_loop (zip_longest before_d before_e) self =
         Returns false (with_errors self ds) /\
       merge_decorators merge_nodes_rec src stub self = Returns tt (with_errors self ds)).
Proof.
  intros Hsrc Hstub.
  assert (Hrun : merge_decorators merge_nodes_rec src stub self =
            (completed ← merge_decorators_loop (zip_longest (decorators d) (decorators e));
             if completed : bool then merge_nodes_rec (func d) (func e) else mret tt) self).
  { unfold merge_decorators.
    by rewrite run_bind, (run_read_Decorator _ _ _ Hsrc), run_bind,
      (run_read_Decorator _ _ _ Hstub). }
  split; [|split].
  - destruct (run_merge_decorators_loop (zip_longest (decorators d) (decorators e)) self)
      as [ds Hds].
    exists ds. rewrite Hrun, run_bind, Hds.
    by destruct (decorators_reconciled _).
  - intros before_d after_d before_e after_e n la ln ll ra rn rl Hd He Hlen Hbefore Hdiffer.
    apply first_argument_name_conflict_Exists in Hdiffer as (l_arg & r_arg & Hconflict).
    destruct (run_merge_decorators_loop_app _ self Hbefore) as [ds_before Hloop].
    destruct (run_merge_decorators_loop (zip_longest after_d after_e)
                (with_errors (with_errors (with_errors self ds_before) [])
                   (decorator_argument_diagnostics (_line self) (_column self) ln ll ra rn)))
      as [ds_after Hafter].
    exists l_arg, r_arg, ds_before.
    exists ((mkDiagnostic (_line self) (_column self) <$>
               argument_default_results (zip rn ra)) ++ ds_after).
    cbv zeta. rewrite Hrun, Hd, He, zip_longest_app by done. cbn [zip_longest].
    rewrite run_bind, Hloop. cbn [merge_decorators_loop].
    rewrite bool_decide_eq_true_2 by done. cbn [negb].
    rewrite run_bind, run_decorator_name_check, String.eqb_refl. cbv beta iota.
    rewrite run_bind, run_decorator_argument_checks. cbn [_line _column with_errors].
    rewrite Hafter, !with_errors_app.
    unfold decorator_argument_diagnostics. rewrite Hconflict. cbn [fmap list_fmap app].
    by destruct (decorators_reconciled (zip_longest after_d after_e)).
  - intros before_d after_d before_e after_e Hd He Hlen Hbefore.
    destruct (run_merge_decorators_loop (zip_longest before_d before_e) self) as [ds Hds].
    rewrite Hbefore in Hds. exists ds. split; [done|].
    rewrite Hrun, Hd, He, zip_longest_app by done.
    by rewrite run_bind, run_merge_decorators_loop_ends, Hds.
Qed.

(** *** An assignment of the source class that the stub class lacks *)

(** C2, on the code as it is: for an assignment to a single name that is
    not a key of the assignments of the stub, [merge_class_assignment]
    raises [KeyError] at its [del]. *)
Theorem merge_class_assignment_raises_KeyError
    (merge_nodes_rec : loc -> loc -> M unit) src a n stubs self :
  heap self !! src = Some (OAssignmentStmt a) ->
  lvalues a = [NameExpr n] ->
  dict_get n stubs = None ->
  merge_class_assignment merge_nodes_rec src stubs self = Raises (KeyError n) self.
Proof.
  intros Hsrc Hlv Hn. unfold merge_class_assignment.
  rewrite run_bind, (run_simple_assignment_name _ _ _ Hsrc), Hlv. simpl.
  rewrite with_errors_nil, Hn, run_bind, run_ret. unfold dict_del. by rewrite Hn.
Qed.

(** *** A symbol table merged into itself *)

Lemma dict_get_elem_of {V} (d : list (string * V)) k v :
  NoDup d.*1 -> (k, v) ∈ d -> dict_get k d = Some v.
Proof.
  induction d as [|[k' v'] d IH]; intros Hnd Hin; [by apply elem_of_nil in Hin|].
  simpl in *. apply NoDup_cons in Hnd as [Hk' Hnd].
  apply elem_of_cons in Hin as [[= -> ->]|Hin].
  - by rewrite String.eqb_refl.
  - destruct (String.eqb k' k) eqn:E; [|by apply IH].
    apply String.eqb_eq in E as ->. destruct Hk'.
    apply list_elem_of_fmap. by exists (k, v).
Qed.

Lemma merge_symbol_tables_body_same_entry
    (merge_nodes_rec : loc -> loc -> M unit) src stub src_items stub_items name symbol self :
  heap self !! stub = Some (OSymbolTable stub_items) ->
  heap self !! src = Some (OSymbolTable src_items) ->
  dict_get name src_items = Some symbol ->
  merge_symbol_tables_body merge_nodes_rec src stub (length stub_items) (name, symbol) self =
    Returns tt self.
Proof.
  intros Hstub Hsrc Hname. unfold merge_symbol_tables_body.
  rewrite run_bind, (run_read_SymbolTable _ _ _ Hstub), Nat.eqb_refl. cbn [negb].
  rewrite run_bind, (run_read_SymbolTable _ _ _ Hsrc).
  unfold loc in *. rewrite Hname, Nat.eqb_refl. reflexivity.
Qed.

(** C10: where a name of the stub table has, in the source table, the very
    same entry, the step of [merge_symbol_tables] for that name leaves the
    state as it is, whatever [merge_nodes] would do: no node is merged, no
    diagnostic is reported. So the merge of a symbol table into itself is
    a no-op. *)
Theorem merge_symbol_tables_skips_identical_entries
    (merge_nodes_rec : loc -> loc -> M unit) stub stub_items self :
  heap self !! stub = Some (OSymbolTable stub_items) ->
  NoDup stub_items.*1 ->
  (forall src src_items name symbol,
     heap self !! src = Some (OSymbolTable src_items) ->
     (name, symbol) ∈ stub_items ->
     dict_get name src_items = Some symbol ->
     merge_symbol_tables_body merge_nodes_rec src stub (length stub_items) (name, symbol) self
       = Returns tt self) /\
  merge_symbol_tables merge_nodes_rec stub stub self = Returns tt self.
Proof.
  intros Hstub Hnd. split.
  - intros src src_items name symbol Hsrc _ Hname.
    by eapply merge_symbol_tables_body_same_entry.
  - unfold merge_symbol_tables.
    rewrite run_bind, (run_read_SymbolTable _ _ _ Hstub), run_bind.
    assert (Hloop : forall l, l ⊆ stub_items ->
              for_each l (merge_symbol_tables_body merge_nodes_rec stub stub
                            (length stub_items)) self = Returns tt self).
    { induction l as [|[name symbol] l IH]; intros Hl; [reflexivity|].
      cbn [for_each]. rewrite run_bind.
      rewrite (merge_symbol_tables_body_same_entry _ stub stub stub_items stub_items);
        [|done..|].
      - apply IH. intros x Hx. apply Hl. by right.
      - apply dict_get_elem_of; [done|]. apply Hl. by left. }
    rewrite Hloop by done.
    rewrite run_bind, (run_read_SymbolTable _ _ _ Hstub), Nat.eqb_refl. reflexivity.
Qed.

(** *** The theorems at concrete states *)

Ltac by_compute :=
  match goal with
  | |- ?P => apply (@bool_decide_unpack P _); vm_compute; exact I
  end.

(** [def f(x, z)] against the stub [def f(x, y)]: one conflict, and the
    source function is as before. *)
Lemma merge_func_definition_copies_or_reports_witness :
  exists self' d,
    merge_nodes 1 1%nat 2%nat (MergeFiles_init heap_functions) = Returns tt self' /\
    heap self' = heap_functions /\
    errors self' = [d] /\
    msg d = arg_conflict [Some "x"; Some "z"] 5 [Some "x"; Some "y"].
Proof.
  apply (merge_func_definition_copies_or_reports 0 1%nat 2%nat
           (mkFuncDef "f" [Some "x"; Some "z"] [0; 0] (Some "t1") None [] 3 7)
           (mkFuncDef "f" [Some "x"; Some "y"] [0; 1] (Some "t2") (Some "u2") [] 5 9)
           (MergeFiles_init heap_functions)); [reflexivity|reflexivity|discriminate].
Defined.

(** The same merge: the source function is at line 3, column 7, and the
    conflict is reported at line 3, column 3. *)
Lemma report_column_is_the_line_of_the_node_witness :
  exists self' d,
    merge_nodes 1 1%nat 2%nat (MergeFiles_init heap_functions) = Returns tt self' /\
    errors self' = [d] /\ line d = 3 /\ column d = 3 /\
    _line self' = -1 /\ _column self' = 0.
Proof.
  apply (report_column_is_the_line_of_the_node 0 1%nat 2%nat
           (mkFuncDef "f" [Some "x"; Some "z"] [0; 0] (Some "t1") None [] 3 7)
           (mkFuncDef "f" [Some "x"; Some "y"] [0; 1] (Some "t2") (Some "u2") [] 5 9)
           (MergeFiles_init heap_functions)); [reflexivity|reflexivity|discriminate].
Defined.

(** The claim of C1 as it stands, refuted: the stub assignment has the
    value [1], the error is reported, and the type slots of the source
    assignment are not as they were: they went from [int] to [str]. *)
Lemma assignment_conflict_overwrites_type_slots :
  exists self' d a',
    merge_nodes 1 1%nat 2%nat (MergeFiles_init heap_assignments) = Returns tt self' /\
    errors self' = [d] /\
    msg d = stub_should_not_contain_default (Some "x") (cls_other "IntExpr") /\
    heap_assignments !! 1%nat =
      Some (OAssignmentStmt (mkAssignmentStmt [NameExpr "x"] (OtherExpr "IntExpr")
                                (Some "int") (Some "int") 3 4)) /\
    heap self' !! 1%nat = Some (OAssignmentStmt a') /\
    AssignmentStmt_type a' = Some "str" /\ AssignmentStmt_type a' <> Some "int" /\
    AssignmentStmt_unanalyzed_type a' = Some "str" /\
    AssignmentStmt_unanalyzed_type a' <> Some "int".
Proof.
  eexists _, _, _. split; [vm_compute; reflexivity|]. simpl.
  split; [reflexivity|]. split; [reflexivity|]. split; [reflexivity|].
  split; [reflexivity|]. simpl. done.
Qed.

Lemma assignment_is_overwritten_then_checked_witness :
  exists self' ds d name,
    merge_nodes 1 1%nat 2%nat (MergeFiles_init heap_assignments) = Returns tt self' /\
    heap self' =
      <[1%nat := OAssignmentStmt
                   (mkAssignmentStmt [NameExpr "x"] (OtherExpr "IntExpr")
                      (Some "str") (Some "str") 3 4)]> heap_assignments /\
    errors self' = [] ++ ds ++ [d] /\
    msg d = stub_should_not_contain_default name (cls_other "IntExpr").
Proof.
  apply (proj2 (assignment_is_overwritten_then_checked 0 1%nat 2%nat _ _
                  (MergeFiles_init heap_assignments) eq_refl eq_refl)
           (mkAssignmentStmt [NameExpr "x"] (OtherExpr "IntExpr") (Some "int") (Some "int") 3 4)
           (mkAssignmentStmt [NameExpr "x"] (OtherExpr "IntExpr") (Some "str") (Some "str") 7 0)
           eq_refl eq_refl eq_refl).
Defined.

(** The class [C] with [x = 1], against a stub class without [x]: the merge
    of the classes raises [KeyError]. *)
Lemma class_merge_raises_KeyError :
  exists self',
    merge_nodes 2 1%nat 2%nat (MergeFiles_init heap_class_with_assignment) =
      Raises (KeyError "x") self'.
Proof. eexists. vm_compute. reflexivity. Qed.

Lemma merge_class_assignment_raises_KeyError_witness :
  merge_class_assignment (merge_nodes 1) 7%nat []
    (MergeFiles_init heap_class_with_assignment) =
  Raises (KeyError "x") (MergeFiles_init heap_class_with_assignment).
Proof.
  apply (merge_class_assignment_raises_KeyError (merge_nodes 1) 7%nat
           (mkAssignmentStmt [NameExpr "x"] (OtherExpr "IntExpr") None None 2 4) "x" []
           (MergeFiles_init heap_class_with_assignment)); reflexivity.
Defined.

(** The claim of C5 as it stands, refuted: the decorators [dec(a=...)] and
    [dec(b=...)] differ in their argument names, the conflict is reported,
    and the source function has been merged: its type went from [t1] to
    [t2]. *)
Lemma decorator_argument_conflict_still_merges :
  exists self' d f',
    merge_nodes 2 1%nat 2%nat (MergeFiles_init heap_decorated) = Returns tt self' /\
    errors self' = [d] /\
    msg d = conflict_of_decorator_argument_name (Some "a") (Some "b") /\
    heap_decorated !! 3%nat =
      Some (OFuncDef (mkFuncDef "f" [Some "x"] [0] (Some "t1") None [] 11 0)) /\
    heap self' !! 3%nat = Some (OFuncDef f') /\
    FuncDef_type f' = Some "t2" /\ FuncDef_type f' <> Some "t1".
Proof.
  eexists _, _, _. split; [vm_compute; reflexivity|]. simpl.
  split; [reflexivity|]. split; [reflexivity|]. split; [reflexivity|].
  split; [reflexivity|]. simpl. done.
Qed.

(** And the lists of argument names [[None]] and [[]] are not equal, yet no
    conflict is reported for them. *)
Lemma positional_argument_is_not_a_conflict :
  exists self',
    merge_nodes 2 1%nat 2%nat (MergeFiles_init heap_decorated_positional) = Returns tt self' /\
    errors self' = [].
Proof. eexists. split; [vm_compute; reflexivity|]. reflexivity. Qed.

(** Two decorators each, [@staticmethod @dec(a=...)] and
    [@staticmethod @dec(b=...)]: the second pair is reached, its conflict is
    reported, and the functions are merged. *)
Lemma decorator_argument_conflict_does_not_stop_merge_witness :
  exists l_arg r_arg ds_before ds_after,
    merge_decorators (merge_nodes 1) 1%nat 2%nat (MergeFiles_init heap_decorated_twice) =
      merge_nodes 1 3%nat 4%nat
        (with_errors (MergeFiles_init heap_decorated_twice)
           (ds_before ++
            mkDiagnostic 10 0 (conflict_of_decorator_argument_name l_arg r_arg) :: ds_after)).
Proof.
  apply (proj1 (proj2 (decorator_argument_conflict_does_not_stop_merge (merge_nodes 1) 1%nat 2%nat
                  (mkDecorator 3%nat
                     [NameExpr "staticmethod";
                      CallExpr (NameExpr "dec") [EllipsisExpr] [Some "a"] 10] 9 0)
                  (mkDecorator 4%nat
                     [NameExpr "staticmethod";
                      CallExpr (NameExpr "dec") [EllipsisExpr] [Some "b"] 20] 19 0)
                  (MergeFiles_init heap_decorated_twice) eq_refl eq_refl))
           [NameExpr "staticmethod"] [] [NameExpr "staticmethod"] []
           "dec" [EllipsisExpr] [Some "a"] 10 [EllipsisExpr] [Some "b"] 20
           eq_refl eq_refl eq_refl eq_refl).
  apply Exists_cons_hd. simpl. discriminate.
Defined.

(** The table with [f] and [x], merged into itself. *)
Lemma merge_symbol_tables_skips_identical_entries_witness :
  merge_symbol_tables (merge_nodes 3) 1%nat 1%nat (MergeFiles_init heap_symbol_table) =
  Returns tt (MergeFiles_init heap_symbol_table).
Proof.
  apply (proj2 (merge_symbol_tables_skips_identical_entries (merge_nodes 3) 1%nat
                  [("f", 2%nat); ("x", 3%nat)] (MergeFiles_init heap_symbol_table)
                  eq_refl ltac:(by_compute))).
Defined.

End StubSrcMergeProofs.

(** * Further properties of the merge engine *)

Module StubSrcMergeExtra.
Import StubSrcMerge.
Import StubSrcMergeProofs.

(** *** What a merge keeps *)

(** The state in which a run ends, when it ends. *)
Definition final {A} (r : result A) : option MergeFiles :=
  match r with
  | Returns _ self => Some self
  | Raises _ self => Some self
  | Diverges => None
  end.

(** Two objects of one class that differ at most in what a merge sets: the
    type slots of a variable, an assignment or a function; the argument
    kinds of a function; the type variables, the metaclass and the protocol
    flag of a class; the entries a symbol table gains. *)
Definition same_shape (o o' : object) : Prop :=
  match o, o' with
  | OVar v, OVar v' => Var_line v = Var_line v' /\ Var_column v = Var_column v'
  | OAssignmentStmt a, OAssignmentStmt a' =>
      lvalues a = lvalues a' /\ rvalue a = rvalue a' /\
      AssignmentStmt_line a = AssignmentStmt_line a' /\
      AssignmentStmt_column a = AssignmentStmt_column a'
  | OFuncDef f, OFuncDef f' =>
      FuncDef_name f = FuncDef_name f' /\ arg_names f = arg_names f' /\
      FuncDef_body f = FuncDef_body f' /\
      FuncDef_line f = FuncDef_line f' /\ FuncDef_column f = FuncDef_column f'
  | OTypeInfo t, OTypeInfo t' =>
      TypeInfo_names t = TypeInfo_names t' /\ defn t = defn t' /\
      TypeInfo_line t = TypeInfo_line t' /\ TypeInfo_column t = TypeInfo_column t'
  | OClassDef c, OClassDef c' =>
      ClassDef_name c = ClassDef_name c' /\ ClassDef_defs_body c = ClassDef_defs_body c' /\
      ClassDef_line c = ClassDef_line c' /\ ClassDef_column c = ClassDef_column c'
  | OSymbolTable items, OSymbolTable items' =>
      forall k v, dict_get k items = Some v -> dict_get k items' = Some v
  | ODecorator _, ODecorator _ | OIfStmt _, OIfStmt _ | OOtherNode _ _ _, OOtherNode _ _ _
  | ONone, ONone | OSymbolTableNode _, OSymbolTableNode _ => o = o'
  | _, _ => False
  end.

Definition heap_evolves (h h' : gmap loc object) : Prop :=
  forall l, match h !! l, h' !! l with
            | Some o, Some o' => same_shape o o'
            | None, None => True
            | _, _ => False
            end.

Definition evolves (self self' : MergeFiles) : Prop :=
  heap_evolves (heap self) (heap self') /\
  errors self `prefix_of` errors self' /\
  _line self' = _line self /\ _column self' = _column self.

Lemma same_shape_refl o : same_shape o o.
Proof. destruct o; simpl; auto. Qed.

Lemma same_shape_trans o1 o2 o3 : same_shape o1 o2 -> same_shape o2 o3 -> same_shape o1 o3.
Proof.
  destruct o1, o2; simpl; try done; destruct o3; simpl; try done;
    try (intros; destruct_and?; split_and?; congruence); try congruence.
  intros H1 H2 k v Hk. auto.
Qed.

Lemma same_shape_class o o' : same_shape o o' -> class_of o = class_of o'.
Proof. destruct o, o'; simpl; try done; try congruence. Qed.

Lemma same_shape_line o o' : same_shape o o' -> line_of o = line_of o'.
Proof.
  destruct o, o'; simpl; try done; try congruence;
    intros; destruct_and?; congruence.
Qed.

Lemma heap_evolves_refl h : heap_evolves h h.
Proof. intros l. destruct (h !! l); [apply same_shape_refl|done]. Qed.

Lemma heap_evolves_trans h1 h2 h3 :
  heap_evolves h1 h2 -> heap_evolves h2 h3 -> heap_evolves h1 h3.
Proof.
  intros H12 H23 l. specialize (H12 l). specialize (H23 l).
  destruct (h1 !! l), (h2 !! l), (h3 !! l); try done. by eapply same_shape_trans.
Qed.

Lemma heap_evolves_lookup h h' l o :
  heap_evolves h h' -> h !! l = Some o -> exists o', h' !! l = Some o' /\ same_shape o o'.
Proof.
  intros H Hl. specialize (H l). rewrite Hl in H.
  destruct (h' !! l) as [o'|]; [eauto|done].
Qed.

Lemma heap_evolves_insert h l o o' :
  h !! l = Some o -> same_shape o o' -> heap_evolves h (<[l := o']> h).
Proof.
  intros Hl Hs l'. destruct (decide (l = l')) as [<-|Hne].
  - by rewrite Hl, lookup_insert_eq.
  - rewrite lookup_insert_ne by done. destruct (h !! l'); [apply same_shape_refl|done].
Qed.

Lemma evolves_refl self : evolves self self.
Proof. split; [apply heap_evolves_refl|done]. Qed.

Lemma evolves_trans s1 s2 s3 : evolves s1 s2 -> evolves s2 s3 -> evolves s1 s3.
Proof.
  intros (H1 & E1 & L1 & C1) (H2 & E2 & L2 & C2). split_and!.
  - by eapply heap_evolves_trans.
  - by etrans.
  - congruence.
  - congruence.
Qed.

(** A run from [self] that ends, ends in a state that [self] evolves to. *)
Definition keeps_at {A} (m : M A) (self : MergeFiles) : Prop :=
  forall self', final (m self) = Some self' -> evolves self self'.

Lemma keeps_ret {A} (a : A) self : keeps_at (mret a : M A) self.
Proof. intros self' [= <-]. apply evolves_refl. Qed.

Lemma keeps_raise {A} e self : keeps_at (raise e : M A) self.
Proof. intros self' [= <-]. apply evolves_refl. Qed.

Lemma keeps_diverge {A} self : keeps_at (diverge : M A) self.
Proof. by intros self'. Qed.

Lemma keeps_bind {A B} (m : M A) (k : A -> M B) self :
  keeps_at m self ->
  (forall a self1, m self = Returns a self1 -> keeps_at (k a) self1) ->
  keeps_at (m ≫= k) self.
Proof.
  intros Hm Hk self'. rewrite run_bind.
  destruct (m self) as [a self1|e self1|] eqn:Hrun; simpl; [| |done].
  - intros Hfin. eapply evolves_trans; [apply Hm; by rewrite Hrun|]. by eapply Hk.
  - intros Hfin. apply Hm. by rewrite Hrun.
Qed.

Lemma read_inv l o self self' :
  read l self = Returns o self' -> self' = self /\ heap self !! l = Some o.
Proof. unfold read. destruct (heap self !! l); by intros [= <- <-]. Qed.

(** A step that ends in the state it starts in. *)
Definition reads_only {A} (m : M A) : Prop :=
  forall self self', final (m self) = Some self' -> self' = self.

Lemma reads_only_keeps {A} (m : M A) self : reads_only m -> keeps_at m self.
Proof. intros Hm self' Hfin. apply Hm in Hfin as ->. apply evolves_refl. Qed.

Lemma reads_only_read l : reads_only (read l).
Proof. intros self self'. unfold read. destruct (heap self !! l); by intros [= <-]. Qed.

Lemma read_Var_inv l v self self' :
  read_Var l self = Returns v self' -> self' = self /\ heap self !! l = Some (OVar v).
Proof.
  unfold read_Var. rewrite run_bind. unfold read.
  destruct (heap self !! l) as [[]|]; try done. by intros [= <- <-].
Qed.

Lemma read_AssignmentStmt_inv l a self self' :
  read_AssignmentStmt l self = Returns a self' ->
  self' = self /\ heap self !! l = Some (OAssignmentStmt a).
Proof.
  unfold read_AssignmentStmt. rewrite run_bind. unfold read.
  destruct (heap self !! l) as [[]|]; try done. by intros [= <- <-].
Qed.

Lemma read_FuncDef_inv l f self self' :
  read_FuncDef l self = Returns f self' -> self' = self /\ heap self !! l = Some (OFuncDef f).
Proof.
  unfold read_FuncDef. rewrite run_bind. unfold read.
  destruct (heap self !! l) as [[]|]; try done. by intros [= <- <-].
Qed.

Lemma read_TypeInfo_inv l t self self' :
  read_TypeInfo l self = Returns t self' -> self' = self /\ heap self !! l = Some (OTypeInfo t).
Proof.
  unfold read_TypeInfo. rewrite run_bind. unfold read.
  destruct (heap self !! l) as [[]|]; try done. by intros [= <- <-].
Qed.

Lemma read_ClassDef_inv l c self self' :
  read_ClassDef l self = Returns c self' -> self' = self /\ heap self !! l = Some (OClassDef c).
Proof.
  unfold read_ClassDef. rewrite run_bind. unfold read.
  destruct (heap self !! l) as [[]|]; try done. by intros [= <- <-].
Qed.

Lemma read_Decorator_inv l d self self' :
  read_Decorator l self = Returns d self' ->
  self' = self /\ heap self !! l = Some (ODecorator d).
Proof.
  unfold read_Decorator. rewrite run_bind. unfold read.
  destruct (heap self !! l) as [[]|]; try done. by intros [= <- <-].
Qed.

Lemma read_SymbolTableNode_inv l n self self' :
  read_SymbolTableNode l self = Returns n self' ->
  self' = self /\ heap self !! l = Some (OSymbolTableNode n).
Proof.
  unfold read_SymbolTableNode. rewrite run_bind. unfold read.
  destruct (heap self !! l) as [[]|]; try done. by intros [= <- <-].
Qed.

Lemma read_SymbolTable_inv l items self self' :
  read_SymbolTable l self = Returns items self' ->
  self' = self /\ heap self !! l = Some (OSymbolTable items).
Proof.
  unfold read_SymbolTable. rewrite run_bind. unfold read.
  destruct (heap self !! l) as [[]|]; try done. by intros [= <- <-].
Qed.

Lemma reads_only_typed l :
  reads_only (read_Var l) /\ reads_only (read_AssignmentStmt l) /\
  reads_only (read_FuncDef l) /\ reads_only (read_TypeInfo l) /\
  reads_only (read_ClassDef l) /\ reads_only (read_Decorator l) /\
  reads_only (read_SymbolTableNode l) /\ reads_only (read_SymbolTable l) /\
  reads_only (read_line l).
Proof.
  split_and!; intros self self'; unfold read_Var, read_AssignmentStmt, read_FuncDef,
    read_TypeInfo, read_ClassDef, read_Decorator, read_SymbolTableNode, read_SymbolTable,
    read_line; rewrite run_bind; unfold read;
    (destruct (heap self !! l) as [o|]; [|by intros [= <-]]);
    destruct o; simpl; by intros [= <-].
Qed.

Lemma keeps_report m line column self : keeps_at (report m line column) self.
Proof.
  intros self' [= <-]. split_and!; simpl; try done.
  - apply heap_evolves_refl.
  - by apply prefix_app_r.
Qed.

Lemma keeps_write l o o0 self :
  heap self !! l = Some o0 -> same_shape o0 o -> keeps_at (write l o) self.
Proof.
  intros Hl Hs self' [= <-]. split_and!; simpl; try done.
  by eapply heap_evolves_insert.
Qed.

Lemma keeps_for_each {X} (body : X -> M unit) (l : list X) :
  (forall x self, keeps_at (body x) self) -> forall self, keeps_at (for_each l body) self.
Proof.
  intros Hbody. induction l as [|x l IH]; intros self; cbn [for_each].
  - apply keeps_ret.
  - apply keeps_bind; [apply Hbody|]. intros _ self1 _. apply IH.
Qed.

Lemma keeps_for_each_acc {X S} (body : X -> S -> M S) (l : list X) :
  (forall x acc self, keeps_at (body x acc) self) ->
  forall acc self, keeps_at (for_each_acc l body acc) self.
Proof.
  intros Hbody. induction l as [|x l IH]; intros acc self; cbn [for_each_acc].
  - apply keeps_ret.
  - apply keeps_bind; [apply Hbody|]. intros acc1 self1 _. apply IH.
Qed.

Lemma keeps_report_from_element {A} src (body : M A) self :
  (forall self1, keeps_at body self1) -> keeps_at (report_from_element src body) self.
Proof.
  intros Hbody self'. unfold report_from_element.
  set (self1 := mkMergeFiles _ _ _ _).
  specialize (Hbody self1).
  destruct (body self1) as [a self2|e self2|] eqn:Hrun; simpl; [| |done];
    intros [= <-]; destruct (Hbody self2) as (Hh & He & _ & _);
    try (by rewrite Hrun); by split_and!.
Qed.

Lemma keeps_dict_del {V} k (d : list (string * V)) self : keeps_at (dict_del k d) self.
Proof. unfold dict_del. destruct (dict_get k d); [apply keeps_ret|apply keeps_raise]. Qed.

Lemma keeps_expr_name e self : keeps_at (expr_name e) self.
Proof. destruct e; first [apply keeps_ret|apply keeps_raise]. Qed.

(** *** The methods keep what a merge keeps *)

Ltac kread :=
  match goal with
  | H : read_Var _ _ = Returns _ _ |- _ => apply read_Var_inv in H as [-> H]
  | H : read_AssignmentStmt _ _ = Returns _ _ |- _ =>
      apply read_AssignmentStmt_inv in H as [-> H]
  | H : read_FuncDef _ _ = Returns _ _ |- _ => apply read_FuncDef_inv in H as [-> H]
  | H : read_TypeInfo _ _ = Returns _ _ |- _ => apply read_TypeInfo_inv in H as [-> H]
  | H : read_ClassDef _ _ = Returns _ _ |- _ => apply read_ClassDef_inv in H as [-> H]
  | H : read_Decorator _ _ = Returns _ _ |- _ => apply read_Decorator_inv in H as [-> H]
  | H : read_SymbolTableNode _ _ = Returns _ _ |- _ =>
      apply read_SymbolTableNode_inv in H as [-> H]
  | H : read_SymbolTable _ _ = Returns _ _ |- _ => apply read_SymbolTable_inv in H as [-> H]
  | H : read _ _ = Returns _ _ |- _ => apply read_inv in H as [-> H]
  end.

Ltac kleaf :=
  first
    [ apply keeps_ret | apply keeps_raise | apply keeps_diverge | apply keeps_report
    | apply keeps_dict_del | apply keeps_expr_name
    | apply reads_only_keeps, reads_only_read
    | apply reads_only_keeps, reads_only_typed ].

(** A bind whose first step is a leaf. *)
Ltac kbind := apply keeps_bind; [try kleaf|intros ? ? ?; try kread].

Lemma keeps_merge_variables src stub self : keeps_at (merge_variables src stub) self.
Proof.
  unfold merge_variables. kbind. kbind.
  eapply keeps_write; [eassumption|]. by simpl.
Qed.

Lemma keeps_simple_assignment_name node c r self :
  keeps_at (simple_assignment_name node c r) self.
Proof.
  unfold simple_assignment_name. kbind.
  destruct (lvalues a) as [|l_value [|]].
  - destruct r; [kbind|]; kleaf.
  - destruct (isinstance_l_value l_value c); [kbind; kleaf|].
    destruct r; [kbind|]; kleaf.
  - destruct r; [kbind|]; kleaf.
Qed.

Lemma keeps_check_no_explicit_default default_node node name self :
  keeps_at (check_no_explicit_default default_node node name) self.
Proof. unfold check_no_explicit_default. destruct (_ && _); kleaf. Qed.

Lemma keeps_merge_assignment src stub self : keeps_at (merge_assignment src stub) self.
Proof.
  unfold merge_assignment. kbind. kbind.
  apply keeps_bind; [eapply keeps_write; [eassumption|by simpl]|]. intros _ self1 _.
  apply keeps_bind; [apply keeps_simple_assignment_name|]. intros stub_name self2 _.
  kbind. apply keeps_check_no_explicit_default.
Qed.

Lemma keeps_merge_func_definition src stub self :
  keeps_at (merge_func_definition src stub) self.
Proof.
  unfold merge_func_definition. kbind. kbind.
  destruct (bool_decide _); [|kleaf].
  eapply keeps_write; [eassumption|]. by simpl.
Qed.

Lemma keeps_with_errors self ds : evolves self (with_errors self ds).
Proof.
  split_and!; simpl; try done; [apply heap_evolves_refl|by apply prefix_app_r].
Qed.

Lemma keeps_merge_decorators_loop pairs self : keeps_at (merge_decorators_loop pairs) self.
Proof.
  intros self'. destruct (run_merge_decorators_loop pairs self) as [ds ->].
  intros [= <-]. apply keeps_with_errors.
Qed.

Lemma keeps_enrich_src_assign_from_stub src_assign stub_assign self :
  keeps_at (enrich_src_assign_from_stub src_assign stub_assign) self.
Proof.
  unfold enrich_src_assign_from_stub.
  apply keeps_bind; [apply keeps_simple_assignment_name|]. intros [name|] self1 _; [|kleaf].
  destruct (dict_get name stub_assign) as [stub|]; [|kbind; kleaf].
  kbind. kbind.
  apply keeps_bind; [eapply keeps_write; [eassumption|by simpl]|]. intros _ self2 _.
  kbind. kleaf.
Qed.

Lemma keeps_collect_assign_and_funcs body self :
  keeps_at (collect_assign_and_funcs body) self.
Proof.
  unfold collect_assign_and_funcs. apply keeps_for_each_acc.
  intros entry [assigns funcs] self1. kbind.
  destruct a; try kleaf.
  - apply keeps_bind; [apply keeps_simple_assignment_name|].
    intros [name|] self2 _; kleaf.
  - kbind. kleaf.
Qed.

Section Recursion.
Variable mn : loc -> loc -> M unit.
Hypothesis keeps_mn : forall src stub self, keeps_at (mn src stub) self.

Lemma dict_get_set {V} (k n : string) (v : V) (d : list (string * V)) :
  dict_get k (dict_set n v d) = if String.eqb n k then Some v else dict_get k d.
Proof.
  induction d as [|[k' v'] d IH]; simpl.
  - by destruct (String.eqb n k).
  - destruct (String.eqb k' n) eqn:E.
    + apply String.eqb_eq in E as ->. simpl. by destruct (String.eqb n k).
    + simpl. rewrite IH. destruct (String.eqb k' k) eqn:E'; [|done].
      apply String.eqb_eq in E' as ->. by rewrite String.eqb_sym, E.
Qed.

Lemma same_shape_dict_set (n : string) (v : loc) (d : list (string * loc)) :
  dict_get n d = None -> same_shape (OSymbolTable d) (OSymbolTable (dict_set n v d)).
Proof.
  intros Hn k v' Hk. rewrite dict_get_set.
  destruct (String.eqb n k) eqn:E; [|done]. apply String.eqb_eq in E as ->. congruence.
Qed.

Lemma keeps_merge_symbol_tables_body src stub size item self :
  keeps_at (merge_symbol_tables_body mn src stub size item) self.
Proof.
  unfold merge_symbol_tables_body. destruct item as [stub_symbol_name stub_symbol].
  kbind. destruct (negb _); [kleaf|]. kbind.
  destruct (dict_get stub_symbol_name a0) as [src_symbol|] eqn:Hget.
  - destruct (negb _); [|kleaf]. kbind. kbind. apply keeps_mn.
  - eapply keeps_write; [eassumption|]. by apply same_shape_dict_set.
Qed.

Lemma keeps_merge_symbol_tables src stub self :
  keeps_at (merge_symbol_tables mn src stub) self.
Proof.
  unfold merge_symbol_tables. kbind.
  apply keeps_bind; [apply keeps_for_each; intros; apply keeps_merge_symbol_tables_body|].
  intros _ self1 _. kbind. destruct (negb _); kleaf.
Qed.

Lemma keeps_merge_decorators src stub self : keeps_at (merge_decorators mn src stub) self.
Proof.
  unfold merge_decorators. kbind. kbind.
  apply keeps_bind; [apply keeps_merge_decorators_loop|].
  intros [|] self1 _; [apply keeps_mn|kleaf].
Qed.

Lemma keeps_merge_class_decorator src stub_funcs self :
  keeps_at (merge_class_decorator mn src stub_funcs) self.
Proof.
  unfold merge_class_decorator. kbind. kbind.
  destruct (dict_get _ _); [|kleaf].
  apply keeps_bind; [apply keeps_mn|]. intros; kleaf.
Qed.

Lemma keeps_merge_class_assignment src stubs self :
  keeps_at (merge_class_assignment mn src stubs) self.
Proof.
  unfold merge_class_assignment.
  apply keeps_bind; [apply keeps_simple_assignment_name|]. intros [src_name|] self1 _; [|kleaf].
  apply keeps_bind; [|intros; kleaf].
  destruct (dict_get _ _); [apply keeps_mn|kleaf].
Qed.

Lemma keeps_enrich_if_assignment part stub_assigns self :
  keeps_at (enrich_if_assignment part stub_assigns) self.
Proof.
  unfold enrich_if_assignment. kbind. destruct a; try kleaf.
  apply keeps_bind; [apply keeps_enrich_src_assign_from_stub|]. intros [??] ? _. kleaf.
Qed.

Lemma keeps_merge_class_func_def src stub_assigns stub_funcs self :
  keeps_at (merge_class_func_def mn src stub_assigns stub_funcs) self.
Proof.
  unfold merge_class_func_def. kbind.
  apply keeps_bind.
  { destruct (dict_get _ _); [|kleaf]. apply keeps_bind; [apply keeps_mn|]. intros; kleaf. }
  intros stub_funcs' self1 _. destruct (String.eqb _ _); [|kleaf].
  apply keeps_bind; [|intros; kleaf].
  apply keeps_for_each_acc. intros init_part acc self2. kbind.
  destruct a0; try kleaf.
  - apply keeps_enrich_if_assignment.
  - apply keeps_for_each_acc. intros b acc' self3.
    apply keeps_for_each_acc. intros; apply keeps_enrich_if_assignment.
Qed.

Lemma keeps_read_line_report (l : list (string * loc)) (m : string -> Z -> message) self :
  keeps_at (for_each l (fun '(k, v) => v_line ← read_line v; report (m k v_line) None None))
    self.
Proof.
  apply keeps_for_each. intros [k v] self1. kbind. kleaf.
Qed.

Lemma keeps_merge_type_info src stub self : keeps_at (merge_type_info mn src stub) self.
Proof.
  unfold merge_type_info. kbind. kbind.
  apply keeps_bind; [eapply keeps_write; [eassumption|by simpl]|]. intros _ self1 _.
  apply keeps_bind; [apply keeps_merge_symbol_tables|]. intros _ self2 _.
  kbind. kbind.
  apply keeps_bind; [eapply keeps_write; [eassumption|by simpl]|]. intros _ self3 _.
  apply keeps_bind; [apply keeps_collect_assign_and_funcs|].
  intros [stub_assigns stub_funcs] self4 _.
  apply keeps_bind.
  { apply keeps_for_each_acc. intros entry [sa sf] self5. kbind.
    destruct a3; try kleaf.
    - apply keeps_bind; [apply keeps_merge_class_assignment|]. intros; kleaf.
    - apply keeps_merge_class_func_def.
    - apply keeps_bind; [apply keeps_merge_class_decorator|]. intros; kleaf. }
  intros [sa sf] self5 _.
  apply keeps_bind; [apply keeps_read_line_report|]. intros _ self6 _.
  apply keeps_read_line_report.
Qed.

Lemma keeps_merge_nodes_body src stub self : keeps_at (merge_nodes_body mn src stub) self.
Proof.
  unfold merge_nodes_body. apply keeps_report_from_element. intros self1.
  kbind. kbind. destruct (negb _); [kbind; kleaf|].
  destruct a; try kleaf.
  - apply keeps_merge_variables.
  - apply keeps_merge_assignment.
  - apply keeps_merge_func_definition.
  - apply keeps_merge_type_info.
  - apply keeps_merge_decorators.
Qed.

End Recursion.

Lemma keeps_merge_nodes fuel : forall src stub self, keeps_at (merge_nodes fuel src stub) self.
Proof.
  induction fuel as [|fuel IH]; intros src stub self; [apply keeps_diverge|].
  by apply keeps_merge_nodes_body.
Qed.

(** *** [merge_nodes] *)

(** X17: However [merge_nodes] ends, by returning or by raising, the report
    position is what it was before ([report_from_element] restores it in
    its [finally]), and the diagnostics there were are still there, in
    front of the ones that were added. *)
Theorem merge_nodes_restores_position_and_appends_diagnostics (fuel : nat) (src stub : loc)
    (self self' : MergeFiles) :
  final (merge_nodes fuel src stub self) = Some self' ->
  _line self' = _line self /\ _column self' = _column self /\
  exists ds, errors self' = errors self ++ ds.
Proof.
  intros Hfin. apply keeps_merge_nodes in Hfin as (_ & He & Hl & Hc). done.
Qed.

(** X18: However [merge_nodes] ends, the heap has the addresses it had, and each
    object is of the class it was and differs from what it was at most in
    what a merge sets: no node is created or dropped, no line, column,
    name, target, body or decorator is changed, and no symbol table loses
    or rebinds a name. *)
Theorem merge_nodes_only_annotates (fuel : nat) (src stub : loc) (self self' : MergeFiles) :
  final (merge_nodes fuel src stub self) = Some self' ->
  (forall l, heap self !! l = None <-> heap self' !! l = None) /\
  (forall l o o', heap self !! l = Some o -> heap self' !! l = Some o' ->
     same_shape o o' /\ class_of o' = class_of o /\ line_of o' = line_of o).
Proof.
  intros Hfin. apply keeps_merge_nodes in Hfin as (Hh & _). split.
  - intros l. specialize (Hh l).
    destruct (heap self !! l), (heap self' !! l); done.
  - intros l o o' Ho Ho'. specialize (Hh l). rewrite Ho, Ho' in Hh.
    split; [done|]. split; symmetry; [by apply same_shape_class|by apply same_shape_line].
Qed.

Lemma merge_nodes_unfold fuel src stub s t self :
  heap self !! src = Some s ->
  heap self !! stub = Some t ->
  merge_nodes (S fuel) src stub self =
    report_from_element src
      (if negb (bool_decide (class_of s = class_of t)) then
         stub_line ← read_line stub;
         report (conflict_of_definition (class_of s) stub_line (class_of t)) None None
       else
         match s with
         | OVar _ => merge_variables src stub
         | OAssignmentStmt _ => merge_assignment src stub
         | OFuncDef _ => merge_func_definition src stub
         | OTypeInfo _ => merge_type_info (merge_nodes fuel) src stub
         | ODecorator _ => merge_decorators (merge_nodes fuel) src stub
         | _ => raise RuntimeError_cannot_merge
         end) self.
Proof.
  intros Hsrc Hstub. cbn [merge_nodes]. unfold merge_nodes_body, report_from_element.
  set (self1 := mkMergeFiles _ _ _ _).
  assert (Hsrc1 : heap self1 !! src = Some s) by done.
  assert (Hstub1 : heap self1 !! stub = Some t) by done.
  by rewrite run_bind, (run_read _ _ _ Hsrc1), run_bind, (run_read _ _ _ Hstub1).
Qed.

(** X19: Two nodes of one class that is none of the five that [merge_nodes]
    knows: a [RuntimeError], and the state is as it was. *)
Theorem merge_nodes_of_unsupported_class_raises (fuel : nat) (src stub : loc)
    (s t : object) (self : MergeFiles) :
  heap self !! src = Some s ->
  heap self !! stub = Some t ->
  class_of s = class_of t ->
  class_of s ∉ [cls_Var; cls_AssignmentStmt; cls_FuncDef; cls_TypeInfo; cls_Decorator] ->
  merge_nodes (S fuel) src stub self = Raises RuntimeError_cannot_merge self.
Proof.
  intros Hsrc Hstub Hclass Hnot.
  rewrite (merge_nodes_unfold fuel src stub s t self Hsrc Hstub).
  rewrite bool_decide_eq_true_2 by done. cbn [negb]. unfold report_from_element.
  destruct s; simpl in Hnot; try (exfalso; apply Hnot; set_solver);
    simpl; by rewrite self_eta.
Qed.

(** X20: A stub node that has no [line], as [None] has none, and a source node
    of another class: the conflict is not reported, for the message needs
    the line of the stub node; an [AttributeError], and the state is as
    it was. *)
Theorem merge_nodes_with_stub_without_line_raises (fuel : nat) (src stub : loc)
    (s t : object) (self : MergeFiles) :
  heap self !! src = Some s ->
  heap self !! stub = Some t ->
  class_of s <> class_of t ->
  line_of t = None ->
  merge_nodes (S fuel) src stub self = Raises AttributeError self.
Proof.
  intros Hsrc Hstub Hclass Hline.
  rewrite (merge_nodes_unfold fuel src stub s t self Hsrc Hstub).
  rewrite bool_decide_eq_false_2 by done. cbn [negb]. unfold report_from_element.
  set (self1 := mkMergeFiles _ _ _ _).
  assert (Hstub1 : heap self1 !! stub = Some t) by done.
  unfold read_line. rewrite !run_bind, (run_read _ _ _ Hstub1), Hline. simpl.
  by rewrite self_eta.
Qed.

(** Two variables: the type of the source variable becomes that of the
    stub variable, nothing else changes and nothing is reported. *)
Lemma merge_nodes_copies_type_of_variable (fuel : nat) (src stub : loc) (v w : Var)
    (self : MergeFiles) :
  heap self !! src = Some (OVar v) ->
  heap self !! stub = Some (OVar w) ->
  merge_nodes (S fuel) src stub self =
    Returns tt
      (mkMergeFiles (<[src := OVar (mkVar (Var_type w) (Var_line v) (Var_column v))]> (heap self))
         (errors self) (_line self) (_column self)).
Proof.
  intros Hsrc Hstub.
  rewrite (merge_nodes_unfold fuel src stub _ _ self Hsrc Hstub).
  rewrite bool_decide_eq_true_2 by done. cbn [negb]. unfold report_from_element.
  set (self1 := mkMergeFiles _ _ _ _).
  assert (Hsrc1 : heap self1 !! src = Some (OVar v)) by done.
  assert (Hstub1 : heap self1 !! stub = Some (OVar w)) by done.
  unfold merge_variables, read_Var.
  rewrite !run_bind, (run_read _ _ _ Hsrc1). simpl.
  rewrite !run_bind, (run_read _ _ _ Hstub1). simpl. reflexivity.
Qed.

(** *** Loops with an invariant *)

Lemma bind_Returns {A B} (m : M A) (k : A -> M B) self b self' :
  (m ≫= k) self = Returns b self' ->
  exists a self1, m self = Returns a self1 /\ k a self1 = Returns b self'.
Proof. rewrite run_bind. destruct (m self) as [a self1| |]; [eauto|done..]. Qed.

Lemma for_each_inv {X} (body : X -> M unit) (I : list X -> MergeFiles -> Prop)
    (l : list X) :
  (forall done x s s', I done s -> body x s = Returns tt s' -> I (done ++ [x]) s') ->
  forall done self self',
    I done self -> for_each l body self = Returns tt self' -> I (done ++ l) self'.
Proof.
  intros Hstep. induction l as [|x l IH]; intros done self self' HI; cbn [for_each].
  - intros [= <-]. by rewrite app_nil_r.
  - intros Hrun. apply bind_Returns in Hrun as ([] & self1 & Hx & Hl).
    rewrite cons_middle, app_assoc. eapply IH; [|exact Hl]. by eapply Hstep.
Qed.

Lemma for_each_acc_inv {X S} (body : X -> S -> M S)
    (I : list X -> S -> MergeFiles -> Prop) (l : list X) :
  (forall done x acc s acc' s',
     I done acc s -> body x acc s = Returns acc' s' -> I (done ++ [x]) acc' s') ->
  forall done acc self acc' self',
    I done acc self -> for_each_acc l body acc self = Returns acc' self' ->
    I (done ++ l) acc' self'.
Proof.
  intros Hstep. induction l as [|x l IH]; intros done acc self acc' self' HI;
    cbn [for_each_acc].
  - intros [= <- <-]. by rewrite app_nil_r.
  - intros Hrun. apply bind_Returns in Hrun as (acc1 & self1 & Hx & Hl).
    rewrite cons_middle, app_assoc. eapply IH; [|exact Hl]. by eapply Hstep.
Qed.

Lemma dict_get_Some_elem_of {V} (d : list (string * V)) k v :
  dict_get k d = Some v -> (k, v) ∈ d.
Proof.
  induction d as [|[k' v'] d IH]; [done|]. simpl.
  destruct (String.eqb k' k) eqn:E.
  - apply String.eqb_eq in E as ->. intros [= ->]. by left.
  - intros H. right. by apply IH.
Qed.

(** *** [merge_symbol_tables] *)

(** The name [name] is bound in the symbol table at [src]. *)
Definition bound_in (self : MergeFiles) (src : loc) (name : string) : Prop :=
  exists items, heap self !! src = Some (OSymbolTable items) /\ is_Some (dict_get name items).

Lemma bound_in_evolves self self' src name :
  evolves self self' -> bound_in self src name -> bound_in self' src name.
Proof.
  intros (Hh & _) (items & Hsrc & [v Hv]).
  destruct (heap_evolves_lookup _ _ _ _ Hh Hsrc) as (o' & Ho' & Hs).
  destruct o'; try done. eexists. split; [exact Ho'|]. exists v. by apply Hs.
Qed.

Lemma merge_symbol_tables_body_binds fuel src stub size name sym self self' :
  merge_symbol_tables_body (merge_nodes fuel) src stub size (name, sym) self
    = Returns tt self' ->
  bound_in self' src name.
Proof.
  unfold merge_symbol_tables_body. intros Hrun.
  apply bind_Returns in Hrun as (now & self1 & Hnow & Hrun). kread.
  destruct (negb (length now =? size)%nat) eqn:Hsize; [done|].
  apply bind_Returns in Hrun as (src_items & self1 & Hsrc & Hrun). kread.
  destruct (dict_get name src_items) as [src_symbol|] eqn:Hget.
  - assert (bound_in self src name) as Hb by (exists src_items; eauto).
    eapply bound_in_evolves; [|exact Hb].
    apply (keeps_merge_symbol_tables_body (merge_nodes fuel) (keeps_merge_nodes fuel)
             src stub size (name, sym) self).
    unfold merge_symbol_tables_body.
    rewrite run_bind, (run_read_SymbolTable _ _ _ Hnow), Hsize.
    rewrite run_bind, (run_read_SymbolTable _ _ _ Hsrc), Hget. by rewrite Hrun.
  - injection Hrun as <-. eexists. simpl. split; [apply lookup_insert_eq|].
    rewrite dict_get_set, String.eqb_refl. eauto.
Qed.

Lemma merge_symbol_tables_binds (fuel : nat) (src stub : loc)
    (src_items stub_items : list (string * loc)) (self self' : MergeFiles) :
  heap self !! src = Some (OSymbolTable src_items) ->
  heap self !! stub = Some (OSymbolTable stub_items) ->
  merge_symbol_tables (merge_nodes fuel) src stub self = Returns tt self' ->
  exists src_items',
    heap self' !! src = Some (OSymbolTable src_items') /\
    (forall name sym, dict_get name stub_items = Some sym ->
       is_Some (dict_get name src_items')) /\
    (forall name sym, dict_get name src_items = Some sym ->
       dict_get name src_items' = Some sym).
Proof.
  intros Hsrc Hstub Hrun.
  pose proof (keeps_merge_symbol_tables (merge_nodes fuel) (keeps_merge_nodes fuel)
                src stub self self') as Hkeeps.
  rewrite Hrun in Hkeeps. specialize (Hkeeps eq_refl).
  destruct Hkeeps as (Hh & _).
  destruct (heap_evolves_lookup _ _ _ _ Hh Hsrc) as (o' & Ho' & Hs).
  destruct o' as [| | | | | | | | | |src_items']; try done.
  exists src_items'. split; [done|]. split; [|exact Hs].
  unfold merge_symbol_tables in Hrun.
  apply bind_Returns in Hrun as (items & self1 & Hitems & Hrun). kread.
  assert (items = stub_items) as -> by congruence.
  apply bind_Returns in Hrun as ([] & self1 & Hloop & Hrun).
  apply bind_Returns in Hrun as (now & self2 & Hnow & Hrun). kread.
  destruct (negb (length now =? length stub_items)%nat); [done|]. injection Hrun as <-.
  assert (forall name sym, (name, sym) ∈ [] ++ stub_items -> bound_in self1 src name)
    as Hbound.
  { eapply (for_each_inv _
              (fun done s => forall name sym, (name, sym) ∈ done -> bound_in s src name));
      [|by intros name sym ?%elem_of_nil|exact Hloop].
    intros done [name sym] s s' HI Hbody name' sym' [Hin|Hin]%elem_of_app.
    - eapply bound_in_evolves; [|by eapply HI].
      apply (keeps_merge_symbol_tables_body (merge_nodes fuel) (keeps_merge_nodes fuel)
               src stub (length stub_items) (name, sym) s). by rewrite Hbody.
    - apply list_elem_of_singleton in Hin as [= -> ->].
      by eapply merge_symbol_tables_body_binds. }
  intros name sym Hget. apply dict_get_Some_elem_of in Hget.
  destruct (Hbound name sym Hget) as (items' & Hsrc' & Hb).
  rewrite Ho' in Hsrc'. by injection Hsrc' as ->.
Qed.

(** X21: [merge_symbol_tables] merges every element of the stub into the
    source: when it returns, each name of the stub table is bound in the
    source table, each name the source table had is bound to the entry it
    was bound to, and the stub table has the names it had. *)
Theorem merge_symbol_tables_binds_every_stub_name (fuel : nat) (src stub : loc)
    (src_items stub_items : list (string * loc)) (self self' : MergeFiles) :
  heap self !! src = Some (OSymbolTable src_items) ->
  heap self !! stub = Some (OSymbolTable stub_items) ->
  merge_symbol_tables (merge_nodes fuel) src stub self = Returns tt self' ->
  exists src_items',
    heap self' !! src = Some (OSymbolTable src_items') /\
    (forall name sym, dict_get name stub_items = Some sym ->
       is_Some (dict_get name src_items')) /\
    (forall name sym, dict_get name src_items = Some sym ->
       dict_get name src_items' = Some sym).
Proof. apply merge_symbol_tables_binds. Qed.

(** *** [collect_assign_and_funcs] *)

(** The name under which an entry of a class body counts as a function:
    that of a function definition, or of the function of a decorator. *)
Definition func_name_of (h : gmap loc object) (entry : loc) : option string :=
  match h !! entry with
  | Some (OFuncDef f) => Some (FuncDef_name f)
  | Some (ODecorator d) =>
      match h !! func d with
      | Some (OFuncDef f) => Some (FuncDef_name f)
      | _ => None
      end
  | _ => None
  end.

(** The name under which an entry of a class body counts as an assignment:
    the one target of an assignment, when it is a name. *)
Definition assign_name_of (h : gmap loc object) (entry : loc) : option string :=
  match h !! entry with
  | Some (OAssignmentStmt a) =>
      match lvalues a with
      | [NameExpr n] => Some n
      | _ => None
      end
  | _ => None
  end.

Lemma last_filter_snoc {X} (P : X -> Prop) `{!forall x, Decision (P x)} (l : list X) (x : X) :
  last (filter P (l ++ [x])) = if decide (P x) then Some x else last (filter P l).
Proof.
  rewrite filter_app. destruct (decide (P x)) as [Hx|Hx].
  - rewrite (filter_cons_True P x []) by done. by rewrite filter_nil, last_snoc.
  - rewrite (filter_cons_False P x []) by done. by rewrite filter_nil, app_nil_r.
Qed.

Lemma simple_name_result_name (lv : list Expression) :
  (simple_name_result lv).2 = match lv with [NameExpr n] => Some n | _ => None end.
Proof. destruct lv as [|[] [|]]; reflexivity. Qed.

Lemma last_filter_dict_set (name_of : loc -> option string) (done : list loc) (entry : loc)
    (d : list (string * loc)) :
  (forall n, dict_get n d = last (filter (fun e => name_of e = Some n) done)) ->
  forall n,
    dict_get n (match name_of entry with Some k => dict_set k entry d | None => d end) =
    last (filter (fun e => name_of e = Some n) (done ++ [entry])).
Proof.
  intros H n. rewrite last_filter_snoc. destruct (name_of entry) as [k|] eqn:E.
  - rewrite dict_get_set. destruct (decide (Some k = Some n)) as [[= ->]|Hne].
    + by rewrite String.eqb_refl.
    + rewrite (proj2 (String.eqb_neq k n)) by congruence. apply H.
  - rewrite decide_False by done. apply H.
Qed.

(** One entry of the body, as [collect_assign_and_funcs] takes it up. *)
Lemma collect_assign_and_funcs_step entry assigns funcs s assigns' funcs' s' :
  (o ← read entry;
   match o with
   | OAssignmentStmt _ =>
       name ← simple_assignment_name entry is_NameExpr true;
       match name with
       | Some name => mret (dict_set name entry assigns, funcs)
       | None => mret (assigns, funcs)
       end
   | ODecorator d =>
       f ← read_FuncDef (func d);
       mret (assigns, dict_set (FuncDef_name f) entry funcs)
   | OFuncDef f => mret (assigns, dict_set (FuncDef_name f) entry funcs)
   | _ => mret (assigns, funcs)
   end) s = Returns (assigns', funcs') s' ->
  heap s' = heap s /\
  assigns' = match assign_name_of (heap s) entry with
             | Some k => dict_set k entry assigns
             | None => assigns
             end /\
  funcs' = match func_name_of (heap s) entry with
           | Some k => dict_set k entry funcs
           | None => funcs
           end.
Proof.
  intros Hbody. apply bind_Returns in Hbody as (o & s1 & Ho & Hbody). kread.
  unfold assign_name_of, func_name_of. rewrite Ho.
  destruct o; try (unfold mret, M_ret in Hbody; by injection Hbody as <- <- <-).
  - apply bind_Returns in Hbody as (name & s1 & Hname & Hbody).
    rewrite (run_simple_assignment_name entry a s) in Hname by done.
    injection Hname as <- <-. rewrite simple_name_result_name in Hbody.
    destruct (match lvalues a with [NameExpr n] => Some n | _ => None end);
      unfold mret, M_ret in Hbody; by injection Hbody as <- <- <-.
  - apply bind_Returns in Hbody as (f & s1 & Hfunc & Hbody). kread. rewrite Hfunc.
    unfold mret, M_ret in Hbody. by injection Hbody as <- <- <-.
Qed.

Lemma collect_assign_and_funcs_last body assigns funcs self self' :
  collect_assign_and_funcs body self = Returns (assigns, funcs) self' ->
  heap self' = heap self /\
  (forall n, dict_get n funcs =
             last (filter (fun e => func_name_of (heap self) e = Some n) body)) /\
  (forall n, dict_get n assigns =
             last (filter (fun e => assign_name_of (heap self) e = Some n) body)).
Proof.
  unfold collect_assign_and_funcs. intros Hrun.
  apply (for_each_acc_inv _
           (fun done acc s =>
              heap s = heap self /\
              (forall n, dict_get n acc.2 =
                         last (filter (fun e => func_name_of (heap self) e = Some n) done)) /\
              (forall n, dict_get n acc.1 =
                         last (filter (fun e => assign_name_of (heap self) e = Some n) done)))
           body) with (done := []) in Hrun; [done| |done].
  clear. intros done entry [assigns funcs] s [assigns' funcs'] s' (Hh & Hf & Ha) Hbody.
  apply collect_assign_and_funcs_step in Hbody as (Hh' & -> & ->). rewrite Hh in *.
  split; [done|]. simpl in *. split.
  - by apply (last_filter_dict_set (func_name_of (heap self))).
  - by apply (last_filter_dict_set (assign_name_of (heap self))).
Qed.

(** X22: Of the entries of a class body that define one name,
    [collect_assign_and_funcs] keeps the last: the function it gives for a
    name is the last function definition or decorated function of that
    name, the assignment it gives for a name the last assignment to that
    name alone; and it leaves the heap as it is. *)
Theorem collect_assign_and_funcs_keeps_last_definition (body : list loc)
    (assigns funcs : list (string * loc)) (self self' : MergeFiles) :
  collect_assign_and_funcs body self = Returns (assigns, funcs) self' ->
  heap self' = heap self /\
  (forall n, dict_get n funcs =
             last (filter (fun e => func_name_of (heap self) e = Some n) body)) /\
  (forall n, dict_get n assigns =
             last (filter (fun e => assign_name_of (heap self) e = Some n) body)).
Proof. apply collect_assign_and_funcs_last. Qed.

(** *** [enrich_src_assign_from_stub] *)

Lemma run_simple_assignment_name_member node a self :
  heap self !! node = Some (OAssignmentStmt a) ->
  simple_assignment_name node is_MemberExpr false self =
    Returns (match lvalues a with [MemberExpr _ n] => Some n | _ => None end) self.
Proof.
  intros H. unfold simple_assignment_name.
  rewrite run_bind, (run_read_AssignmentStmt _ _ _ H).
  destruct (lvalues a) as [|e [|e' lv]]; try reflexivity; destruct e; reflexivity.
Qed.

(** X23: An assignment of a constructor is matched against the assignments of
    the stub class by the name of the attribute it assigns to, whatever
    the object of the attribute is: on a match the type and the unanalyzed
    type of the stub assignment are copied and the name is taken out of
    the assignments left; without a match it is reported that the member
    has no stub definition; and an assignment to anything else than one
    attribute is passed over in silence. *)
Theorem enrich_src_assign_from_stub_matches_by_attribute_name (src_assign : loc)
    (a : AssignmentStmt) (stub_assign : list (string * loc)) (self : MergeFiles) :
  heap self !! src_assign = Some (OAssignmentStmt a) ->
  (forall e n stub b,
     lvalues a = [MemberExpr e n] ->
     dict_get n stub_assign = Some stub ->
     heap self !! stub = Some (OAssignmentStmt b) ->
     enrich_src_assign_from_stub src_assign stub_assign self =
       Returns (dict_remove n stub_assign, true)
         (mkMergeFiles
            (<[src_assign := OAssignmentStmt
                 (mkAssignmentStmt (lvalues a) (rvalue a)
                    (AssignmentStmt_type b) (AssignmentStmt_unanalyzed_type b)
                    (AssignmentStmt_line a) (AssignmentStmt_column a))]> (heap self))
            (errors self) (_line self) (_column self))) /\
  (forall e n,
     lvalues a = [MemberExpr e n] ->
     dict_get n stub_assign = None ->
     enrich_src_assign_from_stub src_assign stub_assign self =
       Returns (stub_assign, false)
         (mkMergeFiles (heap self)
            (errors self ++ [mkDiagnostic (_line self) (_column self)
                               (no_stub_definition_for_member n)])
            (_line self) (_column self))) /\
  ((forall e n, lvalues a <> [MemberExpr e n]) ->
   enrich_src_assign_from_stub src_assign stub_assign self = Returns (stub_assign, false) self).
Proof.
  intros Hsrc. unfold enrich_src_assign_from_stub.
  rewrite run_bind, (run_simple_assignment_name_member _ _ _ Hsrc).
  split_and!.
  - intros e n stub b Hlv Hn Hstub. rewrite Hlv. unfold loc in *. rewrite Hn.
    rewrite run_bind, (run_read_AssignmentStmt _ _ _ Hsrc).
    rewrite run_bind, (run_read_AssignmentStmt _ _ _ Hstub).
    rewrite run_bind, run_write, run_bind. unfold dict_del. by rewrite Hn, Hlv.
  - intros e n Hlv Hn. rewrite Hlv. unfold loc in *. by rewrite Hn.
  - intros Hlv. destruct (lvalues a) as [|[] [|]]; try reflexivity.
    by destruct (Hlv expr name).
Qed.

(** *** [source_definitions] *)

(** The statement at [d] defines the top-level name [n]: it is the class
    [n], or an assignment with the name [n] among its targets. *)
Definition defines (h : gmap loc object) (n : string) (d : loc) : bool :=
  match h !! d with
  | Some (OClassDef c) => String.eqb (ClassDef_name c) n
  | Some (OAssignmentStmt a) =>
      existsb (fun l => match l with NameExpr m => String.eqb m n | _ => false end)
        (lvalues a)
  | _ => false
  end.

Lemma dict_get_targets (n : string) (d : loc) (lv : list Expression) :
  forall acc : list (string * loc),
    dict_get n (foldl (fun acc l => match l with
                                    | NameExpr m => dict_set m d acc
                                    | _ => acc
                                    end) acc lv) =
    if existsb (fun l => match l with NameExpr m => String.eqb m n | _ => false end) lv
    then Some d else dict_get n acc.
Proof.
  induction lv as [|l lv IH]; intros acc; [done|]. cbn [foldl existsb].
  rewrite IH. destruct (existsb _ lv); [by rewrite orb_true_r|]. rewrite orb_false_r.
  destruct l; try done. by rewrite dict_get_set.
Qed.

Lemma last_filter_snoc_bool {X} (p : X -> bool) (l : list X) (x : X) :
  last (List.filter p (l ++ [x])) = if p x then Some x else last (List.filter p l).
Proof.
  rewrite List.filter_app. simpl. destruct (p x); [apply last_snoc|by rewrite app_nil_r].
Qed.

Lemma source_definitions_last src defs self self' :
  source_definitions src self = Returns defs self' ->
  self' = self /\
  forall n, dict_get n defs = last (List.filter (defines (heap self) n) (MypyFile_defs src)).
Proof.
  unfold source_definitions. intros Hrun.
  apply (for_each_acc_inv _
           (fun done acc s =>
              s = self /\
              forall n, dict_get n acc = last (List.filter (defines (heap self) n) done))
           (MypyFile_defs src)) with (done := []) in Hrun; [done| |done].
  clear. intros done d acc s acc' s' [-> Hacc] Hbody.
  apply bind_Returns in Hbody as (o & s1 & Ho & Hbody). kread.
  assert (s' = self /\
          forall n, dict_get n acc' = if defines (heap self) n d then Some d
                                      else dict_get n acc) as [-> Hacc'].
  { unfold defines. rewrite Ho.
    destruct o; unfold mret, M_ret in Hbody; injection Hbody as <- <-; split; try done.
    - intros n. apply dict_get_targets.
    - intros n. apply dict_get_set. }
  split; [done|]. intros n. rewrite last_filter_snoc_bool, Hacc'.
  by destruct (defines (heap self) n d).
Qed.

(** X24: [source_definitions] maps a name to the last top-level statement of
    the source file that defines it, a class definition of that name or an
    assignment with that name among its targets, and to nothing when
    there is none; it changes nothing. *)
Theorem source_definitions_gives_last_definition (src : MypyFile)
    (defs : list (string * loc)) (self self' : MergeFiles) :
  source_definitions src self = Returns defs self' ->
  self' = self /\
  forall n, dict_get n defs = last (List.filter (defines (heap self) n) (MypyFile_defs src)).
Proof. apply source_definitions_last. Qed.

(** *** [enrich_src_defs_with_stub_only] *)

(** The body of its loop over the statements of the stub. *)
Definition promote_or_merge (i : loc) (acc : list loc * list (string * loc))
    : M (list loc * list (string * loc)) :=
  let '(stub_definitions, src_definitions) := acc in
  o ← read i;
  if isinstance_ImportBase o then mret (stub_definitions ++ [i], src_definitions)
  else
    match o with
    | OClassDef c =>
        match dict_get (ClassDef_name c) src_definitions with
        | None => mret (stub_definitions ++ [i], src_definitions)
        | Some _ => mret (stub_definitions, src_definitions)
        end
    | OAssignmentStmt a =>
        match lvalues a with
        | [NameExpr name] =>
            match dict_get name src_definitions with
            | None => mret (stub_definitions ++ [i], src_definitions)
            | Some src_assignment =>
                s ← read src_assignment;
                match s with
                | OAssignmentStmt sa =>
                    write src_assignment (OAssignmentStmt
                      (mkAssignmentStmt (lvalues sa) (rvalue sa)
                         (AssignmentStmt_type a) (AssignmentStmt_unanalyzed_type a)
                         (AssignmentStmt_line sa) (AssignmentStmt_column sa))) ;;
                    src_definitions' ← dict_del name src_definitions;
                    mret (stub_definitions, src_definitions')
                | _ => mret (stub_definitions, src_definitions)
                end
            end
        | _ => mret (stub_definitions, src_definitions)
        end
    | _ => mret (stub_definitions, src_definitions)
    end.

Lemma enrich_src_defs_with_stub_only_unfold src stub :
  enrich_src_defs_with_stub_only src stub =
    (src_definitions ← source_definitions src;
     '(stub_definitions, _) ←
       for_each_acc (MypyFile_defs stub) promote_or_merge ([], src_definitions);
     mret (mkMypyFile (MypyFile_names src)
             (stub_definitions ++ MypyFile_defs src)
             (MypyFile_imports src ++ MypyFile_imports stub))).
Proof. reflexivity. Qed.

Lemma keeps_source_definitions src self : keeps_at (source_definitions src) self.
Proof.
  unfold source_definitions. apply keeps_for_each_acc. intros d acc self1.
  kbind. destruct a; kleaf.
Qed.

Lemma keeps_promote_or_merge i acc self : keeps_at (promote_or_merge i acc) self.
Proof.
  unfold promote_or_merge. destruct acc as [stub_definitions src_definitions].
  kbind. destruct (isinstance_ImportBase a); [kleaf|].
  destruct a; try kleaf.
  - destruct (lvalues a) as [|[] [|]]; try kleaf.
    destruct (dict_get name src_definitions) as [src_assignment|]; [|kleaf].
    kbind. destruct a0; try kleaf.
    apply keeps_bind; [eapply keeps_write; [eassumption|by simpl]|]. intros _ self2 _.
    kbind. kleaf.
  - destruct (dict_get _ _); kleaf.
Qed.

Lemma keeps_enrich_src_defs_with_stub_only src stub self :
  keeps_at (enrich_src_defs_with_stub_only src stub) self.
Proof.
  rewrite enrich_src_defs_with_stub_only_unfold.
  apply keeps_bind; [apply keeps_source_definitions|]. intros sd self1 _.
  apply keeps_bind; [apply keeps_for_each_acc; intros; apply keeps_promote_or_merge|].
  intros [p sd'] self2 _. kleaf.
Qed.

(** A statement that may be taken over from the stub: an import, a class
    definition or an assignment. *)
Definition promotable (o : object) : Prop :=
  isinstance_ImportBase o = true \/ class_of o = cls_ClassDef \/
  class_of o = cls_AssignmentStmt.

Lemma promote_or_merge_step i p sd s p' sd' s' :
  promote_or_merge i (p, sd) s = Returns (p', sd') s' ->
  exists o, heap s !! i = Some o /\
    if isinstance_ImportBase o then p' = p ++ [i]
    else p' = p \/ (p' = p ++ [i] /\ promotable o).
Proof.
  unfold promote_or_merge. intros Hrun.
  apply bind_Returns in Hrun as (o & s1 & Ho & Hrun). kread.
  exists o. split; [done|].
  destruct (isinstance_ImportBase o) eqn:Himp.
  { unfold mret, M_ret in Hrun. by injection Hrun as <- <- <-. }
  unfold promotable.
  destruct o; try (unfold mret, M_ret in Hrun; injection Hrun as <- <- <-; by left).
  - destruct (lvalues a) as [|[] [|]];
      try (unfold mret, M_ret in Hrun; injection Hrun as <- <- <-; by left).
    destruct (dict_get name sd) as [src_assignment|].
    + apply bind_Returns in Hrun as (o' & s1 & Ho' & Hrun). kread.
      destruct o'; try (unfold mret, M_ret in Hrun; injection Hrun as <- <- <-; by left).
      apply bind_Returns in Hrun as ([] & s1 & _ & Hrun).
      apply bind_Returns in Hrun as (sd1 & s2 & _ & Hrun).
      unfold mret, M_ret in Hrun. injection Hrun as <- <- <-. by left.
    + unfold mret, M_ret in Hrun. injection Hrun as <- <- <-. right. simpl. auto.
  - destruct (dict_get _ _); unfold mret, M_ret in Hrun; injection Hrun as <- <- <-;
      [by left|right; simpl; auto].
Qed.

Lemma heap_evolves_lookup_inv h h' l o' :
  heap_evolves h h' -> h' !! l = Some o' -> exists o, h !! l = Some o /\ same_shape o o'.
Proof.
  intros H Hl. specialize (H l). rewrite Hl in H.
  destruct (h !! l) as [o|]; [eauto|done].
Qed.

Lemma same_shape_ImportBase o o' :
  same_shape o o' -> isinstance_ImportBase o' = isinstance_ImportBase o.
Proof. destruct o, o'; simpl; try done. by intros [= -> _ _]. Qed.

Lemma same_shape_promotable o o' : same_shape o o' -> promotable o' -> promotable o.
Proof.
  intros Hs. unfold promotable.
  by rewrite (same_shape_ImportBase _ _ Hs), (same_shape_class _ _ Hs).
Qed.

Lemma enrich_src_defs_with_stub_only_promotes src stub src' self self' :
  enrich_src_defs_with_stub_only src stub self = Returns src' self' ->
  MypyFile_names src' = MypyFile_names src /\
  MypyFile_imports src' = MypyFile_imports src ++ MypyFile_imports stub /\
  exists promoted,
    MypyFile_defs src' = promoted ++ MypyFile_defs src /\
    sublist promoted (MypyFile_defs stub) /\
    (forall i o, i ∈ MypyFile_defs stub -> heap self !! i = Some o ->
       isinstance_ImportBase o = true -> i ∈ promoted) /\
    (forall i, i ∈ promoted -> exists o, heap self !! i = Some o /\ promotable o).
Proof.
  rewrite enrich_src_defs_with_stub_only_unfold. intros Hrun.
  apply bind_Returns in Hrun as (sd & self1 & Hsd & Hrun).
  apply source_definitions_last in Hsd as [-> _].
  apply bind_Returns in Hrun as ([promoted sd'] & self2 & Hloop & Hrun).
  unfold mret, M_ret in Hrun. injection Hrun as <- <-. simpl.
  split; [done|]. split; [done|]. exists promoted. split; [done|].
  apply (for_each_acc_inv _
           (fun done acc s =>
              evolves self s /\
              sublist acc.1 done /\
              (forall i o, i ∈ done -> heap self !! i = Some o ->
                 isinstance_ImportBase o = true -> i ∈ acc.1) /\
              (forall i, i ∈ acc.1 -> exists o, heap self !! i = Some o /\ promotable o))
           (MypyFile_defs stub)) with (done := []) in Hloop.
  - by destruct Hloop as (_ & ? & ? & ?).
  - clear. intros done i [p sd] s [p' sd'] s' (Hev & Hsub & Himp & Hpro) Hbody.
    cbn [fst snd] in *.
    assert (evolves self s') as Hev'.
    { eapply evolves_trans; [exact Hev|].
      apply (keeps_promote_or_merge i (p, sd) s). by rewrite Hbody. }
    split; [done|].
    apply promote_or_merge_step in Hbody as (o & Ho & Hstep).
    destruct Hev as (Hh & _).
    destruct (heap_evolves_lookup_inv _ _ _ _ Hh Ho) as (o0 & Ho0 & Hs).
    assert (p' = p ++ [i] /\ promotable o0 \/
            p' = p /\ isinstance_ImportBase o0 = false) as Hcases.
    { destruct (isinstance_ImportBase o) eqn:Hi.
      - left. split; [done|]. left. by rewrite <- (same_shape_ImportBase _ _ Hs).
      - rewrite (same_shape_ImportBase _ _ Hs) in Hi.
        destruct Hstep as [->|[-> Hp]]; [by right|left].
        split; [done|]. by eapply same_shape_promotable. }
    destruct Hcases as [[-> Hp]|[-> Hi]].
    + split_and!.
      * by apply sublist_app.
      * intros i' o' [Hin|Hin]%elem_of_app Ho' Hi'; apply elem_of_app; eauto.
      * intros i' [Hin|Hin]%elem_of_app; [eauto|].
        apply list_elem_of_singleton in Hin as ->. eauto.
    + split_and!.
      * by apply sublist_inserts_r.
      * intros i' o' [Hin|Hin]%elem_of_app Ho' Hi'; [eauto|].
        apply list_elem_of_singleton in Hin as ->. congruence.
      * done.
  - split; [apply evolves_refl|]. split; [constructor|].
    split; [by intros i o ?%elem_of_nil|by intros i ?%elem_of_nil].
Qed.

(** X25: What [enrich_src_defs_with_stub_only] does to the source file: the
    imports of the stub are appended to its imports; statements of the stub
    are put in front of its statements, which stay as they are and in their
    order; the statements put in front are statements of the stub in the
    order of the stub, every import of the stub is among them, and each of
    them is an import, a class definition or an assignment; the symbol
    table is the same object. *)
Theorem enrich_src_defs_with_stub_only_prepends_stub_definitions (src stub src' : MypyFile)
    (self self' : MergeFiles) :
  enrich_src_defs_with_stub_only src stub self = Returns src' self' ->
  MypyFile_names src' = MypyFile_names src /\
  MypyFile_imports src' = MypyFile_imports src ++ MypyFile_imports stub /\
  exists promoted,
    MypyFile_defs src' = promoted ++ MypyFile_defs src /\
    sublist promoted (MypyFile_defs stub) /\
    (forall i o, i ∈ MypyFile_defs stub -> heap self !! i = Some o ->
       isinstance_ImportBase o = true -> i ∈ promoted) /\
    (forall i, i ∈ promoted -> exists o, heap self !! i = Some o /\ promotable o).
Proof. apply enrich_src_defs_with_stub_only_promotes. Qed.

(** *** [run] *)

Lemma source_definitions_returns src self :
  (forall d, d ∈ MypyFile_defs src -> is_Some (heap self !! d)) ->
  exists defs, source_definitions src self = Returns defs self.
Proof.
  unfold source_definitions. generalize (@nil (string * loc)).
  induction (MypyFile_defs src) as [|d l IH]; intros acc Hl; cbn [for_each_acc].
  - by exists acc.
  - destruct (Hl d) as [o Ho]; [by left|].
    rewrite run_bind, run_bind, (run_read _ _ _ Ho).
    assert (forall acc', exists defs,
              for_each_acc l
                (fun d src_definitions =>
                   o ← read d;
                   match o with
                   | OClassDef c => mret (dict_set (ClassDef_name c) d src_definitions)
                   | OAssignmentStmt a =>
                       mret (foldl (fun acc l => match l with
                                                 | NameExpr n => dict_set n d acc
                                                 | _ => acc
                                                 end) src_definitions (lvalues a))
                   | _ => mret src_definitions
                   end) acc' self = Returns defs self) as Hrest.
    { intros acc'. apply IH. intros d' Hd'. apply Hl. by right. }
    destruct o; unfold mret, M_ret; cbn beta iota; apply Hrest.
Qed.

(** X26: The merge of a stub with nothing in it, no name in its symbol table,
    no statement and no import, changes nothing: the source file and the
    state are what they were. *)
Theorem run_with_empty_stub_changes_nothing (fuel : nat) (src stub : MypyFile)
    (self : MergeFiles) :
  heap self !! MypyFile_names stub = Some (OSymbolTable []) ->
  MypyFile_defs stub = [] ->
  MypyFile_imports stub = [] ->
  (forall d, d ∈ MypyFile_defs src -> is_Some (heap self !! d)) ->
  run fuel src stub self = Returns src self.
Proof.
  intros Hnames Hdefs Himports Hsrc. unfold run. rewrite run_bind.
  assert (merge_symbol_tables (merge_nodes fuel) (MypyFile_names src) (MypyFile_names stub)
            self = Returns tt self) as ->.
  { unfold merge_symbol_tables.
    rewrite run_bind, (run_read_SymbolTable _ _ _ Hnames). cbn [for_each].
    rewrite run_bind, run_ret, run_bind, (run_read_SymbolTable _ _ _ Hnames).
    reflexivity. }
  rewrite enrich_src_defs_with_stub_only_unfold, run_bind.
  destruct (source_definitions_returns src self Hsrc) as [defs ->].
  rewrite Hdefs, Himports. cbn [for_each_acc]. rewrite run_bind, run_ret.
  unfold mret, M_ret. rewrite app_nil_r. by destruct src.
Qed.

(** X27: What [run] does, when it returns: each name of the symbol table of the
    stub is bound in the symbol table of the source, and each name that the
    symbol table of the source had is bound to the entry it was bound to;
    the statements of the source file are still there, in their order,
    after the statements taken over from the stub; the imports of the stub
    are appended to the imports of the source; and no object of the heap
    has changed in anything but what a merge sets. *)
Theorem run_merges_names_and_keeps_source_statements (fuel : nat) (src stub src' : MypyFile)
    (src_items stub_items : list (string * loc)) (self self' : MergeFiles) :
  heap self !! MypyFile_names src = Some (OSymbolTable src_items) ->
  heap self !! MypyFile_names stub = Some (OSymbolTable stub_items) ->
  run fuel src stub self = Returns src' self' ->
  (exists src_items',
     heap self' !! MypyFile_names src' = Some (OSymbolTable src_items') /\
     (forall name sym, dict_get name stub_items = Some sym ->
        is_Some (dict_get name src_items')) /\
     (forall name sym, dict_get name src_items = Some sym ->
        dict_get name src_items' = Some sym)) /\
  MypyFile_defs src `suffix_of` MypyFile_defs src' /\
  MypyFile_imports src' = MypyFile_imports src ++ MypyFile_imports stub /\
  heap_evolves (heap self) (heap self').
Proof.
  intros Hsrc Hstub Hrun. unfold run in Hrun.
  apply bind_Returns in Hrun as ([] & self1 & Hmerge & Henrich).
  pose proof (keeps_enrich_src_defs_with_stub_only src stub self1 self') as Hkeeps.
  rewrite Henrich in Hkeeps. specialize (Hkeeps eq_refl). destruct Hkeeps as (Hh2 & _).
  pose proof (keeps_merge_symbol_tables (merge_nodes fuel) (keeps_merge_nodes fuel)
                (MypyFile_names src) (MypyFile_names stub) self self1) as Hkeeps.
  rewrite Hmerge in Hkeeps. specialize (Hkeeps eq_refl). destruct Hkeeps as (Hh1 & _).
  apply (merge_symbol_tables_binds _ _ _ _ _ _ _ Hsrc Hstub) in Hmerge
    as (items1 & Hitems1 & Hbound & Hkept).
  apply enrich_src_defs_with_stub_only_promotes in Henrich
    as (Hnames & Himports & promoted & Hdefs & _).
  split_and!.
  - rewrite Hnames.
    destruct (heap_evolves_lookup _ _ _ _ Hh2 Hitems1) as (o' & Ho' & Hs).
    destruct o' as [| | | | | | | | | |src_items']; try done.
    exists src_items'. split; [done|]. split.
    + intros name sym Hget. destruct (Hbound name sym Hget) as [v Hv]. exists v. by apply Hs.
    + intros name sym Hget. by apply Hs, Hkept.
  - rewrite Hdefs. by exists promoted.
  - done.
  - by eapply heap_evolves_trans.
Qed.

(** *** The properties at work *)

(** The merge of a class whose body has an assignment that the stub lacks
    raises; the report position is restored all the same. *)
Lemma merge_nodes_restores_position_and_appends_diagnostics_witness :
  exists self',
    merge_nodes 10 1%nat 2%nat (MergeFiles_init heap_class_with_assignment)
      = Raises (KeyError "x") self' /\
    _line self' = -1 /\ _column self' = 0 /\ exists ds, errors self' = [] ++ ds.
Proof.
  eexists.
  assert (merge_nodes 10 1%nat 2%nat (MergeFiles_init heap_class_with_assignment)
          = Raises (KeyError "x") _) as H by (vm_compute; reflexivity).
  split; [exact H|].
  apply (merge_nodes_restores_position_and_appends_diagnostics 10 1%nat 2%nat
           (MergeFiles_init heap_class_with_assignment) _).
  by rewrite H.
Defined.

(** The merge of two decorated functions. *)
Lemma merge_nodes_only_annotates_witness :
  exists self',
    merge_nodes 10 1%nat 2%nat (MergeFiles_init heap_decorated) = Returns tt self' /\
    (forall l, heap_decorated !! l = None <-> heap self' !! l = None) /\
    (forall l o o', heap_decorated !! l = Some o -> heap self' !! l = Some o' ->
       same_shape o o' /\ class_of o' = class_of o /\ line_of o' = line_of o).
Proof.
  eexists.
  assert (merge_nodes 10 1%nat 2%nat (MergeFiles_init heap_decorated) = Returns tt _) as H
    by (vm_compute; reflexivity).
  split; [exact H|].
  apply (merge_nodes_only_annotates 10 1%nat 2%nat (MergeFiles_init heap_decorated) _).
  by rewrite H.
Defined.

(** Two class definitions. *)
Lemma merge_nodes_of_unsupported_class_raises_witness :
  merge_nodes 1 3%nat 4%nat (MergeFiles_init heap_variables) =
    Raises RuntimeError_cannot_merge (MergeFiles_init heap_variables).
Proof.
  apply (merge_nodes_of_unsupported_class_raises 0 3%nat 4%nat
           (OClassDef (mkClassDef "C" [] [] 1 0)) (OClassDef (mkClassDef "C" [] [] 1 0)));
    [reflexivity|reflexivity|reflexivity|by_compute].
Defined.

(** A variable and [None]. *)
Lemma merge_nodes_with_stub_without_line_raises_witness :
  merge_nodes 1 1%nat 5%nat (MergeFiles_init heap_variables) =
    Raises AttributeError (MergeFiles_init heap_variables).
Proof.
  apply (merge_nodes_with_stub_without_line_raises 0 1%nat 5%nat
           (OVar (mkVar None 3 4)) ONone);
    [reflexivity|reflexivity|discriminate|reflexivity].
Defined.

(** The symbol tables of the two modules. *)
Lemma merge_symbol_tables_binds_every_stub_name_witness :
  exists self',
    merge_symbol_tables (merge_nodes 10) 1%nat 2%nat (MergeFiles_init heap_modules)
      = Returns tt self' /\
    exists src_items',
      heap self' !! 1%nat = Some (OSymbolTable src_items') /\
      (forall name sym,
         dict_get name [("A", 22%nat); ("P", 23%nat); ("x", 24%nat); ("T", 25%nat)] = Some sym ->
         is_Some (dict_get name src_items')) /\
      (forall name sym, dict_get name [("A", 20%nat); ("x", 21%nat)] = Some sym ->
         dict_get name src_items' = Some sym).
Proof.
  eexists.
  assert (merge_symbol_tables (merge_nodes 10) 1%nat 2%nat (MergeFiles_init heap_modules)
          = Returns tt _) as H by (vm_compute; reflexivity).
  split; [exact H|].
  apply (merge_symbol_tables_binds_every_stub_name 10 1%nat 2%nat _ _
           (MergeFiles_init heap_modules) _ eq_refl eq_refl H).
Defined.

(** The body of the stub class: [f] twice, the second one is kept. *)
Lemma collect_assign_and_funcs_keeps_last_definition_witness :
  exists self',
    collect_assign_and_funcs [1; 2; 3; 4; 5]%nat (MergeFiles_init heap_class_body)
      = Returns ([("x", 1%nat); ("y", 3%nat)], [("f", 4%nat); ("g", 5%nat)]) self' /\
    heap self' = heap_class_body /\
    (forall n, dict_get n [("f", 4%nat); ("g", 5%nat)] =
               last (filter (fun e => func_name_of heap_class_body e = Some n)
                       [1; 2; 3; 4; 5]%nat)) /\
    (forall n, dict_get n [("x", 1%nat); ("y", 3%nat)] =
               last (filter (fun e => assign_name_of heap_class_body e = Some n)
                       [1; 2; 3; 4; 5]%nat)).
Proof.
  eexists.
  assert (collect_assign_and_funcs [1; 2; 3; 4; 5]%nat (MergeFiles_init heap_class_body)
          = Returns ([("x", 1%nat); ("y", 3%nat)], [("f", 4%nat); ("g", 5%nat)]) _) as H
    by (vm_compute; reflexivity).
  split; [exact H|].
  apply (collect_assign_and_funcs_keeps_last_definition _ _ _
           (MergeFiles_init heap_class_body) _ H).
Defined.

(** [self.x = 1] and the stub assignment [x: int = ...]. *)
Lemma enrich_src_assign_from_stub_matches_by_attribute_name_witness :
  enrich_src_assign_from_stub 7%nat [("x", 1%nat)] (MergeFiles_init heap_class_body) =
    Returns ([], true)
      (mkMergeFiles
         (<[7%nat := OAssignmentStmt
              (mkAssignmentStmt [MemberExpr (NameExpr "self") "x"] (OtherExpr "IntExpr")
                 (Some "int") (Some "int") 10 8)]> heap_class_body)
         [] (-1) 0) /\
  enrich_src_assign_from_stub 7%nat [("y", 3%nat)] (MergeFiles_init heap_class_body) =
    Returns ([("y", 3%nat)], false)
      (mkMergeFiles heap_class_body
         [mkDiagnostic (-1) 0 (no_stub_definition_for_member "x")] (-1) 0).
Proof.
  pose proof (enrich_src_assign_from_stub_matches_by_attribute_name 7%nat
                (mkAssignmentStmt [MemberExpr (NameExpr "self") "x"] (OtherExpr "IntExpr")
                   None None 10 8)) as H.
  split.
  - apply (proj1 (H [("x", 1%nat)] (MergeFiles_init heap_class_body) eq_refl)
             (NameExpr "self") "x" 1%nat
             (mkAssignmentStmt [NameExpr "x"] EllipsisExpr (Some "int") (Some "int") 2 4));
      reflexivity.
  - apply (proj1 (proj2 (H [("y", 3%nat)] (MergeFiles_init heap_class_body) eq_refl))
             (NameExpr "self") "x"); reflexivity.
Defined.

(** The definitions of the source module. *)
Lemma source_definitions_gives_last_definition_witness :
  source_definitions file_src (MergeFiles_init heap_modules) =
    Returns [("A", 11%nat); ("x", 12%nat)] (MergeFiles_init heap_modules) /\
  forall n, dict_get n [("A", 11%nat); ("x", 12%nat)] =
            last (List.filter (defines heap_modules n) [10; 11; 12]%nat).
Proof.
  assert (source_definitions file_src (MergeFiles_init heap_modules) =
            Returns [("A", 11%nat); ("x", 12%nat)] (MergeFiles_init heap_modules)) as H
    by (vm_compute; reflexivity).
  split; [exact H|].
  apply (source_definitions_gives_last_definition file_src _ _ _ H).
Defined.

(** The statements of the stub module: the import, the class [P] and the
    alias [T] are put in front of the statements of the source module. *)
Lemma enrich_src_defs_with_stub_only_prepends_stub_definitions_witness :
  exists self',
    enrich_src_defs_with_stub_only file_src file_stub (MergeFiles_init heap_modules) =
      Returns (mkMypyFile 1%nat [13; 15; 17; 10; 11; 12]%nat [10; 13]%nat) self' /\
    exists promoted,
      [13; 15; 17; 10; 11; 12]%nat = promoted ++ [10; 11; 12]%nat /\
      sublist promoted [13; 14; 15; 16; 17]%nat /\
      (forall i o, i ∈ [13; 14; 15; 16; 17]%nat -> heap_modules !! i = Some o ->
         isinstance_ImportBase o = true -> i ∈ promoted) /\
      (forall i, i ∈ promoted -> exists o, heap_modules !! i = Some o /\ promotable o).
Proof.
  eexists.
  assert (enrich_src_defs_with_stub_only file_src file_stub (MergeFiles_init heap_modules) =
            Returns (mkMypyFile 1%nat [13; 15; 17; 10; 11; 12]%nat [10; 13]%nat) _) as H
    by (vm_compute; reflexivity).
  split; [exact H|].
  apply (enrich_src_defs_with_stub_only_prepends_stub_definitions file_src file_stub _
           (MergeFiles_init heap_modules) _ H).
Defined.

(** The source module and the empty stub. *)
Lemma run_with_empty_stub_changes_nothing_witness :
  run 10 file_src file_empty_stub (MergeFiles_init heap_modules) =
    Returns file_src (MergeFiles_init heap_modules).
Proof.
  apply (run_with_empty_stub_changes_nothing 10 file_src file_empty_stub
           (MergeFiles_init heap_modules)); [reflexivity|reflexivity|reflexivity|].
  apply Forall_forall. by_compute.
Defined.

(** The two modules. *)
Lemma run_merges_names_and_keeps_source_statements_witness :
  exists self',
    run 10 file_src file_stub (MergeFiles_init heap_modules) =
      Returns (mkMypyFile 1%nat [13; 15; 17; 10; 11; 12]%nat [10; 13]%nat) self' /\
    (exists src_items',
       heap self' !! 1%nat = Some (OSymbolTable src_items') /\
       (forall name sym,
          dict_get name [("A", 22%nat); ("P", 23%nat); ("x", 24%nat); ("T", 25%nat)] = Some sym ->
          is_Some (dict_get name src_items')) /\
       (forall name sym, dict_get name [("A", 20%nat); ("x", 21%nat)] = Some sym ->
          dict_get name src_items' = Some sym)) /\
    [10; 11; 12]%nat `suffix_of` [13; 15; 17; 10; 11; 12]%nat /\
    [10; 13]%nat = [10]%nat ++ [13]%nat /\
    heap_evolves heap_modules (heap self').
Proof.
  eexists.
  assert (run 10 file_src file_stub (MergeFiles_init heap_modules) =
            Returns (mkMypyFile 1%nat [13; 15; 17; 10; 11; 12]%nat [10; 13]%nat) _) as H
    by (vm_compute; reflexivity).
  split; [exact H|].
  apply (run_merges_names_and_keeps_source_statements 10 file_src file_stub _ _ _
           (MergeFiles_init heap_modules) _ eq_refl eq_refl H).
Defined.

End StubSrcMergeExtra.
